(** * Loan approval application: decision engine and submission ledger

    A shallow embedding of [decision_engine.py] (class [DecisionEngine]) and
    of the ledger functions and request handlers of [app.py], with the
    properties of the specification stated and proved over them.

    Conventions of the embedding.
    - A Python [dict] with string keys is a [gmap string value].
    - A Python exception is the [Raise] outcome of the [result] monad; a
      function that cannot raise is a plain function.
    - A Python [float] is a primitive binary64 [float]; a Python [int] is a
      [Z]. Mixed comparisons are exact, as in CPython.
    - [datetime.now()] is an explicit argument: an instant counted in
      microseconds. The ISO-8601 text that the handlers store under the keys
      [timestamp] and [contact_timestamp] is kept as the instant it denotes
      ([VTime]); no other key ever holds such a value.
    - [rules.json] and [messages.json] are not part of the sources: the
      engine is parametric in a [Rules] and a [Messages] record whose fields
      are the keys the code reads.
    - A Python [str] is the byte string of its UTF-8 encoding.
      [str.lower()] is the method of a class [StrLower], of which only the
      folding of ASCII text is known: every lemma and theorem that concerns
      it holds for every such method, the one of Python among them. The
      examples are evaluated with the method on ASCII text, [ascii_text]. *)

From Stdlib Require Import ZArith Lia Bool List Ascii String.
From Stdlib Require Import Floats.
From stdpp Require Import base option list strings gmap.

Set Warnings "-inexact-float,-register-all".

Local Open Scope string_scope.
Local Open Scope Z_scope.

(** ** Exceptions and results *)

Inductive exn :=
  | TypeError
  | KeyError
  | ValueError
  | AttributeError
  | ZeroDivisionError
  | OverflowError.

Inductive result (A : Type) :=
  | Ok (a : A)
  | Raise (e : exn).
Arguments Ok {A} a.
Arguments Raise {A} e.

(** Sequencing: the first exception raised ends the computation. The
    notation [x ← r; k] is stdpp's monadic bind. *)
#[global] Instance result_ret : MRet result := fun _ a => Ok a.
#[global] Instance result_bind : MBind result := fun _ _ k r =>
  match r with
  | Ok a => k a
  | Raise e => Raise e
  end.

(** ** Python numbers *)

Module PyNum.

Inductive num :=
  | Int (z : Z)
  | Float (f : float).

(** Exact comparison of an [int] with a [float] (CPython compares the
    mathematical values; [None] means unordered, the float is a NaN). *)
Definition int_float_compare (z : Z) (f : spec_float) : option comparison :=
  match f with
  | S754_nan => None
  | S754_infinity s => Some (if s then Gt else Lt)
  | S754_zero _ => Some (z ?= 0)
  | S754_finite s m e =>
      let v := cond_Zopp s (Zpos m) in
      Some (if 0 <=? e then z ?= v * 2 ^ e else z * 2 ^ (- e) ?= v)
  end.

Definition is_lt (c : option comparison) : bool :=
  match c with Some Lt => true | _ => false end.
Definition is_gt (c : option comparison) : bool :=
  match c with Some Gt => true | _ => false end.
Definition is_le (c : option comparison) : bool :=
  match c with Some (Lt | Eq) => true | _ => false end.
Definition is_ge (c : option comparison) : bool :=
  match c with Some (Gt | Eq) => true | _ => false end.

(** [a < b] *)
Definition ltb (a b : num) : bool :=
  match a, b with
  | Int x, Int y => (x <? y)%Z
  | Float x, Float y => (x <? y)%float
  | Int x, Float y => is_lt (int_float_compare x (Prim2SF y))
  | Float x, Int y => is_gt (int_float_compare y (Prim2SF x))
  end.

(** [a <= b] *)
Definition leb (a b : num) : bool :=
  match a, b with
  | Int x, Int y => (x <=? y)%Z
  | Float x, Float y => (x <=? y)%float
  | Int x, Float y => is_le (int_float_compare x (Prim2SF y))
  | Float x, Int y => is_ge (int_float_compare y (Prim2SF x))
  end.

(** [a > b] and [a >= b] *)
Definition gtb (a b : num) : bool := ltb b a.
Definition geb (a b : num) : bool := leb b a.

(** [float(z)]: round to nearest, ties to even; [OverflowError] when the
    rounded value is out of range. *)
Definition float_of_int (z : Z) : result float :=
  match binary_normalize prec emax z 0 false with
  | S754_infinity _ => Raise OverflowError
  | sf => Ok (SF2Prim sf)
  end.

(** [x / y] for two [int]s, [y] nonzero: the correctly rounded quotient. *)
Definition int_truediv (x y : Z) : result float :=
  let negate := xorb (x <? 0)%Z (y <? 0)%Z in
  if (x =? 0)%Z then Ok (SF2Prim (S754_zero negate))
  else
    let '(q, e, l) := SFdiv_core_binary prec emax (Z.abs x) 0 (Z.abs y) 0 in
    match binary_round_aux prec emax negate q e l with
    | S754_infinity _ => Raise OverflowError
    | sf => Ok (SF2Prim sf)
    end.

Definition to_float (a : num) : result float :=
  match a with
  | Int z => float_of_int z
  | Float f => Ok f
  end.

(** [a / b] (true division). *)
Definition truediv (a b : num) : result float :=
  match a, b with
  | Int x, Int y =>
      if (y =? 0)%Z then Raise ZeroDivisionError else int_truediv x y
  | _, _ =>
      x ← to_float a;
      y ← to_float b;
      if (y =? 0)%float then Raise ZeroDivisionError else Ok (x / y)%float
  end.

End PyNum.
Export PyNum.

(** ** Python strings *)

Module PyStr.

(** Strings are byte strings here (the UTF-8 encoding of a [str]); the
    addresses that [validate_email] admits are ASCII. *)

(** [s.isascii()] *)
Definition is_ascii (s : string) : bool :=
  forallb (fun c => (nat_of_ascii c <? 128)%nat) (list_ascii_of_string s).

(** What [str.lower()] does to ASCII text: the letters A to Z are folded,
    every other character is kept. *)
Definition lower_ascii (c : ascii) : ascii :=
  let n := nat_of_ascii c in
  if ((65 <=? n) && (n <=? 90))%nat then ascii_of_nat (n + 32) else c.

Fixpoint fold_ascii (s : string) : string :=
  match s with
  | EmptyString => EmptyString
  | String c s' => String (lower_ascii c) (fold_ascii s')
  end.

(** [str.lower()]. On text with other characters Python folds by the
    Unicode tables (capital letters with accents, the Kelvin sign, the
    final sigma), which are no part of the program: the method is taken
    as it is, and all that is used of it is what it does to ASCII text. *)
Class StrLower := {
  lower : string -> string;
  lower_ascii_text : forall s : string, is_ascii s = true -> lower s = fold_ascii s
}.

(** The method on ASCII text alone, for the examples. *)
#[export] Instance ascii_text : StrLower := {|
  lower := fold_ascii;
  lower_ascii_text := fun _ _ => eq_refl
|}.

(** [s.startswith(p)] *)
Fixpoint startswith (p s : string) : bool :=
  match p, s with
  | EmptyString, _ => true
  | String a p', String b s' => if Ascii.eqb a b then startswith p' s' else false
  | String _ _, EmptyString => false
  end.

(** [s.replace(old, new)] for a non-empty [old]: every occurrence, left to
    right, without overlap. [skip] counts the characters of a match that
    are still to be dropped. *)
Fixpoint replace_from (skip : nat) (old new s : string) : string :=
  match s with
  | EmptyString => EmptyString
  | String c s' =>
      match skip with
      | S k => replace_from k old new s'
      | O =>
          if startswith old s
          then new ++ replace_from (Nat.pred (String.length old)) old new s'
          else String c (replace_from O old new s')
      end
  end.

Definition replace (old new s : string) : string := replace_from 0 old new s.

End PyStr.
Export PyStr.

(** ** Formatting and rounding of floats *)

Module PyFormat.

(** [n / d] rounded to the nearest integer, ties to even ([0 <= n], [0 < d]). *)
Definition round_half_even (n d : Z) : Z :=
  let q := n / d in
  match 2 * (n mod d) ?= d with
  | Lt => q
  | Gt => q + 1
  | Eq => if Z.even q then q else q + 1
  end.

(** The magnitude [m * 2^e] of a finite float, in hundredths, rounded to
    the nearest integer (ties to even). Both the [.2f] presentation and
    [round(x, 2)] round the exact binary value this way. *)
Definition hundredths (m : positive) (e : Z) : Z :=
  if 0 <=? e then Zpos m * 100 * 2 ^ e
  else round_half_even (Zpos m * 100) (2 ^ (- e)).

Definition digit (d : Z) : ascii := ascii_of_nat (48 + Z.to_nat d).

Definition digits2 (n : Z) : string :=
  String (digit (n / 10)) (String (digit (n mod 10)) "").

Definition digits3 (n : Z) : string :=
  String (digit (n / 100)) (digits2 (n mod 100)).

(** The leading group of a grouped number: 1 to 3 digits, no padding. *)
Definition leading (n : Z) : string :=
  if n <? 10 then String (digit n) ""
  else if n <? 100 then digits2 n
  else digits3 n.

(** Decimal digits of [n] with a comma between groups of three. *)
Fixpoint grouped (fuel : nat) (n : Z) : string :=
  match fuel with
  | O => leading n
  | S k =>
      if n <? 1000 then leading n
      else grouped k (n / 1000) ++ "," ++ digits3 (n mod 1000)
  end.

Definition thousands (n : Z) : string := grouped (Z.to_nat (Z.log2 n)) n.

Definition sign_str (s : bool) : string := if s then "-" else "".

(** [format(f, ',.2f')] for a float. *)
Definition format_float (f : float) : string :=
  match Prim2SF f with
  | S754_nan => "nan"
  | S754_infinity s => sign_str s ++ "inf"
  | S754_zero s => sign_str s ++ "0.00"
  | S754_finite s m e =>
      let h := hundredths m e in
      sign_str s ++ thousands (h / 100) ++ "." ++ digits2 (h mod 100)
  end.

(** [round(f, 2)]: the float nearest to the value of [f] rounded to two
    decimals. NaN and the infinities round to themselves. (CPython raises
    [OverflowError] if the rounded value is out of range; with two digits
    that never happens, every float from [2^52] on being an integer.) *)
Definition round2 (f : float) : float :=
  match Prim2SF f with
  | S754_finite s m e =>
      let h := hundredths m e in
      if h =? 0 then SF2Prim (S754_zero s)
      else
        let '(q, e', l) := SFdiv_core_binary prec emax h 0 100 0 in
        SF2Prim (binary_round_aux prec emax s q e' l)
  | _ => f
  end.

End PyFormat.
Export PyFormat.

(** ** Values and dictionaries *)

(** The values a JSON document or a handler puts in a dictionary. [VTime]
    is the ISO-8601 text of an instant (see the conventions above). *)
Inductive value :=
  | VNone
  | VBool (b : bool)
  | VNum (n : num)
  | VStr (s : string)
  | VTime (t : Z)
  | VList (l : list value).

Abbreviation dict := (gmap string value).

(** The number a value stands for in arithmetic and comparisons ([bool] is
    a subclass of [int]); [None] for the values of other types. *)
Definition as_num (v : value) : option num :=
  match v with
  | VNum n => Some n
  | VBool b => Some (Int (if b then 1 else 0))
  | _ => None
  end.

Definition number (v : value) : result num :=
  match as_num v with
  | Some n => Ok n
  | None => Raise TypeError
  end.

(** Truth value of an object, as [if], [not] and [and] test it. *)
Definition truthy (v : value) : bool :=
  match v with
  | VNone => false
  | VBool b => b
  | VNum (Int z) => negb (z =? 0)%Z
  | VNum (Float f) => negb (f =? 0)%float
  | VStr s => negb (String.eqb s "")
  | VTime _ => true
  | VList l => match l with [] => false | _ => true end
  end.

(** [v < n], [v > n] for a number [n]: [TypeError] unless [v] is a number. *)
Definition py_lt (v : value) (n : num) : result bool :=
  a ← number v; Ok (ltb a n).
Definition py_gt (v : value) (n : num) : result bool :=
  a ← number v; Ok (gtb a n).

(** [a / b] *)
Definition py_truediv (a b : value) : result float :=
  x ← number a; y ← number b; truediv x y.

(** [d[key]] *)
Definition getitem (d : dict) (key : string) : result value :=
  match d !! key with
  | Some v => Ok v
  | None => Raise KeyError
  end.

(** [format(v, ',.2f')] *)
Definition format_2f (v : value) : result string :=
  match v with
  | VNum n => f ← to_float n; Ok (format_float f)
  | VBool b => Ok (format_float (if b then 1 else 0))
  | VStr _ | VTime _ => Raise ValueError
  | VNone | VList _ => Raise TypeError
  end.

(** ** Configuration *)

(** The keys of [rules.json] that the engine reads: [compliance.*],
    [credit_score_brackets.*] and [loan_to_income_ratio.max_ratio]. The
    thresholds are JSON numbers. *)
Record Rules := {
  required_fields : list string;
  minimum_credit_score : num;
  maximum_loan_amount : num;
  pre_approved_min : num;
  conditional_min : num;
  max_ratio : num
}.

(** An entry of [messages.json]'s [decisions] table. *)
Record Template := {
  title : value;
  message : string;
  next_steps : value
}.

(** An entry of the [contact_preference] table. *)
Record ContactTemplate := {
  contact_title : value;
  contact_message : string
}.

Record Messages := {
  decisions : gmap string Template;
  errors : gmap string value;
  contact_preference : gmap string ContactTemplate
}.

(** The dictionary [_check_compliance] returns. *)
Record Compliance := {
  valid : bool;
  reason : option string
}.

(** ** The decision engine ([decision_engine.py]) *)

Section DecisionEngine.

Context (rules : Rules) (messages : Messages) {L : StrLower}.

(** The loop over [required_fields]: the first field that is absent from
    the application or [None]. *)
Fixpoint first_missing (fields : list string) (application : dict) : option string :=
  match fields with
  | [] => None
  | field :: rest =>
      match application !! field with
      | None | Some VNone => Some field
      | Some _ => first_missing rest application
      end
  end.

Definition _check_compliance (application : dict) : result Compliance :=
  match first_missing (required_fields rules) application with
  | Some field =>
      Ok {| valid := false; reason := Some ("Missing required field: " ++ field) |}
  | None =>
      let credit_score := default (VNum (Int 0)) (application !! "credit_score") in
      low ← py_lt credit_score (minimum_credit_score rules);
      if low : bool then
        Ok {| valid := false; reason := Some "Credit score below minimum" |}
      else
        let loan_amount := default (VNum (Int 0)) (application !! "loan_amount") in
        high ← py_gt loan_amount (maximum_loan_amount rules);
        if high : bool then
          Ok {| valid := false; reason := Some "Loan amount exceeds maximum" |}
        else
          Ok {| valid := true; reason := None |}
  end.

Definition _make_decision (credit_score : num) (loan_to_income : float)
    (has_bankruptcy : bool) : string :=
  if geb credit_score (pre_approved_min rules)
     && negb has_bankruptcy
     && leb (Float loan_to_income) (max_ratio rules)
  then "pre_approved"
  else if geb credit_score (pre_approved_min rules) && has_bankruptcy
  then "conditional"
  else if geb credit_score (pre_approved_min rules)
          && gtb (Float loan_to_income) (max_ratio rules)
  then "conditional"
  else if leb (conditional_min rules) credit_score
          && ltb credit_score (pre_approved_min rules)
          && leb (Float loan_to_income) (Float 0.5)
  then "conditional"
  else "denied".

Definition _format_message (decision : string) (application : dict) : result dict :=
  fallback ← match decisions messages !! "denied" with
             | Some t => Ok t
             | None => Raise KeyError
             end;
  let message_template := default fallback (decisions messages !! decision) in
  amount ← format_2f (default (VNum (Int 0)) (application !! "loan_amount"));
  Ok (<["decision" := VStr decision]>
      (<["title" := title message_template]>
      (<["message" := VStr (replace "${loan_amount}" ("$" ++ amount)
                                    (message message_template))]>
      (<["next_steps" := next_steps message_template]> ∅)))).

(** [_make_decision] is called with the credit score as a number: its
    first comparison raises [TypeError] on anything else ([number] below),
    and the flag is only tested for truth. *)
Definition evaluate_application (application : dict) : result (string * dict) :=
  compliance_check ← _check_compliance application;
  if negb (valid compliance_check) then
    message_data ← _format_message "denied_compliance" application;
    Ok ("denied_compliance", message_data)
  else
    credit_score ← getitem application "credit_score";
    loan_amount ← getitem application "loan_amount";
    annual_income ← getitem application "annual_income";
    has_bankruptcy ← getitem application "has_bankruptcy";
    positive ← py_gt annual_income (Int 0);
    loan_to_income ← (if positive : bool
                      then py_truediv loan_amount annual_income
                      else Ok infinity);
    score ← number credit_score;
    let decision := _make_decision score loan_to_income (truthy has_bankruptcy) in
    message_data ← _format_message decision application;
    Ok (decision,
        <["loan_to_income_ratio" := VNum (Float (round2 loan_to_income))]> message_data).

(** [get_error_message] *)
Definition get_error_message (error_key : string) : result value :=
  fallback ← match errors messages !! "system_error" with
             | Some m => Ok m
             | None => Raise KeyError
             end;
  Ok (default fallback (errors messages !! error_key)).

(** [get_contact_message]: a dictionary with the keys [title] and [message]. *)
Definition get_contact_message (preference email : string) : result dict :=
  let pref_key := if String.eqb (lower preference) "yes" then "yes" else "no" in
  match contact_preference messages !! pref_key with
  | None => Raise KeyError
  | Some message_template =>
      Ok (<["title" := contact_title message_template]>
          (<["message" := VStr (replace "{email}" email
                                        (contact_message message_template))]> ∅))
  end.

End DecisionEngine.

(** ** The submission ledger and the request handlers ([app.py]) *)

Module App.

Definition RESUBMISSION_DAYS : Z := 7.

Definition microseconds_per_day : Z := 86400 * 1000000.

(** [(now - then).days]: [timedelta] keeps [0 <= seconds < 86400], so its
    [days] is the floor of the difference. *)
Definition days_between (now earlier : Z) : Z := (now - earlier) / microseconds_per_day.

(** The file [submissions.json]: [None] while it does not exist
    ([open] raises [FileNotFoundError]), else the list it holds. *)
Abbreviation store := (option (list dict)).

(** [v.lower()] for an object [v]; only a [str] has the method. *)
Definition str_lower {L : StrLower} (v : value) : result string :=
  match v with
  | VStr s => Ok (lower s)
  | _ => Raise AttributeError
  end.

(** [submission.get('email', '').lower()] *)
Definition email_lower {L : StrLower} (submission : dict) : result string :=
  str_lower (default (VStr "") (submission !! "email")).

(** [datetime.fromisoformat(submission['timestamp'])] *)
Definition submission_date (submission : dict) : result Z :=
  v ← getitem submission "timestamp";
  match v with
  | VTime t => Ok t
  | VStr _ => Raise ValueError
  | _ => Raise TypeError
  end.

(** The regular expression of [validate_email],
    [^[a-zA-Z0-9._%+-]+@[a-zA-Z0-9.-]+\.[a-zA-Z]{2,}$]. *)
Definition is_letter (c : ascii) : bool :=
  let n := nat_of_ascii c in
  ((65 <=? n) && (n <=? 90) || (97 <=? n) && (n <=? 122))%nat.

Definition is_alnum (c : ascii) : bool :=
  let n := nat_of_ascii c in
  (is_letter c || (48 <=? n) && (n <=? 57))%nat.

Definition local_char (c : ascii) : bool :=
  is_alnum c || existsb (Ascii.eqb c) ["."; "_"; "%"; "+"; "-"]%char.

Definition domain_char (c : ascii) : bool :=
  is_alnum c || existsb (Ascii.eqb c) ["."; "-"]%char.

(** Splits a list at the first element satisfying [p] (which is dropped). *)
Fixpoint split_at (p : ascii -> bool) (l : list ascii) : option (list ascii * list ascii) :=
  match l with
  | [] => None
  | c :: rest =>
      if p c then Some ([], rest)
      else match split_at p rest with
           | Some (before, after) => Some (c :: before, after)
           | None => None
           end
  end.

Definition validate_email (email : string) : bool :=
  match split_at (Ascii.eqb "@") (list_ascii_of_string email) with
  | None => false
  | Some (local, rest) =>
      (* [$] also matches before a final newline *)
      let rest := match rev rest with
                  | c :: r => if Ascii.eqb c "010" then rev r else rest
                  | [] => rest
                  end in
      (* the top-level domain is what follows the last dot *)
      match split_at (Ascii.eqb ".") (rev rest) with
      | None => false
      | Some (tld, domain) =>
          negb (Nat.eqb (length local) 0) && forallb local_char local
          && negb (Nat.eqb (length domain) 0) && forallb domain_char domain
          && (2 <=? length tld)%nat && forallb is_letter tld
      end
  end.

(** The loop of [check_existing_submission], over the records in the
    order it visits them. *)
Fixpoint scan_existing {L : StrLower} (now : Z) (email : value) (submissions : list dict)
    : result (bool * Z * option dict) :=
  match submissions with
  | [] => Ok (false, 0, None)
  | submission :: rest =>
      stored ← email_lower submission;
      wanted ← str_lower email;
      if String.eqb stored wanted then
        submission_date ← submission_date submission;
        let days_since := days_between now submission_date in
        if days_since <? RESUBMISSION_DAYS then
          let days_remaining := RESUBMISSION_DAYS - days_since in
          Ok (true, days_remaining, Some submission)
        else Ok (false, 0, Some submission)
      else scan_existing now email rest
  end.

(** Returns [(exists, days_remaining, old_submission)]. *)
Definition check_existing_submission {L : StrLower} (now : Z) (file : store) (email : value)
    : result (bool * Z * option dict) :=
  match file with
  | None => Ok (false, 0, None)
  | Some submissions => scan_existing now email (rev submissions)
  end.

(** The loop of [save_submission]: the index of the first record with the
    given (lowercased) email whose age is at least [RESUBMISSION_DAYS].
    The loop reads the clock once per record with that email; the reads
    of one call are taken as one instant [now]. *)
Fixpoint find_stale {L : StrLower} (now : Z) (email : string) (i : nat)
    (submissions : list dict)
    : result (option nat) :=
  match submissions with
  | [] => Ok None
  | sub :: rest =>
      stored ← email_lower sub;
      if String.eqb stored email then
        submission_date ← submission_date sub;
        if RESUBMISSION_DAYS <=? days_between now submission_date then Ok (Some i)
        else find_stale now email (S i) rest
      else find_stale now email (S i) rest
  end.

(** The file after [save_submission(data)]. An exception leaves the file
    as it was: it is written in the last statement only. *)
Definition save_submission {L : StrLower} (now : Z) (data : dict) (file : store)
    : result store :=
  let submissions := default [] file in
  address ← getitem data "email";
  email ← str_lower address;
  updated ← find_stale now email 0 submissions;
  match updated with
  | Some i => Ok (Some (<[i := data]> submissions))
  | None => Ok (Some (submissions ++ [data])%list)
  end.

(** *** Handlers *)

(** The fields of the posted form. [name] and [email] are the sanitized
    texts; the numeric fields are given by the outcome of [float(..)] and
    [int(..)] on the posted text, [None] when it raises [ValueError]. *)
Record Form := {
  name : string;
  email : string;
  loan_amount : option float;
  credit_score : option Z;
  annual_income : option float;
  has_bankruptcy : string
}.

(** What a handler answers. *)
Inductive response :=
  | FormError (error : value)
  | AlreadySubmitted (days_remaining : Z)
  | ResultPage (decision : string) (message_data : dict)
  | ApiMissingField (field : string)
  | ApiConflict (days_remaining : Z) (existing_submission : option dict)
  | ApiSuccess (decision : string) (message_data : dict)
  | ApiError (e : exn).

Section Handlers.

Context (rules : Rules) (messages : Messages) {L : StrLower}.

Definition form_error (file : store) (error_key : string) : result (store * response) :=
  error ← get_error_message messages error_key;
  Ok (file, FormError error).

(** [/submit]. The clock is read three times: in the eligibility check,
    for the timestamp of the application and in [save_submission]. *)
Definition submit_application (t_check t_stamp t_save : Z) (form : Form) (file : store)
    : result (store * response) :=
  if String.eqb (name form) "" || String.eqb (email form) "" then
    form_error file "missing_fields"
  else if negb (validate_email (email form)) then
    form_error file "invalid_email"
  else
    '(exists_, days_remaining, old_sub) ←
      check_existing_submission t_check file (VStr (email form));
    if exists_ : bool then Ok (file, AlreadySubmitted days_remaining)
    else
      match loan_amount form, credit_score form, annual_income form with
      | Some loan_amount, Some credit_score, Some annual_income =>
          let has_bankruptcy := String.eqb (has_bankruptcy form) "yes" in
          if negb ((300 <=? credit_score) && (credit_score <=? 850)) then
            form_error file "invalid_credit_score"
          else if leb (Float loan_amount) (Int 0) then
            form_error file "invalid_loan_amount"
          else if leb (Float annual_income) (Int 0) then
            form_error file "invalid_income"
          else
            let application : dict :=
              <["name" := VStr (name form)]>
              (<["email" := VStr (email form)]>
              (<["loan_amount" := VNum (Float loan_amount)]>
              (<["credit_score" := VNum (Int credit_score)]>
              (<["annual_income" := VNum (Float annual_income)]>
              (<["has_bankruptcy" := VBool has_bankruptcy]>
              (<["timestamp" := VTime t_stamp]> ∅)))))) in
            '(decision, message_data) ← evaluate_application rules messages application;
            let submission_record :=
              <["contact_requested" := VNone]>
              (<["decision" := VStr decision]> application) in
            file' ← save_submission t_save submission_record file;
            Ok (file', ResultPage decision message_data)
      | _, _, _ => form_error file "system_error"
      end.

(** The loop of [contact_preference], over the records from the most
    recent one: the first record with the given email gets the two
    contact fields. *)
Fixpoint mark_contact (now : Z) (preference : string) (email : string)
    (submissions : list dict) : result (list dict) :=
  match submissions with
  | [] => Ok []
  | submission :: rest =>
      stored ← email_lower submission;
      if String.eqb stored (lower email) then
        Ok (<["contact_timestamp" := VTime now]>
            (<["contact_requested" := VBool (String.eqb preference "yes")]> submission)
            :: rest)
      else
        rest' ← mark_contact now preference email rest;
        Ok (submission :: rest')
  end.

(** [/contact]. Whatever goes wrong while the file is updated is
    swallowed ([except Exception: pass]) and the file is left as it was. *)
Definition contact_preference (now : Z) (preference email : string) (file : store)
    : store * result dict :=
  let file' :=
    match file with
    | None => file
    | Some submissions =>
        match mark_contact now preference email (rev submissions) with
        | Ok marked => Some (rev marked)
        | Raise _ => file
        end
    end in
  (file', get_contact_message messages preference email).

(** [/api/evaluate], for a request body that is a JSON object. *)
Definition api_evaluate (t_check t_stamp t_save : Z) (application : dict) (file : store)
    : store * response :=
  let required :=
    ["name"; "email"; "loan_amount"; "credit_score"; "annual_income"; "has_bankruptcy"] in
  match List.find (fun field => bool_decide (application !! field = None)) required with
  | Some field => (file, ApiMissingField field)
  | None =>
      let outcome :=
        address ← getitem application "email";
        '(exists_, days_remaining, old_sub) ← check_existing_submission t_check file address;
        if exists_ : bool then Ok (file, ApiConflict days_remaining old_sub)
        else
          let application := <["timestamp" := VTime t_stamp]> application in
          '(decision, message_data) ← evaluate_application rules messages application;
          let submission_record :=
            <["source" := VStr "api"]> (<["decision" := VStr decision]> application) in
          file' ← save_submission t_save submission_record file;
          Ok (file', ApiSuccess decision message_data) in
      match outcome with
      | Ok r => r
      | Raise e => (file, ApiError e)
      end
  end.

End Handlers.

End App.

(** ** The decision matrix of the specification *)

(** The four conditions of the matrix, as the specification states them. *)
Section Matrix.

Context (rules : Rules).

Definition rule1 (credit_score : num) (ratio : float) (has_bankruptcy : bool) : bool :=
  geb credit_score (pre_approved_min rules)
  && negb has_bankruptcy
  && leb (Float ratio) (max_ratio rules).

Definition rule2 (credit_score : num) (ratio : float) (has_bankruptcy : bool) : bool :=
  geb credit_score (pre_approved_min rules) && has_bankruptcy.

Definition rule3 (credit_score : num) (ratio : float) (has_bankruptcy : bool) : bool :=
  geb credit_score (pre_approved_min rules)
  && gtb (Float ratio) (max_ratio rules).

Definition rule4 (credit_score : num) (ratio : float) (has_bankruptcy : bool) : bool :=
  leb (conditional_min rules) credit_score
  && ltb credit_score (pre_approved_min rules)
  && leb (Float ratio) (Float 0.5).

(** Rows are tried top to bottom; the first whose condition holds wins. *)
Fixpoint first_match (rows : list (bool * string)) (otherwise : string) : string :=
  match rows with
  | [] => otherwise
  | (applies, verdict) :: rest => if applies then verdict else first_match rest otherwise
  end.

Definition decision_matrix (credit_score : num) (ratio : float)
    (has_bankruptcy : bool) : string :=
  first_match
    [ (rule1 credit_score ratio has_bankruptcy, "pre_approved");
      (rule2 credit_score ratio has_bankruptcy, "conditional");
      (rule3 credit_score ratio has_bankruptcy, "conditional");
      (rule4 credit_score ratio has_bankruptcy, "conditional") ]
    "denied".

(** The same matrix with rows 2 and 3 exchanged. *)
Definition decision_matrix_swapped (credit_score : num) (ratio : float)
    (has_bankruptcy : bool) : string :=
  first_match
    [ (rule1 credit_score ratio has_bankruptcy, "pre_approved");
      (rule3 credit_score ratio has_bankruptcy, "conditional");
      (rule2 credit_score ratio has_bankruptcy, "conditional");
      (rule4 credit_score ratio has_bankruptcy, "conditional") ]
    "denied".

End Matrix.

(** ** Sample configuration *)

(** Modelled from the spec: [rules.json] is not among the sources. The
    values [conditional_min = 620] and [max_ratio = 0.4] are those of the
    specification's examples, [required_fields] is the list the API handler
    checks; the remaining thresholds are illustrative and agree with the
    examples (780 is pre-approved, 250 is below the minimum). They are used
    for concrete evaluations only; every general theorem is stated for an
    arbitrary [Rules]. *)
Definition sample_rules : Rules := {|
  required_fields :=
    ["name"; "email"; "loan_amount"; "credit_score"; "annual_income"; "has_bankruptcy"];
  minimum_credit_score := Int 300;
  maximum_loan_amount := Int 1000000;
  pre_approved_min := Int 720;
  conditional_min := Int 620;
  max_ratio := Float 0.4
|}.

(** Modelled from the spec: [messages.json] is not among the sources. One
    template per decision, each message with the [${loan_amount}]
    placeholder, and the two contact confirmations with the [{email}]
    placeholder; the texts are illustrative. Used for concrete evaluations
    only. *)
Definition sample_template (heading body : string) : Template := {|
  title := VStr heading;
  message := body;
  next_steps := VList [VStr "An agent will be in touch."]
|}.

Definition sample_messages : Messages := {|
  decisions :=
    <["pre_approved" := sample_template "Pre-approved"
        "Your loan of ${loan_amount} is pre-approved."]>
    (<["conditional" := sample_template "Conditional"
        "Your loan of ${loan_amount} needs a review."]>
    (<["denied" := sample_template "Denied"
        "We cannot offer a loan of ${loan_amount}."]>
    (<["denied_compliance" := sample_template "Not eligible"
        "Your request for ${loan_amount} does not meet our requirements."]> ∅)));
  errors :=
    <["system_error" := VStr "Something went wrong."]>
    (<["missing_fields" := VStr "Please fill in all fields."]>
    (<["invalid_email" := VStr "Please enter a valid email."]> ∅));
  contact_preference :=
    <["yes" := {| contact_title := VStr "Thank you";
                  contact_message := "We will contact you at {email}." |}]>
    (<["no" := {| contact_title := VStr "Understood";
                  contact_message := "We will not contact {email}." |}]> ∅)
|}.

(** An application as [submit_application] builds it. *)
Definition sample_application (loan_amount : value) (credit_score : Z)
    (annual_income : float) (has_bankruptcy : bool) : dict :=
  <["name" := VStr "Ada"]>
  (<["email" := VStr "ada@example.com"]>
  (<["loan_amount" := loan_amount]>
  (<["credit_score" := VNum (Int credit_score)]>
  (<["annual_income" := VNum (Float annual_income)]>
  (<["has_bankruptcy" := VBool has_bankruptcy]> ∅))))).

(** ** Notions used in the statements *)

(** The typed input of the specification: an integer credit score,
    numbers for the two amounts (floats as [submit_application] builds
    them, or the integers of a JSON body) and a boolean. *)
Record well_typed (application : dict) (credit_score : Z)
    (loan_amount annual_income : num) (has_bankruptcy : bool) : Prop := {
  wt_credit_score : application !! "credit_score" = Some (VNum (Int credit_score));
  wt_loan_amount : application !! "loan_amount" = Some (VNum loan_amount);
  wt_annual_income : application !! "annual_income" = Some (VNum annual_income);
  wt_has_bankruptcy : application !! "has_bankruptcy" = Some (VBool has_bankruptcy)
}.

(** The loan-to-income ratio of step 2 of the specification: the quotient
    when the income is positive, positive infinity otherwise. (A quotient
    of integers too large for a float raises [OverflowError].) *)
Definition loan_to_income (loan_amount annual_income : num) : result float :=
  if gtb annual_income (Int 0) then truediv loan_amount annual_income
  else Ok infinity.


(** The dictionary of step 4: the fields of a template, the amount
    substituted for the placeholder. *)
Definition message_dict (decision : string) (t : Template) (amount : string) : dict :=
  <["decision" := VStr decision]>
  (<["title" := title t]>
  (<["message" := VStr (replace "${loan_amount}" ("$" ++ amount) (message t))]>
  (<["next_steps" := next_steps t]> ∅))).







(** [h] hundredths is the value [m * 2^e] rounded to two decimals: no
    two-decimal value is nearer, and of two nearest ones [h] is the even. *)
Definition nearest_hundredths (m : positive) (e : Z) (h : Z) : Prop :=
  if 0 <=? e then h = 100 * Zpos m * 2 ^ e
  else 2 * Z.abs (h * 2 ^ (- e) - 100 * Zpos m) <= 2 ^ (- e)
       /\ (2 * Z.abs (h * 2 ^ (- e) - 100 * Zpos m) = 2 ^ (- e) -> Z.even h = true).


(** [old] occurs in [s]. *)
Definition occurs (old s : string) : Prop :=
  exists a b : string, s = a ++ old ++ b.

(** [result] is [template] with [old] replaced by [new]: a template in
    which [old] does not occur is left as it is; otherwise the template is
    cut at the first occurrence of [old] (in [before ++ old] there is no
    occurrence before the final one), [new] is put in its place, and what
    follows the occurrence is treated in the same way. *)
Inductive replaced (old new : string) : string -> string -> Prop :=
  | replaced_none (template : string) :
      ~ occurs old template -> replaced old new template template
  | replaced_first (before rest result : string) :
      (forall a b : string, before ++ old = a ++ old ++ b -> b = "") ->
      replaced old new rest result ->
      replaced old new (before ++ old ++ rest) (before ++ new ++ result).

(** [r] is [x] rounded to two decimals. For a finite [x] of magnitude
    [m * 2^e], with [h] the whole number of hundredths nearest to the
    magnitude (ties to even), [r] is the quotient of [h] by 100 as IEEE
    754 division rounds it, that is the float nearest to the two-decimal
    number [h / 100], with the sign of [x]. Zeros, infinities and NaN are
    rounded to themselves. *)
Definition rounded_to_hundredths (x r : float) : Prop :=
  match Prim2SF x with
  | S754_finite sign m e =>
      exists h : Z,
        nearest_hundredths m e h
        /\ r = SF2Prim match h with
                       | Zpos p =>
                           SFdiv prec emax (S754_finite sign p 0) (S754_finite false 100 0)
                       | _ => S754_zero sign
                       end
  | _ => r = x
  end.

(** *** The ledger *)

(** A record as the handlers write it: a text under [email] (or no such
    key, which the code reads as the empty text) and an instant under
    [timestamp]. *)
Definition well_formed (submission : dict) : bool :=
  match submission !! "email" with
  | None | Some (VStr _) => true
  | Some _ => false
  end
  && match submission !! "timestamp" with
     | Some (VTime _) => true
     | _ => false
     end.

(** The normalized (lowercased) email of a record and its instant. *)
Definition normalized_email {L : StrLower} (submission : dict) : string :=
  match submission !! "email" with
  | Some (VStr s) => lower s
  | _ => ""
  end.

Definition timestamp (submission : dict) : Z :=
  match submission !! "timestamp" with
  | Some (VTime t) => t
  | _ => 0
  end.

(** The whole days elapsed at [now] since a record was written. *)
Definition elapsed_days (now : Z) (submission : dict) : Z :=
  App.days_between now (timestamp submission).

(** The record matches the queried email, case-insensitively. *)
Definition same_email {L : StrLower} (email : string) (submission : dict) : bool :=
  String.eqb (normalized_email submission) (lower email).

(** The most recent record of an email: the last one in ledger order. *)
Definition most_recent {L : StrLower} (email : string) (submissions : list dict)
    : option dict :=
  last (List.filter (same_email email) submissions).

(** A record that [save_submission] may overwrite: same normalized email,
    at least seven days old. *)
Definition stale {L : StrLower} (now : Z) (email : string) (submission : dict) : bool :=
  same_email email submission && (App.RESUBMISSION_DAYS <=? elapsed_days now submission).

(** A record within the cooldown window at [now]. *)
Definition active (now : Z) (submission : dict) : bool :=
  elapsed_days now submission <? App.RESUBMISSION_DAYS.

(** *** The application as a state machine over the ledger file *)

(** A request, with the instants at which its handler reads the clock. *)
Inductive request :=
  | SubmitForm (t_check t_stamp t_save : Z) (form : App.Form)
  | ApiEvaluate (t_check t_stamp t_save : Z) (application : dict)
  | ContactPreference (now : Z) (preference email : string).

(** The file after a request. A handler that raises has written nothing. *)
Definition handle {L : StrLower} (rules : Rules) (messages : Messages)
    (file : App.store) (r : request)
    : App.store :=
  match r with
  | SubmitForm t_check t_stamp t_save form =>
      match App.submit_application rules messages t_check t_stamp t_save form file with
      | Ok (file', _) => file'
      | Raise _ => file
      end
  | ApiEvaluate t_check t_stamp t_save application =>
      fst (App.api_evaluate rules messages t_check t_stamp t_save application file)
  | ContactPreference now preference email =>
      fst (App.contact_preference messages now preference email file)
  end.

Definition serve {L : StrLower} (rules : Rules) (messages : Messages)
    (requests : list request)
    (file : App.store) : App.store :=
  fold_left (handle rules messages) requests file.

(** The clock does not go back while a request is handled. *)
Definition clock_ordered (r : request) : Prop :=
  match r with
  | SubmitForm t_check t_stamp t_save _
  | ApiEvaluate t_check t_stamp t_save _ => t_check <= t_stamp <= t_save
  | ContactPreference _ _ _ => True
  end.

(** A ledger record for the examples. *)
Definition sample_record (email : string) (t : Z) : dict :=
  <["contact_requested" := VNone]>
  (<["decision" := VStr "denied"]>
  (<["timestamp" := VTime t]>
  (<["email" := VStr email]>
  (<["name" := VStr "Ada"]> ∅)))).

Definition day : Z := App.microseconds_per_day.
Definition hour : Z := 3600 * 1000000.

Definition sample_ledger : list dict :=
  [ sample_record "Ada@Example.com" 0;
    sample_record "bob@example.org" day;
    sample_record "ada@example.com" (2 * day) ].

(** The invariant of the ledger file: well-formed records, and no
    normalized email twice. *)
Definition emails {L : StrLower} (submissions : list dict) : list string :=
  normalized_email <$> submissions.

Definition ledger_invariant {L : StrLower} (file : App.store) : Prop :=
  Forall (fun s => well_formed s = true) (default [] file)
  /\ NoDup (emails (default [] file)).

(** A form and a run of requests for the examples: a submission, a second
    one three days later (blocked), one from another applicant through the
    API, a contact preference, and a resubmission after eight days. *)
Definition sample_form (email : string) : App.Form := {|
  App.name := "Ada";
  App.email := email;
  App.loan_amount := Some 10000%float;
  App.credit_score := Some 780;
  App.annual_income := Some 50000%float;
  App.has_bankruptcy := "no"
|}.

Definition sample_requests : list request :=
  [ SubmitForm 0 1 2 (sample_form "ada@example.com");
    SubmitForm (3 * day) (3 * day + 1) (3 * day + 2) (sample_form "Ada@Example.com");
    ApiEvaluate (4 * day) (4 * day + 1) (4 * day + 2)
      (<["email" := VStr "Bob@example.org"]>
         (sample_application (VNum (Int 40000)) 780 50000 false));
    ContactPreference (5 * day) "yes" "ada@example.com";
    SubmitForm (8 * day) (8 * day + 1) (8 * day + 2) (sample_form "ADA@example.com") ].

(** *** The email pattern *)

(** The strings the regular expression of [validate_email] matches, read
    off the pattern: a local part of one or more characters of its class,
    an at sign, a domain of one or more characters of its class, a dot,
    two or more letters, and then the end of the string or one final
    newline (which [$] lets through). *)
Definition email_pattern (email : string) : Prop :=
  exists (local domain tld : list ascii) (newline : bool),
    list_ascii_of_string email
    = (local ++ "@"%char :: domain ++ "."%char :: tld
         ++ (if newline then ["010"%char] else []))%list
    /\ local <> [] /\ forallb App.local_char local = true
    /\ domain <> [] /\ forallb App.domain_char domain = true
    /\ (2 <= length tld)%nat /\ forallb App.is_letter tld = true.

(** *** What the handlers build *)

(** The application that [submit_application] builds from a form whose
    numeric fields have been parsed, the record it saves, and the record
    that [api_evaluate] saves. *)
Definition form_application (form : App.Form) (loan_amount : float) (credit_score : Z)
    (annual_income : float) (t_stamp : Z) : dict :=
  <["name" := VStr (App.name form)]>
  (<["email" := VStr (App.email form)]>
  (<["loan_amount" := VNum (Float loan_amount)]>
  (<["credit_score" := VNum (Int credit_score)]>
  (<["annual_income" := VNum (Float annual_income)]>
  (<["has_bankruptcy" := VBool (String.eqb (App.has_bankruptcy form) "yes")]>
  (<["timestamp" := VTime t_stamp]> ∅)))))).

Definition form_record (application : dict) (decision : string) : dict :=
  <["contact_requested" := VNone]> (<["decision" := VStr decision]> application).

Definition api_record (application : dict) (t_stamp : Z) (decision : string) : dict :=
  <["source" := VStr "api"]>
  (<["decision" := VStr decision]> (<["timestamp" := VTime t_stamp]> application)).

(** The checks of [submit_application] on a form, the eligibility check
    apart: a name, an email of the pattern, numeric fields that parse, a
    credit score from 300 to 850, and amounts that are not [<= 0]. *)
Definition form_valid (form : App.Form) (loan_amount : float) (credit_score : Z)
    (annual_income : float) : Prop :=
  App.name form <> ""
  /\ App.validate_email (App.email form) = true
  /\ App.loan_amount form = Some loan_amount
  /\ App.credit_score form = Some credit_score
  /\ App.annual_income form = Some annual_income
  /\ 300 <= credit_score <= 850
  /\ leb (Float loan_amount) (Int 0) = false
  /\ leb (Float annual_income) (Int 0) = false.

(** The record that [contact_preference] writes back. *)
Definition contact_marked (now : Z) (preference : string) (submission : dict) : dict :=
  <["contact_timestamp" := VTime now]>
  (<["contact_requested" := VBool (String.eqb preference "yes")]> submission).

(** The email a request is about: the one of the form, the text under
    [email] in the body of an API request (the empty text when there is
    none), the one posted with a contact preference. *)
Definition request_email (r : request) : string :=
  match r with
  | SubmitForm _ _ _ form => App.email form
  | ApiEvaluate _ _ _ application =>
      match application !! "email" with
      | Some (VStr address) => address
      | _ => ""
      end
  | ContactPreference _ _ email => email
  end.

(** * Properties *)

(** A closed equation is settled by evaluating its left-hand side in the
    virtual machine. *)
Ltac evaluate :=
  lazymatch goal with |- ?l = ?r => exact (@eq_refl _ r <: l = r) end.

(** ** Facts on number comparison *)

Lemma SFcompare_antisym (x y : spec_float) :
  SFcompare y x = option_map CompOpp (SFcompare x y).
Proof.
  destruct x as [sx|sx| |sx mx ex], y as [sy|sy| |sy my ey]; simpl;
    try reflexivity; try (destruct sx; reflexivity); try (destruct sy; reflexivity);
    try (destruct sx, sy; reflexivity).
  destruct sx, sy; simpl; try reflexivity;
    rewrite (Z.compare_antisym ex ey); destruct (ex ?= ey); simpl; try reflexivity;
    rewrite <- (Pos.compare_cont_antisym _ _ Eq); simpl;
    try rewrite CompOpp_involutive; reflexivity.
Qed.

Lemma float_leb_not_gtb (x y : float) :
  (x <=? y)%float = true -> (y <? x)%float = false.
Proof.
  rewrite leb_spec, ltb_spec. unfold SFleb, SFltb.
  rewrite (SFcompare_antisym (Prim2SF x) (Prim2SF y)).
  destruct (SFcompare (Prim2SF x) (Prim2SF y)) as [[]|]; simpl; congruence.
Qed.

(** [a <= b] excludes [a > b], for ints, floats and mixed operands. *)
Lemma leb_not_gtb (a b : num) : leb a b = true -> gtb a b = false.
Proof.
  unfold gtb. destruct a as [x|x], b as [y|y]; simpl.
  - intros H. apply Z.leb_le in H. apply Z.ltb_ge. exact H.
  - destruct (int_float_compare x (Prim2SF y)) as [[]|]; simpl; congruence.
  - destruct (int_float_compare y (Prim2SF x)) as [[]|]; simpl; congruence.
  - apply float_leb_not_gtb.
Qed.

Lemma geb_not_ltb (a b : num) : geb a b = true -> ltb a b = false.
Proof. unfold geb. intros H. apply (leb_not_gtb b a H). Qed.

(** ** The decision matrix (C1, C6) *)

Section MatrixFacts.

Context (rules : Rules).

Lemma rule1_excludes (credit_score : num) (ratio : float) (has_bankruptcy : bool) :
  rule1 rules credit_score ratio has_bankruptcy = true ->
  rule2 rules credit_score ratio has_bankruptcy = false
  /\ rule3 rules credit_score ratio has_bankruptcy = false
  /\ rule4 rules credit_score ratio has_bankruptcy = false.
Proof.
  unfold rule1, rule2, rule3, rule4. intros H.
  apply andb_prop in H as [H Hratio]. apply andb_prop in H as [Hscore Hbk].
  apply negb_true_iff in Hbk. subst has_bankruptcy.
  rewrite (leb_not_gtb _ _ Hratio), (geb_not_ltb _ _ Hscore).
  rewrite !andb_false_r. simpl. auto.
Qed.

Lemma make_decision_matrix (credit_score : num) (ratio : float) (has_bankruptcy : bool) :
  _make_decision rules credit_score ratio has_bankruptcy
  = decision_matrix rules credit_score ratio has_bankruptcy.
Proof. reflexivity. Qed.

End MatrixFacts.

(** C1. [_make_decision] is the decision matrix of the specification read
    top to bottom, first match winning: [pre_approved] when rule 1 holds,
    [conditional] when rule 2, 3 or 4 holds, [denied] in every remaining
    case; the result is always one of these three values. *)
Theorem make_decision_is_matrix
    (rules : Rules) (credit_score : num) (ratio : float) (has_bankruptcy : bool) :
  let decision := _make_decision rules credit_score ratio has_bankruptcy in
  decision = decision_matrix rules credit_score ratio has_bankruptcy
  /\ (rule1 rules credit_score ratio has_bankruptcy = true -> decision = "pre_approved")
  /\ (rule2 rules credit_score ratio has_bankruptcy = true
      \/ rule3 rules credit_score ratio has_bankruptcy = true
      \/ rule4 rules credit_score ratio has_bankruptcy = true ->
      decision = "conditional")
  /\ (rule1 rules credit_score ratio has_bankruptcy = false
      /\ rule2 rules credit_score ratio has_bankruptcy = false
      /\ rule3 rules credit_score ratio has_bankruptcy = false
      /\ rule4 rules credit_score ratio has_bankruptcy = false ->
      decision = "denied")
  /\ (decision = "pre_approved" \/ decision = "conditional" \/ decision = "denied").
Proof.
  intros decision. subst decision. rewrite make_decision_matrix.
  pose proof (rule1_excludes rules credit_score ratio has_bankruptcy) as Hex.
  unfold decision_matrix, first_match.
  destruct (rule1 rules credit_score ratio has_bankruptcy) eqn:H1.
  - destruct (Hex eq_refl) as (H2 & H3 & H4). rewrite H2, H3, H4.
    repeat split; auto.
    + intros [?|[?|?]]; discriminate.
    + intros (? & _); discriminate.
  - clear Hex.
    destruct (rule2 rules credit_score ratio has_bankruptcy) eqn:H2;
    destruct (rule3 rules credit_score ratio has_bankruptcy) eqn:H3;
    destruct (rule4 rules credit_score ratio has_bankruptcy) eqn:H4;
    repeat split; auto; try discriminate;
    try (intros (_ & ? & ? & ?); discriminate);
    try (intros [?|[?|?]]; discriminate).
Qed.

(** C6, as stated, fails: with rule 1 false, rules 2 and 3 can hold
    together (excellent credit, a bankruptcy and a ratio above the
    maximum). *)
Lemma rules_2_3_not_exclusive :
  ~ (forall (rules : Rules) (credit_score : num) (ratio : float) (has_bankruptcy : bool),
       rule1 rules credit_score ratio has_bankruptcy = false ->
       ~ (rule2 rules credit_score ratio has_bankruptcy = true
          /\ rule3 rules credit_score ratio has_bankruptcy = true)).
Proof.
  intros H. apply (H sample_rules (Int 780) 0.8%float true); vm_compute; auto.
Qed.

(** C6, amended. Rules 2 and 3 may hold together, but then both give
    [conditional]: the matrix with rows 2 and 3 exchanged returns the
    decision of [_make_decision] on every input. *)
Theorem rules_2_3_order_irrelevant
    (rules : Rules) (credit_score : num) (ratio : float) (has_bankruptcy : bool) :
  decision_matrix_swapped rules credit_score ratio has_bankruptcy
  = _make_decision rules credit_score ratio has_bankruptcy.
Proof.
  rewrite make_decision_matrix. unfold decision_matrix_swapped, decision_matrix, first_match.
  destruct (rule1 rules credit_score ratio has_bankruptcy),
           (rule2 rules credit_score ratio has_bankruptcy),
           (rule3 rules credit_score ratio has_bankruptcy); reflexivity.
Qed.

(** ** Facts on the result monad *)

Lemma bind_Ok {A B} (r : result A) (k : A -> result B) (b : B) :
  r ≫= k = Ok b -> exists a, r = Ok a /\ k a = Ok b.
Proof. destruct r as [a|e]; simpl; [eauto | discriminate]. Qed.

(** ** Formatting facts *)











(** ** Facts on the engine *)

Ltac unfold_bind := unfold mbind, result_bind.

Lemma prim2sf_zero : Prim2SF 0 = S754_zero false.
Proof. evaluate. Qed.

(** A float that is greater than [0] is not [0.0]: the division of
    [evaluate_application] never has a zero divisor. *)
Lemma positive_nonzero (x : float) :
  gtb (Float x) (Int 0) = true -> (x =? 0)%float = false.
Proof.
  unfold gtb. cbn [ltb]. rewrite FloatAxioms.eqb_spec, prim2sf_zero. unfold SFeqb.
  destruct (Prim2SF x) as [s|s| |s m e]; cbn; try discriminate; try (destruct s; reflexivity).
Qed.

(** On floats the ratio is always defined: no exception, no division by
    zero. *)
Lemma loan_to_income_float (loan_amount annual_income : float) :
  loan_to_income (Float loan_amount) (Float annual_income)
  = Ok (if gtb (Float annual_income) (Int 0) then (loan_amount / annual_income)%float
        else infinity).
Proof.
  unfold loan_to_income. destruct (gtb (Float annual_income) (Int 0)) eqn:Hpos; [|reflexivity].
  cbn [truediv to_float]. unfold_bind. now rewrite (positive_nonzero _ Hpos).
Qed.

Section EngineFacts.

Context (rules : Rules) (messages : Messages).

Lemma make_decision_cases (credit_score : num) (ratio : float) (has_bankruptcy : bool) :
  let decision := _make_decision rules credit_score ratio has_bankruptcy in
  decision = "pre_approved" \/ decision = "conditional" \/ decision = "denied".
Proof.
  unfold _make_decision.
  repeat match goal with |- context [if ?c then _ else _] => destruct c end; auto.
Qed.

Lemma make_decision_not_compliance (credit_score : num) (ratio : float) (has_bankruptcy : bool) :
  _make_decision rules credit_score ratio has_bankruptcy <> "denied_compliance".
Proof.
  destruct (make_decision_cases credit_score ratio has_bankruptcy) as [H|[H|H]];
    rewrite H; discriminate.
Qed.

(** [_format_message] in terms of the template and the formatted amount. *)
Lemma format_message_eq (decision : string) (application : dict) :
  _format_message messages decision application
  = (fallback ← match decisions messages !! "denied" with
                | Some t => Ok t
                | None => Raise KeyError
                end;
     amount ← format_2f (default (VNum (Int 0)) (application !! "loan_amount"));
     Ok (message_dict decision (default fallback (decisions messages !! decision)) amount)).
Proof. reflexivity. Qed.

Lemma format_message_Ok (decision : string) (application md : dict) :
  _format_message messages decision application = Ok md ->
  exists fallback amount,
    decisions messages !! "denied" = Some fallback
    /\ format_2f (default (VNum (Int 0)) (application !! "loan_amount")) = Ok amount
    /\ md = message_dict decision (default fallback (decisions messages !! decision)) amount.
Proof.
  rewrite format_message_eq. intros H.
  destruct (bind_Ok _ _ _ H) as (fallback & Hf & H1).
  destruct (bind_Ok _ _ _ H1) as (amount & Ha & H2).
  exists fallback, amount. repeat split; [|exact Ha|congruence].
  destruct (decisions messages !! "denied"); [congruence|discriminate].
Qed.



(** The amount of a well-typed application is formatted when it
    converts to a float. *)
Lemma format_message_number (decision : string) (application : dict)
    (fallback : Template) (loan_amount : num) (amount : float) :
  decisions messages !! "denied" = Some fallback ->
  application !! "loan_amount" = Some (VNum loan_amount) ->
  to_float loan_amount = Ok amount ->
  _format_message messages decision application
  = Ok (message_dict decision (default fallback (decisions messages !! decision))
          (format_float amount)).
Proof.
  intros Hf Hl Hto. rewrite format_message_eq, Hf, Hl.
  change (default (VNum (Int 0)) (Some (VNum loan_amount))) with (VNum loan_amount).
  cbn [format_2f]. now rewrite Hto.
Qed.

(** *** The compliance gate *)

Lemma first_missing_None (fields : list string) (application : dict) :
  first_missing fields application = None <->
  Forall (fun field => exists v, application !! field = Some v /\ v <> VNone) fields.
Proof.
  induction fields as [|field rest IH]; cbn [first_missing].
  - split; [constructor|reflexivity].
  - destruct (application !! field) as [v|] eqn:Hv.
    + assert (Hcase : v = VNone \/ v <> VNone) by (destruct v; auto; right; discriminate).
      destruct Hcase as [->|Hne].
      * split; [discriminate|]. intros H.
        inversion H as [|? ? (v & Hv' & Hne) _]; subst. congruence.
      * transitivity (first_missing rest application = None).
        { destruct v; try reflexivity. contradiction. }
        rewrite IH. split; intros H.
        -- constructor; [eauto|exact H].
        -- inversion H; assumption.
    + split; [discriminate|]. intros H.
      inversion H as [|? ? (v & Hv' & _) _]; subst. congruence.
Qed.

Lemma first_missing_Some (fields : list string) (application : dict) (field : string) :
  first_missing fields application = Some field ->
  In field fields /\ (application !! field = None \/ application !! field = Some VNone).
Proof.
  induction fields as [|f rest IH]; cbn [first_missing]; [discriminate|].
  destruct (application !! f) as [v|] eqn:Hv.
  - assert (Hcase : v = VNone \/ v <> VNone) by (destruct v; auto; right; discriminate).
    destruct Hcase as [->|Hne].
    + intros H. injection H as <-. split; [now left|auto].
    + intros H. assert (H' : first_missing rest application = Some field).
      { destruct v; try exact H. contradiction. }
      destruct (IH H') as [Hin Hm]. split; [now right|exact Hm].
  - intros H. injection H as <-. split; [now left|auto].
Qed.

(** The gate, for an application whose credit score and loan amount are
    numbers (when present): it fails exactly when a required field is
    absent or [None], the credit score is below the minimum, or the loan
    amount is above the maximum. *)
Lemma check_compliance_spec (application : dict) (score amount : num) :
  as_num (default (VNum (Int 0)) (application !! "credit_score")) = Some score ->
  as_num (default (VNum (Int 0)) (application !! "loan_amount")) = Some amount ->
  exists c, _check_compliance rules application = Ok c
    /\ (valid c = false <->
        Exists (fun field => application !! field = None
                             \/ application !! field = Some VNone) (required_fields rules)
        \/ ltb score (minimum_credit_score rules) = true
        \/ gtb amount (maximum_loan_amount rules) = true).
Proof.
  intros Hs Ha. unfold _check_compliance.
  destruct (first_missing (required_fields rules) application) as [field|] eqn:Hm.
  - eexists. split; [reflexivity|]. simpl. split; [intros _|reflexivity].
    left. apply first_missing_Some in Hm as [Hin Hf].
    apply Exists_exists. exists field. split; [|exact Hf].
    apply list_elem_of_In. exact Hin.
  - assert (Hno : ~ Exists (fun field => application !! field = None
                             \/ application !! field = Some VNone) (required_fields rules)).
    { apply first_missing_None in Hm. intros Hex.
      apply Exists_exists in Hex as (f & Hin & Hf).
      rewrite Forall_forall in Hm. destruct (Hm f Hin) as (v & Hv & Hne).
      destruct Hf; congruence. }
    unfold py_lt, py_gt, number. rewrite Hs, Ha. unfold_bind.
    destruct (ltb score (minimum_credit_score rules)) eqn:Hlow.
    + eexists. split; [reflexivity|]. simpl. tauto.
    + destruct (gtb amount (maximum_loan_amount rules)) eqn:Hhigh.
      * eexists. split; [reflexivity|]. simpl. tauto.
      * eexists. split; [reflexivity|]. simpl.
        split; [discriminate|]. intros [H|[H|H]]; [contradiction|discriminate|discriminate].
Qed.

(** A failed gate short-circuits: the result is the [denied_compliance]
    message, whatever the other fields hold. *)
Lemma evaluate_application_short_circuit (application : dict) (c : Compliance) :
  _check_compliance rules application = Ok c -> valid c = false ->
  evaluate_application rules messages application
  = (message_data ← _format_message messages "denied_compliance" application;
     Ok ("denied_compliance", message_data)).
Proof. intros Hc Hv. unfold evaluate_application. rewrite Hc. unfold_bind. rewrite Hv. reflexivity. Qed.

(** The gate passed, on a well-typed application: the ratio is computed,
    the matrix is consulted and the message is formatted. *)
Lemma evaluate_application_compliant (application : dict) (c : Compliance)
    (credit_score : Z) (loan_amount annual_income : num) (has_bankruptcy : bool)
    (amount ratio : float) (fallback : Template) :
  well_typed application credit_score loan_amount annual_income has_bankruptcy ->
  to_float loan_amount = Ok amount ->
  loan_to_income loan_amount annual_income = Ok ratio ->
  decisions messages !! "denied" = Some fallback ->
  _check_compliance rules application = Ok c -> valid c = true ->
  let decision := _make_decision rules (Int credit_score) ratio has_bankruptcy in
  evaluate_application rules messages application
  = Ok (decision,
        <["loan_to_income_ratio" := VNum (Float (round2 ratio))]>
          (message_dict decision (default fallback (decisions messages !! decision))
             (format_float amount))).
Proof.
  intros [Hcs Hla Hinc Hbk] Hto Hratio Hf Hc Hv decision.
  unfold evaluate_application. rewrite Hc. unfold_bind. rewrite Hv. cbn [negb].
  unfold getitem. rewrite Hcs, Hla, Hinc, Hbk.
  unfold py_gt, py_truediv, number. cbn [as_num]. unfold_bind.
  fold (loan_to_income loan_amount annual_income). rewrite Hratio. cbn [truthy].
  rewrite (format_message_number _ _ _ _ _ Hf Hla Hto). reflexivity.
Qed.

(** The gate never raises on a well-typed application. *)
Lemma check_compliance_total (application : dict)
    (credit_score : Z) (loan_amount annual_income : num) (has_bankruptcy : bool) :
  well_typed application credit_score loan_amount annual_income has_bankruptcy ->
  exists c, _check_compliance rules application = Ok c.
Proof.
  intros [Hcs Hla _ _].
  destruct (check_compliance_spec application (Int credit_score) loan_amount)
    as (c & Hc & _); [rewrite Hcs|rewrite Hla|]; eauto.
Qed.

(** [evaluate_application] returns on every well-typed application whose
    amounts are floats. *)
Lemma evaluate_application_returns (application : dict)
    (credit_score : Z) (loan_amount annual_income : float) (has_bankruptcy : bool)
    (fallback : Template) :
  well_typed application credit_score (Float loan_amount) (Float annual_income)
    has_bankruptcy ->
  decisions messages !! "denied" = Some fallback ->
  exists decision message_data,
    evaluate_application rules messages application = Ok (decision, message_data).
Proof.
  intros Hwt Hf. destruct (check_compliance_total _ _ _ _ _ Hwt) as (c & Hc).
  destruct (valid c) eqn:Hv.
  - eexists _, _.
    apply (evaluate_application_compliant _ _ _ _ _ _ _ _ _ Hwt eq_refl
             (loan_to_income_float _ _) Hf Hc Hv).
  - rewrite (evaluate_application_short_circuit _ _ Hc Hv).
    rewrite (format_message_number _ _ _ _ _ Hf (wt_loan_amount _ _ _ _ _ Hwt) eq_refl).
    eexists _, _. reflexivity.
Qed.

End EngineFacts.

(** ** The compliance gate (C2) *)

(** Apart from a null loan amount, the gate and its short circuit are as
    the specification says: see [check_compliance_spec] and
    [evaluate_application_short_circuit]. A loan amount that is [None]
    makes every evaluation raise, whatever the configuration. *)
Lemma null_loan_amount_never_returns (rules : Rules) (messages : Messages)
    (application : dict) :
  application !! "loan_amount" = Some VNone ->
  exists e, evaluate_application rules messages application = Raise e.
Proof.
  intros Hnull.
  assert (Hfmt : forall decision, exists e,
            _format_message messages decision application = Raise e).
  { intros decision. rewrite format_message_eq, Hnull.
    destruct (decisions messages !! "denied"); eexists; reflexivity. }
  unfold evaluate_application.
  destruct (_check_compliance rules application) as [c|e] eqn:Hc; [|eexists; reflexivity].
  unfold_bind. destruct (valid c) eqn:Hv; cbn [negb].
  - exfalso. revert Hc. unfold _check_compliance.
    destruct (first_missing (required_fields rules) application).
    + intros [= <-]. discriminate.
    + rewrite Hnull. unfold_bind.
      destruct (py_lt _ _) as [[]|]; try discriminate.
      * intros [= <-]. discriminate.
  - destruct (Hfmt "denied_compliance") as (e & ->). eexists. reflexivity.
Qed.

(** C2. On an application whose required loan amount is null, the gate
    reports the missing field yet [evaluate_application] does not return
    [denied_compliance]: formatting the message raises [TypeError]. *)
Theorem null_loan_amount_raises :
  _check_compliance sample_rules (sample_application VNone 700 50000 false)
  = Ok {| valid := false; reason := Some "Missing required field: loan_amount" |}
  /\ evaluate_application sample_rules sample_messages
       (sample_application VNone 700 50000 false)
     = Raise TypeError.
Proof. split; evaluate. Qed.

(** ** Income that is not positive (C7) *)

Lemma round2_infinity : round2 infinity = infinity.
Proof. evaluate. Qed.

(** C7. A well-typed application that passes the gate with an annual
    income of zero or less (an int or a float) is evaluated without an
    exception: the ratio is positive infinity, no division being
    evaluated, and the decision is the one of the matrix at that ratio. *)
Theorem nonpositive_income_no_crash
    (rules : Rules) (messages : Messages) (application : dict) (c : Compliance)
    (credit_score : Z) (loan_amount annual_income : num) (has_bankruptcy : bool)
    (amount : float) (fallback : Template) :
  well_typed application credit_score loan_amount annual_income has_bankruptcy ->
  to_float loan_amount = Ok amount ->
  decisions messages !! "denied" = Some fallback ->
  _check_compliance rules application = Ok c -> valid c = true ->
  leb annual_income (Int 0) = true ->
  loan_to_income loan_amount annual_income = Ok infinity
  /\ exists message_data,
       evaluate_application rules messages application
       = Ok (decision_matrix rules (Int credit_score) infinity has_bankruptcy, message_data)
       /\ message_data !! "loan_to_income_ratio" = Some (VNum (Float infinity)).
Proof.
  intros Hwt Hto Hf Hc Hv Hle.
  assert (Hr : loan_to_income loan_amount annual_income = Ok infinity).
  { unfold loan_to_income. now rewrite (leb_not_gtb _ _ Hle). }
  split; [exact Hr|].
  pose proof (evaluate_application_compliant rules messages _ _ _ _ _ _ _ _ _
                Hwt Hto Hr Hf Hc Hv) as He.
  cbv zeta in He. rewrite round2_infinity in He.
  eexists. split; [exact He|]. apply lookup_insert_eq.
Qed.

Lemma nonpositive_income_no_crash_witness :
  exists message_data,
    evaluate_application sample_rules sample_messages
      (<["annual_income" := VNum (Int 0)]>
         (sample_application (VNum (Float 10000)) 780 50000 false))
    = Ok ("conditional", message_data)
    /\ message_data !! "loan_to_income_ratio" = Some (VNum (Float infinity)).
Proof.
  apply (nonpositive_income_no_crash sample_rules sample_messages
           (<["annual_income" := VNum (Int 0)]>
              (sample_application (VNum (Float 10000)) 780 50000 false))
           {| valid := true; reason := None |} 780 (Float 10000) (Int 0) false 10000
           (sample_template "Denied" "We cannot offer a loan of ${loan_amount}.")).
  - split; evaluate.
  - reflexivity.
  - evaluate.
  - evaluate.
  - reflexivity.
  - evaluate.
Defined.

Example zero_float_income :
  fst <$> (match evaluate_application sample_rules sample_messages
             (sample_application (VNum (Float 10000)) 680 0 false) with
           | Ok r => Some r | Raise _ => None end)
  = Some "denied".
Proof. evaluate. Qed.

(** ** The ratio in the message data (C10) *)



(** ** The amount a formatted float denotes *)


Lemma append_cons (c : ascii) (a b : string) : String c a ++ b = String c (a ++ b).
Proof. reflexivity. Qed.














(** ** Message formatting (C8) *)


(** *** The placeholder *)

Lemma append_assoc (a b c : string) : (a ++ b) ++ c = a ++ b ++ c.
Proof. induction a as [|x a IH]; [reflexivity|]. rewrite !append_cons. now f_equal. Qed.

Lemma length_append (a b : string) :
  String.length (a ++ b) = (String.length a + String.length b)%nat.
Proof.
  induction a as [|x a IH]; [reflexivity|]. rewrite append_cons. cbn [String.length].
  now rewrite IH.
Qed.

Lemma length_zero (s : string) : String.length s = 0%nat -> s = "".
Proof. destruct s; [reflexivity|discriminate]. Qed.

Lemma startswith_append (old rest : string) : startswith old (old ++ rest) = true.
Proof.
  induction old as [|c old IH]; [reflexivity|]. rewrite append_cons. cbn [startswith].
  now rewrite Ascii.eqb_refl.
Qed.

Lemma startswith_prefix (old s : string) :
  startswith old s = true -> exists rest, s = old ++ rest.
Proof.
  revert s. induction old as [|c old IH]; intros s H; [now exists s|].
  destruct s as [|d s]; [discriminate H|]. cbn [startswith] in H.
  destruct (Ascii.eqb_spec c d) as [->|_]; [|discriminate H].
  destruct (IH s H) as (rest & ->). exists rest. now rewrite append_cons.
Qed.

Lemma replace_from_skip (old new skipped rest : string) :
  replace_from (String.length skipped) old new (skipped ++ rest)
  = replace_from 0 old new rest.
Proof.
  induction skipped as [|c skipped IH]; [reflexivity|].
  rewrite append_cons. cbn [String.length replace_from]. exact IH.
Qed.

Lemma replace_match (old new rest : string) :
  old <> "" -> replace old new (old ++ rest) = new ++ replace old new rest.
Proof.
  intros Hold. unfold replace. destruct old as [|c old]; [contradiction|].
  rewrite append_cons. cbn [replace_from].
  rewrite <- append_cons, startswith_append. cbn [String.length Nat.pred].
  now rewrite replace_from_skip.
Qed.

Lemma replace_other (old new : string) (c : ascii) (s : string) :
  startswith old (String c s) = false ->
  replace old new (String c s) = String c (replace old new s).
Proof. intros H. unfold replace. cbn [replace_from]. now rewrite H. Qed.

Lemma not_occurs_cons (old : string) (c : ascii) (s : string) :
  startswith old (String c s) = false -> ~ occurs old s -> ~ occurs old (String c s).
Proof.
  intros Hhead Hs (a & b & H). destruct a as [|d a].
  - change ("" ++ old ++ b) with (old ++ b) in H.
    rewrite H, startswith_append in Hhead. discriminate.
  - rewrite append_cons in H. injection H as _ H. apply Hs. now exists a, b.
Qed.

Lemma replaced_cons (old new : string) (c : ascii) (s result : string) :
  startswith old (String c s) = false ->
  replaced old new s result ->
  replaced old new (String c s) (String c result).
Proof.
  intros Hhead H. destruct H as [template Hnone|before rest result Hfirst Hrest].
  - apply replaced_none. now apply not_occurs_cons.
  - rewrite <- !append_cons. apply replaced_first; [|exact Hrest].
    intros a b H. destruct a as [|d a].
    + change ("" ++ old ++ b) with (old ++ b) in H.
      exfalso. rewrite <- append_cons, <- append_assoc, H, append_assoc in Hhead.
      rewrite startswith_append in Hhead. discriminate.
    + rewrite !append_cons in H. injection H as _ H. exact (Hfirst a b H).
Qed.

(** [str.replace] replaces, for every pattern that is not empty. *)
Lemma replace_replaced (old new : string) (s : string) :
  old <> "" -> replaced old new s (replace old new s).
Proof.
  intros Hold.
  assert (H : forall n s, (String.length s < n)%nat -> replaced old new s (replace old new s)).
  { clear s. induction n as [|n IH]; intros s Hn; [lia|].
    destruct s as [|c s].
    - apply replaced_none. intros (a & b & H).
      apply (f_equal String.length) in H. rewrite !length_append in H. cbn in H.
      apply Hold, length_zero. lia.
    - destruct (startswith old (String c s)) eqn:Hhead.
      + destruct (startswith_prefix _ _ Hhead) as (rest & Hs). rewrite Hs.
        rewrite (replace_match _ _ _ Hold).
        change (replaced old new ("" ++ old ++ rest) ("" ++ new ++ replace old new rest)).
        apply replaced_first.
        * intros a b H. apply (f_equal String.length) in H.
          rewrite !length_append in H. cbn in H. apply length_zero. lia.
        * apply IH. apply (f_equal String.length) in Hs.
          rewrite length_append in Hs. cbn [String.length] in Hs, Hn.
          destruct old; [contradiction|]. cbn [String.length] in Hs. lia.
      + rewrite (replace_other _ _ _ _ Hhead). apply replaced_cons; [exact Hhead|].
        apply IH. cbn [String.length] in Hn. lia. }
  apply (H (S (String.length s))). lia.
Qed.

(** Two ways of cutting one string in two. *)
Lemma append_eq_append (a b c d : string) :
  a ++ b = c ++ d ->
  (exists x, c = a ++ x /\ b = x ++ d) \/ (exists x, a = c ++ x /\ d = x ++ b).
Proof.
  revert c. induction a as [|k a IH]; intros c H.
  - left. exists c. split; [reflexivity|exact H].
  - destruct c as [|k' c].
    + right. exists (String k a). split; [reflexivity|]. symmetry. exact H.
    + rewrite !append_cons in H. injection H as -> H.
      destruct (IH c H) as [(x & -> & ->)|(x & -> & ->)].
      * left. exists x. now rewrite append_cons.
      * right. exists x. now rewrite append_cons.
Qed.

Lemma append_inv_head (a b c : string) : a ++ b = a ++ c -> b = c.
Proof.
  induction a as [|k a IH]; intros H; [exact H|].
  rewrite !append_cons in H. injection H as H. now apply IH.
Qed.

Lemma append_nil_r (a : string) : a ++ "" = a.
Proof. induction a as [|k a IH]; [reflexivity|]. rewrite append_cons. now f_equal. Qed.

(** The first occurrence is where it is. *)
Lemma first_occurrence_unique (old before before' rest rest' : string) :
  (forall a b : string, before ++ old = a ++ old ++ b -> b = "") ->
  (forall a b : string, before' ++ old = a ++ old ++ b -> b = "") ->
  before ++ old ++ rest = before' ++ old ++ rest' ->
  before = before' /\ rest = rest'.
Proof.
  assert (Hcase : forall p q s s' : string,
            (forall a b : string, q ++ old = a ++ old ++ b -> b = "") ->
            forall x, q = p ++ x -> old ++ s = x ++ old ++ s' -> x = "").
  { intros p q s s' Hq x -> H. rewrite <- append_assoc in H.
    destruct (append_eq_append _ _ _ _ H) as [(y & Hy & _)|(y & Hy & _)].
    - assert (y = "") as ->.
      { apply (Hq p y). now rewrite append_assoc, Hy. }
      apply (f_equal String.length) in Hy. rewrite !length_append in Hy. cbn in Hy.
      apply length_zero. lia.
    - apply (f_equal String.length) in Hy. rewrite !length_append in Hy.
      apply length_zero. lia. }
  intros Hfirst Hfirst' H.
  destruct (append_eq_append _ _ _ _ H) as [(x & Hx & Hrest)|(x & Hx & Hrest)].
  - assert (x = "") as -> by (eapply (Hcase before before'); eauto).
    rewrite append_nil_r in Hx. subst before'. split; [reflexivity|].
    change ("" ++ old ++ rest') with (old ++ rest') in Hrest.
    now apply append_inv_head in Hrest.
  - assert (x = "") as -> by (eapply (Hcase before' before); eauto).
    rewrite append_nil_r in Hx. subst before'. split; [reflexivity|].
    change ("" ++ old ++ rest) with (old ++ rest) in Hrest.
    apply append_inv_head in Hrest. now symmetry.
Qed.

(** [replaced] determines its result. *)
Lemma replaced_unique (old new template r1 r2 : string) :
  replaced old new template r1 -> replaced old new template r2 -> r1 = r2.
Proof.
  intros H1. revert r2.
  induction H1 as [template Hnone|before rest result Hfirst Hrest IH]; intros r2 H2.
  - inversion H2 as [t Hnone'|before' rest' result' Hfirst' Hrest' Heq]; subst;
      [reflexivity|].
    exfalso. apply Hnone. now exists before', rest'.
  - inversion H2 as [t Hnone'|before' rest' result' Hfirst' Hrest' Heq]; subst.
    + exfalso. apply Hnone'. now exists before, rest.
    + destruct (first_occurrence_unique old before' before rest' rest Hfirst' Hfirst Heq)
        as [-> ->].
      now rewrite (IH result' Hrest').
Qed.

Example replaced_example :
  replaced "${loan_amount}" "$123,456.79"
    "Your loan of ${loan_amount} needs a review."
    "Your loan of $123,456.79 needs a review.".
Proof.
  exact (replace_replaced "${loan_amount}" "$123,456.79"
           "Your loan of ${loan_amount} needs a review." ltac:(discriminate)).
Qed.

(** *** The ratio *)


(** The whole number of hundredths nearest to a magnitude is unique, so
    [rounded_to_hundredths] determines the rounded float. *)
Lemma nearest_hundredths_unique (m : positive) (e : Z) (h1 h2 : Z) :
  nearest_hundredths m e h1 -> nearest_hundredths m e h2 -> h1 = h2.
Proof.
  unfold nearest_hundredths. destruct (Z.leb_spec 0 e) as [|He]; [congruence|].
  assert (Hd : 0 < 2 ^ (- e)) by (apply Z.pow_pos_nonneg; lia).
  revert Hd. generalize (2 ^ (- e)) (100 * Z.pos m). intros d n Hd [H1 E1] [H2 E2].
  destruct (Z.eq_dec h1 h2) as [|Hne]; [assumption|exfalso].
  assert (Hclose : h1 = h2 + 1 \/ h2 = h1 + 1) by nia.
  assert (Ht1 : 2 * Z.abs (h1 * d - n) = d) by nia.
  assert (Ht2 : 2 * Z.abs (h2 * d - n) = d) by nia.
  specialize (E1 Ht1). specialize (E2 Ht2).
  destruct Hclose as [Hc|Hc]; subst.
  - rewrite Z.even_add, E2 in E1. discriminate E1.
  - rewrite Z.even_add, E1 in E2. discriminate E2.
Qed.

Lemma rounded_to_hundredths_unique (x r1 r2 : float) :
  rounded_to_hundredths x r1 -> rounded_to_hundredths x r2 -> r1 = r2.
Proof.
  unfold rounded_to_hundredths.
  destruct (Prim2SF x) as [s|s| |s m e]; try congruence.
  intros (h1 & N1 & ->) (h2 & N2 & ->).
  now rewrite (nearest_hundredths_unique m e h1 h2 N1 N2).
Qed.

Example rounded_to_hundredths_example :
  rounded_to_hundredths (123456.789 / 50000) 2.47.
Proof.
  unfold rounded_to_hundredths.
  assert (E : Prim2SF (123456.789 / 50000) = S754_finite false 5559999489367580 (-51))
    by evaluate.
  rewrite E. exists 247. split; [|evaluate].
  unfold nearest_hundredths. vm_compute. split; [discriminate|]. intros H. discriminate H.
Qed.



(** The message and the ratio of that evaluation. *)
Example message_formatting_example :
  evaluate_application sample_rules sample_messages
    (sample_application (VNum (Float 123456.789)) 780 50000 false)
  = Ok ("conditional",
        <["loan_to_income_ratio" := VNum (Float 2.47)]>
        (<["decision" := VStr "conditional"]>
        (<["title" := VStr "Conditional"]>
        (<["message" := VStr "Your loan of $123,456.79 needs a review."]>
        (<["next_steps" := VList [VStr "An agent will be in touch."]]> ∅))))).
Proof. evaluate. Qed.

Example format_message_unknown_key :
  _format_message sample_messages "no_such_decision"
    (sample_application (VNum (Float 25000)) 700 50000 false)
  = Ok (message_dict "no_such_decision"
          (sample_template "Denied" "We cannot offer a loan of ${loan_amount}.")
          "25,000.00").
Proof. evaluate. Qed.

Example evaluate_pre_approved :
  evaluate_application sample_rules sample_messages
    (sample_application (VNum (Int 10000)) 780 50000 false)
  = Ok ("pre_approved",
        <["loan_to_income_ratio" := VNum (Float 0.2)]>
          (message_dict "pre_approved"
             (sample_template "Pre-approved" "Your loan of ${loan_amount} is pre-approved.")
             "10,000.00")).
Proof. evaluate. Qed.

Example evaluate_conditional :
  evaluate_application sample_rules sample_messages
    (sample_application (VNum (Int 40000)) 780 50000 false)
  = Ok ("conditional",
        <["loan_to_income_ratio" := VNum (Float 0.8)]>
          (message_dict "conditional"
             (sample_template "Conditional" "Your loan of ${loan_amount} needs a review.")
             "40,000.00")).
Proof. evaluate. Qed.

Example evaluate_denied :
  fst <$> (match evaluate_application sample_rules sample_messages
             (sample_application (VNum (Int 10000)) 600 50000 false) with
           | Ok r => Some r | Raise _ => None end)
  = Some "denied".
Proof. evaluate. Qed.

Example evaluate_denied_compliance :
  fst <$> (match evaluate_application sample_rules sample_messages
             (sample_application (VNum (Int 10000)) 250 50000 false) with
           | Ok r => Some r | Raise _ => None end)
  = Some "denied_compliance".
Proof. evaluate. Qed.

(** ** Facts on the ledger *)

Lemma lower_empty {L : StrLower} : lower "" = "".
Proof. now rewrite lower_ascii_text. Qed.

Lemma email_lower_wf {L : StrLower} (submission : dict) :
  well_formed submission = true ->
  App.email_lower submission = Ok (normalized_email submission).
Proof.
  unfold well_formed, App.email_lower, normalized_email.
  destruct (submission !! "email") as [[]|]; try discriminate; intros _;
    cbn [default from_option id App.str_lower]; [reflexivity|].
  now rewrite lower_empty.
Qed.

Lemma submission_date_wf (submission : dict) :
  well_formed submission = true ->
  App.submission_date submission = Ok (timestamp submission).
Proof.
  unfold well_formed, App.submission_date, timestamp, getitem.
  destruct (submission !! "timestamp") as [[]|];
    rewrite ?andb_false_r; try discriminate; reflexivity.
Qed.

Lemma days_between_mono (t1 t2 earlier : Z) :
  t1 <= t2 -> App.days_between t1 earlier <= App.days_between t2 earlier.
Proof.
  intros H. unfold App.days_between. apply Z.div_le_mono; [reflexivity|lia].
Qed.

Lemma find_rev_last {A} (f : A -> bool) (l : list A) :
  List.find f (rev l) = last (List.filter f l).
Proof.
  induction l as [|x l IH] using rev_ind; [reflexivity|].
  rewrite rev_app_distr, List.filter_app. cbn [rev app List.find List.filter].
  destruct (f x).
  - now rewrite last_snoc.
  - now rewrite app_nil_r.
Qed.

(** The loop of [check_existing_submission] stops at the first record, in
    the order of the visit, that has the queried email. *)
Lemma scan_existing_spec {L : StrLower} (now : Z) (email : string) (submissions : list dict) :
  Forall (fun s => well_formed s = true) submissions ->
  App.scan_existing now (VStr email) submissions
  = Ok (match List.find (same_email email) submissions with
        | None => (false, 0, None)
        | Some sub =>
            if elapsed_days now sub <? App.RESUBMISSION_DAYS
            then (true, App.RESUBMISSION_DAYS - elapsed_days now sub, Some sub)
            else (false, 0, Some sub)
        end).
Proof.
  induction 1 as [|sub rest Hwf _ IH]; [reflexivity|].
  cbn [App.scan_existing List.find].
  rewrite (email_lower_wf _ Hwf). cbn [App.str_lower]. unfold_bind.
  fold (same_email email sub). destruct (same_email email sub); [|exact IH].
  rewrite (submission_date_wf _ Hwf). fold (elapsed_days now sub).
  destruct (elapsed_days now sub <? App.RESUBMISSION_DAYS); reflexivity.
Qed.

(** ** The eligibility check (C3) *)


Lemma sample_ledger_well_formed : Forall (fun s => well_formed s = true) sample_ledger.
Proof. repeat constructor. Qed.


(** ** Saving a submission (C5) *)

(** The loop of [save_submission] finds the first stale record, if any. *)
Lemma find_stale_spec {L : StrLower} (now : Z) (address : string) (submissions : list dict) (i : nat) :
  Forall (fun s => well_formed s = true) submissions ->
  (exists (k : nat) (old : dict),
      submissions !! k = Some old
      /\ stale now address old = true
      /\ (forall (j : nat) (sub : dict),
            (j < k)%nat -> submissions !! j = Some sub -> stale now address sub = false)
      /\ App.find_stale now (lower address) i submissions = Ok (Some (i + k)%nat))
  \/ (Forall (fun sub => stale now address sub = false) submissions
      /\ App.find_stale now (lower address) i submissions = Ok None).
Proof.
  intros Hwf. revert i. induction Hwf as [|sub rest Hsub _ IH]; intros i.
  - right. split; [constructor|reflexivity].
  - cbn [App.find_stale].
    rewrite (email_lower_wf _ Hsub). unfold_bind.
    assert (Hstale : stale now address sub
                     = String.eqb (normalized_email sub) (lower address)
                       && (App.RESUBMISSION_DAYS <=? elapsed_days now sub)) by reflexivity.
    assert (Hnext : forall P : Prop,
              stale now address sub = false ->
              ((exists (k : nat) (old : dict),
                   rest !! k = Some old /\ stale now address old = true
                   /\ (forall j s, (j < k)%nat -> rest !! j = Some s -> stale now address s = false)
                   /\ App.find_stale now (lower address) (S i) rest = Ok (Some (S i + k)%nat))
               \/ (Forall (fun s => stale now address s = false) rest
                   /\ App.find_stale now (lower address) (S i) rest = Ok None)) ->
              (exists (k : nat) (old : dict),
                  (sub :: rest) !! k = Some old /\ stale now address old = true
                  /\ (forall j s, (j < k)%nat -> (sub :: rest) !! j = Some s ->
                                  stale now address s = false)
                  /\ App.find_stale now (lower address) (S i) rest = Ok (Some (i + k)%nat))
              \/ (Forall (fun s => stale now address s = false) (sub :: rest)
                  /\ App.find_stale now (lower address) (S i) rest = Ok None)).
    { intros _ Hfalse [(k & old & Hk & Hold & Hfirst & Hfind)|[Hall Hfind]].
      - left. exists (S k), old. repeat split; [exact Hk|exact Hold| |].
        + intros [|j] s Hj Hs; cbn in Hs.
          * injection Hs as <-. exact Hfalse.
          * apply (Hfirst j s); [lia|exact Hs].
        + rewrite Hfind. f_equal. f_equal. lia.
      - right. split; [constructor; assumption|exact Hfind]. }
    destruct (String.eqb (normalized_email sub) (lower address)) eqn:Heq.
    + rewrite (submission_date_wf _ Hsub). fold (elapsed_days now sub).
      destruct (App.RESUBMISSION_DAYS <=? elapsed_days now sub) eqn:Hold.
      * left. exists 0%nat, sub. repeat split.
        -- now rewrite Hstale.
        -- intros j s Hj. lia.
        -- f_equal. f_equal. lia.
      * apply (Hnext True); [now rewrite Hstale|apply IH].
    + apply (Hnext True); [now rewrite Hstale|apply IH].
Qed.

(** What [save_submission] writes. *)
Lemma save_submission_cases {L : StrLower}
    (now : Z) (data : dict) (file : App.store) (address : string) :
  data !! "email" = Some (VStr address) ->
  Forall (fun s => well_formed s = true) (default [] file) ->
  (exists (i : nat) (old : dict),
      default [] file !! i = Some old
      /\ stale now address old = true
      /\ (forall (j : nat) (sub : dict),
            (j < i)%nat -> default [] file !! j = Some sub ->
            stale now address sub = false)
      /\ App.save_submission now data file = Ok (Some (<[i := data]> (default [] file))))
  \/ (Forall (fun sub => stale now address sub = false) (default [] file)
      /\ App.save_submission now data file = Ok (Some (default [] file ++ [data])%list)).
Proof.
  intros Hemail Hwf. unfold App.save_submission, getitem.
  rewrite Hemail. unfold_bind. cbv zeta. cbn [App.str_lower].
  destruct (find_stale_spec now address (default [] file) 0 Hwf)
    as [(k & old & Hk & Hold & Hfirst & Hfind)|[Hall Hfind]]; rewrite Hfind.
  - left. exists k, old. auto.
  - right. auto.
Qed.



Example save_overwrites_in_place :
  App.save_submission (10 * day) (sample_record "ADA@example.com" (10 * day))
    (Some sample_ledger)
  = Ok (Some [ sample_record "ADA@example.com" (10 * day);
               sample_record "bob@example.org" day;
               sample_record "ada@example.com" (2 * day) ]).
Proof. evaluate. Qed.

Example save_appends :
  App.save_submission (3 * day) (sample_record "carol@example.org" (3 * day))
    (Some sample_ledger)
  = Ok (Some (sample_ledger ++ [sample_record "carol@example.org" (3 * day)])%list).
Proof. evaluate. Qed.

Example save_creates_file :
  App.save_submission (3 * day) (sample_record "carol@example.org" (3 * day)) None
  = Ok (Some [sample_record "carol@example.org" (3 * day)]).
Proof. evaluate. Qed.

(** ** The ledger invariant (C4) *)

Lemma check_existing_submission_eq {L : StrLower} (now : Z) (file : App.store) (email : string) :
  Forall (fun s => well_formed s = true) (default [] file) ->
  App.check_existing_submission now file (VStr email)
  = Ok (match most_recent email (default [] file) with
        | None => (false, 0, None)
        | Some sub =>
            if elapsed_days now sub <? App.RESUBMISSION_DAYS
            then (true, App.RESUBMISSION_DAYS - elapsed_days now sub, Some sub)
            else (false, 0, Some sub)
        end).
Proof.
  intros Hwf. destruct file as [submissions|]; [|reflexivity].
  unfold App.check_existing_submission, most_recent.
  rewrite scan_existing_spec by (now apply List.Forall_rev).
  now rewrite find_rev_last.
Qed.

(** A check that does not block: every record of the email is matched by
    one that is at least seven days old. *)
Lemma not_blocked_stale {L : StrLower} (now : Z) (file : App.store) (email : string)
    (days_remaining : Z) (old : option dict) (sub : dict) :
  Forall (fun s => well_formed s = true) (default [] file) ->
  App.check_existing_submission now file (VStr email) = Ok (false, days_remaining, old) ->
  sub ∈ default [] file -> same_email email sub = true ->
  exists sub', sub' ∈ default [] file /\ stale now email sub' = true.
Proof.
  intros Hwf Hcheck Hin Hsame.
  rewrite (check_existing_submission_eq _ _ _ Hwf) in Hcheck. unfold most_recent in Hcheck.
  destruct (last (List.filter (same_email email) (default [] file))) as [sub'|] eqn:Hlast.
  - apply last_Some in Hlast as (l' & Hl').
    assert (Hin' : In sub' (List.filter (same_email email) (default [] file))).
    { rewrite Hl'. apply in_or_app. right. now left. }
    apply List.filter_In in Hin' as [Hin' Hsame'].
    exists sub'. split; [now apply list_elem_of_In|].
    unfold stale. rewrite Hsame'. cbn [andb].
    destruct (elapsed_days now sub' <? App.RESUBMISSION_DAYS) eqn:Hd; [discriminate|].
    apply Z.ltb_ge in Hd. now apply Z.leb_le.
  - apply last_None in Hlast.
    assert (Hin' : In sub (List.filter (same_email email) (default [] file))).
    { apply List.filter_In. split; [now apply list_elem_of_In|exact Hsame]. }
    rewrite Hlast in Hin'. destruct Hin'.
Qed.

Lemma stale_mono {L : StrLower} (t1 t2 : Z) (email : string) (sub : dict) :
  t1 <= t2 -> stale t1 email sub = true -> stale t2 email sub = true.
Proof.
  unfold stale, elapsed_days. intros Ht H. apply andb_prop in H as [-> Hd].
  cbn [andb]. apply Z.leb_le in Hd. apply Z.leb_le.
  pose proof (days_between_mono t1 t2 (timestamp sub) Ht). lia.
Qed.

Lemma stale_same_email {L : StrLower} (now : Z) (email : string) (sub : dict) :
  stale now email sub = true -> normalized_email sub = lower email.
Proof.
  unfold stale, same_email. intros H. apply andb_prop in H as [H _].
  now apply String.eqb_eq.
Qed.

(** A save that follows a check that did not block keeps the invariant. *)
Lemma gated_save_invariant {L : StrLower} (t_check t_save t_stamp : Z) (file file' : App.store)
    (data : dict) (address : string) (days_remaining : Z) (old : option dict) :
  ledger_invariant file ->
  t_check <= t_save ->
  App.check_existing_submission t_check file (VStr address)
  = Ok (false, days_remaining, old) ->
  data !! "email" = Some (VStr address) ->
  data !! "timestamp" = Some (VTime t_stamp) ->
  App.save_submission t_save data file = Ok file' ->
  ledger_invariant file'.
Proof.
  intros [Hwf Hnodup] Ht Hcheck Hemail Hstamp Hsave.
  assert (Hdata : well_formed data = true).
  { unfold well_formed. now rewrite Hemail, Hstamp. }
  assert (Hne : normalized_email data = lower address).
  { unfold normalized_email. now rewrite Hemail. }
  destruct (save_submission_cases t_save data file address Hemail Hwf)
    as [(i & sub & Hi & Hstale & _ & Hsave')|[Hall Hsave']];
    rewrite Hsave' in Hsave; injection Hsave as <-; unfold ledger_invariant; cbn [default from_option id].
  - split; [now apply Forall_insert|].
    unfold emails in *. rewrite list_fmap_insert, list_insert_id; [exact Hnodup|].
    rewrite list_lookup_fmap, Hi. cbn. f_equal.
    rewrite Hne. now apply stale_same_email in Hstale.
  - split; [apply Forall_app; split; [exact Hwf|now constructor]|].
    unfold emails in *. rewrite fmap_app. cbn [fmap list_fmap].
    apply NoDup_app. split; [exact Hnodup|]. split; [|apply NoDup_singleton].
    intros e He Hin. apply list_elem_of_singleton in Hin. subst e.
    apply list_elem_of_fmap in He as (sub & Hsub & Hin).
    assert (Hsame : same_email address sub = true).
    { unfold same_email. apply String.eqb_eq. congruence. }
    destruct (not_blocked_stale _ _ _ _ _ _ Hwf Hcheck Hin Hsame) as (sub' & Hin' & Hst).
    apply (stale_mono _ _ _ _ Ht) in Hst.
    rewrite Forall_forall in Hall. rewrite (Hall sub' Hin') in Hst. discriminate.
Qed.

(** [save_submission] only succeeds on a record whose email is a text. *)
Lemma save_submission_email {L : StrLower} (now : Z) (data : dict) (file file' : App.store) :
  App.save_submission now data file = Ok file' ->
  exists address, data !! "email" = Some (VStr address).
Proof.
  unfold App.save_submission, getitem. intros H.
  destruct (data !! "email") as [[]|]; try discriminate. eauto.
Qed.

Section Handlers.

Context (rules : Rules) (messages : Messages) {L : StrLower}.

Lemma form_error_file (file file' : App.store) (key : string) (r : App.response) :
  App.form_error messages file key = Ok (file', r) -> file' = file.
Proof.
  unfold App.form_error. intros H.
  destruct (bind_Ok _ _ _ H) as (e & _ & H'). congruence.
Qed.

Lemma submit_application_invariant (t_check t_stamp t_save : Z) (form : App.Form)
    (file file' : App.store) (r : App.response) :
  ledger_invariant file -> t_check <= t_stamp <= t_save ->
  App.submit_application rules messages t_check t_stamp t_save form file = Ok (file', r) ->
  ledger_invariant file'.
Proof.
  intros Hinv Ht. unfold App.submit_application.
  destruct (_ || _); [intros H; now rewrite (form_error_file _ _ _ _ H)|].
  destruct (negb _); [intros H; now rewrite (form_error_file _ _ _ _ H)|].
  intros H. destruct (bind_Ok _ _ _ H) as ([[blocked days] old] & Hcheck & H1). clear H.
  destruct blocked; [injection H1 as <- _; exact Hinv|].
  destruct (App.loan_amount form) as [loan_amount|];
    [|now rewrite (form_error_file _ _ _ _ H1)].
  destruct (App.credit_score form) as [credit_score|];
    [|now rewrite (form_error_file _ _ _ _ H1)].
  destruct (App.annual_income form) as [annual_income|];
    [|now rewrite (form_error_file _ _ _ _ H1)].
  destruct (negb _); [now rewrite (form_error_file _ _ _ _ H1)|].
  destruct (leb (Float loan_amount) _); [now rewrite (form_error_file _ _ _ _ H1)|].
  destruct (leb (Float annual_income) _); [now rewrite (form_error_file _ _ _ _ H1)|].
  destruct (bind_Ok _ _ _ H1) as ([decision message_data] & _ & H2). clear H1.
  destruct (bind_Ok _ _ _ H2) as (saved & Hsave & H3). clear H2.
  injection H3 as <- _.
  eapply (gated_save_invariant t_check t_save t_stamp file saved);
    [exact Hinv|lia|exact Hcheck| | |exact Hsave].
  - rewrite !lookup_insert_ne by discriminate. apply lookup_insert_eq.
  - rewrite !lookup_insert_ne by discriminate. apply lookup_insert_eq.
Qed.

Lemma api_evaluate_invariant (t_check t_stamp t_save : Z) (application : dict)
    (file : App.store) :
  ledger_invariant file -> t_check <= t_stamp <= t_save ->
  ledger_invariant (fst (App.api_evaluate rules messages t_check t_stamp t_save application file)).
Proof.
  intros Hinv Ht. unfold App.api_evaluate.
  destruct (List.find _ _); [exact Hinv|].
  match goal with |- context [match ?o with Ok _ => _ | Raise _ => _ end] =>
    destruct o as [[saved r]|e] eqn:Hout end; [|exact Hinv].
  cbn [fst].
  destruct (bind_Ok _ _ _ Hout) as (address & Haddr & H1). clear Hout.
  destruct (bind_Ok _ _ _ H1) as ([[blocked days] old] & Hcheck & H2). clear H1.
  destruct blocked; [injection H2 as <- _; exact Hinv|].
  destruct (bind_Ok _ _ _ H2) as ([decision message_data] & _ & H3). clear H2.
  destruct (bind_Ok _ _ _ H3) as (saved' & Hsave & H4). clear H3.
  injection H4 as <- _.
  destruct (save_submission_email _ _ _ _ Hsave) as (s & Hs).
  rewrite !lookup_insert_ne in Hs by discriminate.
  unfold getitem in Haddr. rewrite Hs in Haddr. injection Haddr as <-.
  eapply (gated_save_invariant t_check t_save t_stamp file saved');
    [exact Hinv|lia|exact Hcheck| | |exact Hsave].
  - rewrite !lookup_insert_ne by discriminate. exact Hs.
  - rewrite !lookup_insert_ne by discriminate. apply lookup_insert_eq.
Qed.

Lemma mark_contact_invariant (now : Z) (preference email : string)
    (submissions marked : list dict) :
  Forall (fun s => well_formed s = true) submissions ->
  App.mark_contact now preference email submissions = Ok marked ->
  Forall (fun s => well_formed s = true) marked /\ emails marked = emails submissions.
Proof.
  intros Hwf. revert marked. induction Hwf as [|sub rest Hsub Hrest IH]; intros marked.
  - intros [= <-]. split; [constructor|reflexivity].
  - cbn [App.mark_contact]. rewrite (email_lower_wf _ Hsub). unfold_bind.
    destruct (String.eqb _ _).
    + intros [= <-]. split.
      * constructor; [|exact Hrest]. revert Hsub. unfold well_formed.
        now rewrite !lookup_insert_ne by discriminate.
      * unfold emails. cbn [fmap list_fmap]. f_equal.
        unfold normalized_email. now rewrite !lookup_insert_ne by discriminate.
    + destruct (App.mark_contact now preference email rest) as [rest'|]; [|discriminate].
      intros [= <-]. destruct (IH rest' eq_refl) as [Hwf' He].
      split; [now constructor|]. unfold emails in *. cbn [fmap list_fmap]. now f_equal.
Qed.

Lemma emails_rev (submissions : list dict) : emails (rev submissions) = rev (emails submissions).
Proof. unfold emails. apply (map_rev normalized_email). Qed.

Lemma contact_preference_invariant (now : Z) (preference email : string) (file : App.store) :
  ledger_invariant file ->
  ledger_invariant (fst (App.contact_preference messages now preference email file)).
Proof.
  intros Hinv. unfold App.contact_preference. cbn [fst].
  destruct file as [submissions|]; [|exact Hinv].
  destruct (App.mark_contact now preference email (rev submissions)) as [marked|] eqn:Hm;
    [|exact Hinv].
  destruct Hinv as [Hwf Hnodup]. cbn [default from_option id] in *.
  apply mark_contact_invariant in Hm as [Hwf' He]; [|now apply List.Forall_rev].
  split; cbn [default from_option id].
  - now apply List.Forall_rev.
  - rewrite emails_rev, He, emails_rev, rev_involutive. exact Hnodup.
Qed.

Lemma handle_invariant (file : App.store) (r : request) :
  ledger_invariant file -> clock_ordered r -> ledger_invariant (handle rules messages file r).
Proof.
  intros Hinv Hclock. destruct r as [t1 t2 t3 form|t1 t2 t3 application|now p e]; cbn [handle].
  - destruct (App.submit_application rules messages t1 t2 t3 form file) as [[file' r]|] eqn:H;
      [|exact Hinv].
    exact (submit_application_invariant _ _ _ _ _ _ _ Hinv Hclock H).
  - now apply api_evaluate_invariant.
  - now apply contact_preference_invariant.
Qed.

Lemma serve_invariant (requests : list request) (file : App.store) :
  ledger_invariant file -> Forall clock_ordered requests ->
  ledger_invariant (serve rules messages requests file).
Proof.
  intros Hinv Hclock. revert file Hinv.
  induction Hclock as [|r rest Hr _ IH]; intros file Hinv; [exact Hinv|].
  cbn [serve fold_left]. apply IH. now apply handle_invariant.
Qed.

End Handlers.

Lemma empty_ledger_invariant {L : StrLower} (file : App.store) :
  file = None \/ file = Some [] -> ledger_invariant file.
Proof. intros [->| ->]; (split; [constructor|apply NoDup_nil_2]). Qed.

(** C4. From an empty ledger (no file yet, or an empty list), after any
    sequence of requests handled one after the other with a clock that
    does not go back within a request, no two records of the ledger have
    the same normalized email; in particular at most one record per
    normalized email is within the seven-day window, at any instant. *)
Theorem one_active_record_per_email {L : StrLower}
    (rules : Rules) (messages : Messages) (requests : list request) (file : App.store) :
  file = None \/ file = Some [] ->
  Forall clock_ordered requests ->
  let submissions := default [] (serve rules messages requests file) in
  NoDup (emails submissions)
  /\ forall (now : Z) (i j : nat) (si sj : dict),
       submissions !! i = Some si -> submissions !! j = Some sj ->
       normalized_email si = normalized_email sj ->
       active now si = true -> active now sj = true ->
       i = j.
Proof.
  intros Hfile Hclock submissions.
  destruct (serve_invariant rules messages requests file
              (empty_ledger_invariant file Hfile) Hclock) as [_ Hnodup].
  fold submissions in Hnodup. split; [exact Hnodup|].
  intros now i j si sj Hi Hj He _ _.
  apply (NoDup_lookup (emails submissions) i j (normalized_email si) Hnodup).
  - unfold emails. now rewrite list_lookup_fmap, Hi.
  - unfold emails. now rewrite list_lookup_fmap, Hj, He.
Qed.

Lemma sample_requests_ordered : Forall clock_ordered sample_requests.
Proof. unfold sample_requests, day, App.microseconds_per_day. repeat (constructor; [cbn; lia|]). constructor. Qed.

Lemma one_active_record_per_email_witness :
  NoDup (emails (default [] (serve sample_rules sample_messages sample_requests None))).
Proof.
  destruct (one_active_record_per_email sample_rules sample_messages sample_requests None
              (or_introl eq_refl) sample_requests_ordered) as [H _].
  exact H.
Defined.

Example sample_run_emails :
  emails (default [] (serve sample_rules sample_messages sample_requests None))
  = ["ada@example.com"; "bob@example.org"].
Proof. evaluate. Qed.

Example sample_run_ledger :
  (fun sub => (sub !! "email", sub !! "timestamp", sub !! "decision",
               sub !! "contact_requested"))
    <$> default [] (serve sample_rules sample_messages sample_requests None)
  = [ (Some (VStr "ADA@example.com"), Some (VTime (8 * day + 1)),
       Some (VStr "pre_approved"), Some VNone);
      (Some (VStr "Bob@example.org"), Some (VTime (4 * day + 1)),
       Some (VStr "conditional"), None) ].
Proof. evaluate. Qed.

(** ** The contact flow (C9) *)

(** What the handler stores and which confirmation it shows are decided
    by two different tests of the preference: [preference == 'yes'] and
    [preference.lower() == 'yes']. *)
Lemma contact_message_yes {L : StrLower} (messages : Messages) (preference email : string) :
  lower preference = "yes" ->
  get_contact_message messages preference email
  = get_contact_message messages "yes" email.
Proof.
  intros H. unfold get_contact_message.
  now rewrite H, (lower_ascii_text "yes") by reflexivity.
Qed.

Lemma contact_message_no {L : StrLower} (messages : Messages) (preference email : string) :
  lower preference <> "yes" ->
  get_contact_message messages preference email
  = get_contact_message messages "no" email.
Proof.
  intros H. unfold get_contact_message.
  rewrite (lower_ascii_text "no") by reflexivity.
  destruct (String.eqb_spec (lower preference) "yes") as [Heq|_]; [contradiction|reflexivity].
Qed.

(** The two tests agree exactly on the preferences that are ["yes"] as
    written or are not ["yes"] in any case. *)
Lemma contact_tests_agree {L : StrLower} (preference : string) :
  String.eqb preference "yes" = String.eqb (lower preference) "yes"
  <-> preference = "yes" \/ lower preference <> "yes".
Proof.
  destruct (String.eqb_spec preference "yes") as [->|Hp].
  - rewrite (lower_ascii_text "yes") by reflexivity. split; [auto|reflexivity].
  - destruct (String.eqb_spec (lower preference) "yes") as [Hl|Hl].
    + split; [discriminate|]. intros [?|?]; contradiction.
    + split; [auto|reflexivity].
Qed.

(** Any spelling of ["yes"] other than the lower-case one: the most
    recent record of the applicant gets [contact_requested = False], and
    the confirmation is the one of the ['yes'] template. *)
Lemma contact_flow_other_spelling {L : StrLower} (messages : Messages) (now : Z)
    (preference email : string) (earlier : list dict) (record : dict) :
  lower preference = "yes" -> preference <> "yes" ->
  well_formed record = true -> normalized_email record = lower email ->
  App.contact_preference messages now preference email (Some (earlier ++ [record])%list)
  = (Some (earlier ++ [ <["contact_timestamp" := VTime now]>
                          (<["contact_requested" := VBool false]> record) ])%list,
     get_contact_message messages "yes" email).
Proof.
  intros Hlow Hne Hwf Hemail. unfold App.contact_preference.
  rewrite (contact_message_yes _ _ _ Hlow). f_equal.
  rewrite rev_app_distr. cbn [rev app App.mark_contact].
  rewrite (email_lower_wf _ Hwf), Hemail. unfold_bind. rewrite String.eqb_refl.
  destruct (String.eqb_spec preference "yes") as [?|_]; [contradiction|].
  cbn [rev]. now rewrite rev_involutive.
Qed.

(** C9. For the preference ["YES"] the handler stores
    [contact_requested = False] on the applicant's record and shows the
    confirmation of the ['yes'] template. *)
Theorem contact_flow_disagrees {L : StrLower} :
  App.contact_preference sample_messages (3 * day) "YES" "ada@example.com"
    (Some [sample_record "bob@example.org" 0; sample_record "ada@example.com" day])
  = (Some [ sample_record "bob@example.org" 0;
            <["contact_timestamp" := VTime (3 * day)]>
              (<["contact_requested" := VBool false]>
                 (sample_record "ada@example.com" day)) ],
     Ok (<["title" := VStr "Thank you"]>
         (<["message" := VStr "We will contact you at ada@example.com."]> ∅)))
  /\ get_contact_message sample_messages "yes" "ada@example.com"
     = Ok (<["title" := VStr "Thank you"]>
           (<["message" := VStr "We will contact you at ada@example.com."]> ∅)).
Proof.
  assert (Hyes : get_contact_message sample_messages "yes" "ada@example.com"
                 = Ok (<["title" := VStr "Thank you"]>
                       (<["message" := VStr "We will contact you at ada@example.com."]> ∅))).
  { unfold get_contact_message. rewrite (lower_ascii_text "yes") by reflexivity. evaluate. }
  split; [|exact Hyes]. rewrite <- Hyes.
  apply (contact_flow_other_spelling sample_messages (3 * day) "YES" "ada@example.com"
           [sample_record "bob@example.org" 0] (sample_record "ada@example.com" day)).
  - now rewrite lower_ascii_text.
  - discriminate.
  - reflexivity.
  - reflexivity.
Qed.

Example contact_flow_yes :
  App.contact_preference sample_messages (3 * day) "yes" "Ada@Example.com"
    (Some [sample_record "ada@example.com" day])
  = (Some [ <["contact_timestamp" := VTime (3 * day)]>
              (<["contact_requested" := VBool true]>
                 (sample_record "ada@example.com" day)) ],
     Ok (<["title" := VStr "Thank you"]>
         (<["message" := VStr "We will contact you at Ada@Example.com."]> ∅))).
Proof. evaluate. Qed.

(** ** Examples: the email pattern *)

Example validate_email_ok : App.validate_email "ada.l+x@mail.example.com" = true.
Proof. reflexivity. Qed.

Example validate_email_no_tld : App.validate_email "ada@example" = false.
Proof. reflexivity. Qed.

Example validate_email_short_tld : App.validate_email "ada@example.c" = false.
Proof. reflexivity. Qed.

Example validate_email_no_local : App.validate_email "@example.com" = false.
Proof. reflexivity. Qed.

Example validate_email_two_at : App.validate_email "a@b@example.com" = false.
Proof. reflexivity. Qed.

Example validate_email_digit_tld : App.validate_email "ada@example.c0m" = false.
Proof. reflexivity. Qed.

(** ** Examples: numbers, formatting and rounding *)

Example int_division : truediv (Int 10000) (Int 50000) = Ok 0.2%float.
Proof. evaluate. Qed.

Example int_division_rounds : truediv (Int 1) (Int 3) = Ok (1 / 3)%float.
Proof. evaluate. Qed.

Example int_division_overflow : truediv (Int (10 ^ 400)) (Int 1) = Raise OverflowError.
Proof. evaluate. Qed.

Example int_division_large : truediv (Int (10 ^ 400)) (Int (10 ^ 399)) = Ok 10%float.
Proof. evaluate. Qed.

Example mixed_comparison_exact :
  ltb (Float 9007199254740992) (Int 9007199254740993) = true
  /\ ltb (Int 9007199254740993) (Float 9007199254740992) = false.
Proof. split; evaluate. Qed.

Example nan_is_unordered :
  leb (Float nan) (Float 0.4) = false /\ gtb (Float nan) (Float 0.4) = false.
Proof. split; evaluate. Qed.

Example format_thousands : format_float 1234567.891 = "1,234,567.89".
Proof. evaluate. Qed.

Example format_tie_to_even : format_float 0.125 = "0.12" /\ format_float 0.375 = "0.38".
Proof. split; evaluate. Qed.

Example format_binary_value : format_float 2.675 = "2.67" /\ format_float 1.005 = "1.00".
Proof. split; evaluate. Qed.

Example format_carry : format_float 999.995 = "1,000.00".
Proof. evaluate. Qed.

Example format_negative_zero : format_float (-0.001) = "-0.00".
Proof. evaluate. Qed.

Example format_large : format_float 1e23 = "99,999,999,999,999,991,611,392.00".
Proof. evaluate. Qed.

Example format_not_finite :
  format_float infinity = "inf" /\ format_float neg_infinity = "-inf"
  /\ format_float nan = "nan".
Proof. repeat split; evaluate. Qed.

Example format_int : format_2f (VNum (Int 40000)) = Ok "40,000.00".
Proof. evaluate. Qed.

Example format_none : format_2f VNone = Raise TypeError.
Proof. reflexivity. Qed.

Example round2_examples :
  round2 2.675 = 2.67%float /\ round2 0.125 = 0.12%float
  /\ round2 (1 / 3) = 0.33%float /\ round2 0.8 = 0.8%float
  /\ round2 1e300 = 1e300%float /\ round2 nan = nan.
Proof. repeat split; evaluate. Qed.

(** * Further properties of the engine *)

(** ** Comparisons with a NaN *)

Lemma prim2sf_nan : Prim2SF nan = S754_nan.
Proof. evaluate. Qed.

Lemma leb_nan_l (m : num) : leb (Float nan) m = false.
Proof.
  destruct m as [z|y]; cbn [leb].
  - now rewrite prim2sf_nan.
  - now rewrite leb_spec, prim2sf_nan.
Qed.

Lemma gtb_nan_l (m : num) : gtb (Float nan) m = false.
Proof.
  unfold gtb. destruct m as [z|y]; cbn [ltb].
  - now rewrite prim2sf_nan.
  - rewrite ltb_spec, prim2sf_nan. unfold SFltb.
    now destruct (Prim2SF y).
Qed.

Lemma ltb_not_geb (a b : num) : ltb a b = true -> geb a b = false.
Proof.
  intros H. destruct (geb a b) eqn:Hge; [|reflexivity].
  rewrite (geb_not_ltb _ _ Hge) in H. discriminate.
Qed.

Lemma ltb_not_leb_swap (a b : num) : ltb a b = true -> leb b a = false.
Proof. apply (ltb_not_geb a b). Qed.

(** A quotient with a NaN numerator is a NaN. *)
Lemma nan_div (y : float) : (nan / y)%float = nan.
Proof.
  rewrite <- (SF2Prim_Prim2SF (nan / y)), div_spec, prim2sf_nan. reflexivity.
Qed.

(** ** The brackets of the matrix *)

(** X5. Below [pre_approved_min] the decision is [conditional] when the
    score is at least [conditional_min] and the ratio at most 0.5, and
    [denied] otherwise: it is never [pre_approved], and the bankruptcy
    flag has no effect on it. *)
Theorem below_pre_approved_bracket
    (rules : Rules) (credit_score : num) (ratio : float) (has_bankruptcy : bool) :
  ltb credit_score (pre_approved_min rules) = true ->
  _make_decision rules credit_score ratio has_bankruptcy
  = (if leb (conditional_min rules) credit_score && leb (Float ratio) (Float 0.5)
     then "conditional" else "denied")
  /\ _make_decision rules credit_score ratio has_bankruptcy
     = _make_decision rules credit_score ratio (negb has_bankruptcy).
Proof.
  intros Hlt. unfold _make_decision.
  rewrite (ltb_not_geb _ _ Hlt), Hlt, andb_true_r. cbn [andb]. auto.
Qed.

Lemma below_pre_approved_bracket_witness :
  _make_decision sample_rules (Int 650) 0.3 true = "conditional"
  /\ _make_decision sample_rules (Int 650) 0.3 true
     = _make_decision sample_rules (Int 650) 0.3 false.
Proof.
  apply (below_pre_approved_bracket sample_rules (Int 650) 0.3 true). reflexivity.
Defined.

(** X6. With a ratio that is a NaN nothing is pre-approved: the decision
    is [conditional] for a score of at least [pre_approved_min] with a
    bankruptcy, and [denied] in every other case, excellent credit
    without a bankruptcy included. *)
Theorem nan_ratio_decision (rules : Rules) (credit_score : num) (has_bankruptcy : bool) :
  _make_decision rules credit_score nan has_bankruptcy
  = if geb credit_score (pre_approved_min rules) && has_bankruptcy
    then "conditional" else "denied".
Proof.
  unfold _make_decision. rewrite leb_nan_l, gtb_nan_l, !andb_false_r.
  destruct (geb credit_score (pre_approved_min rules) && has_bankruptcy); reflexivity.
Qed.

Lemma round2_nan : round2 nan = nan.
Proof. evaluate. Qed.

Lemma format_float_nan : format_float nan = "nan".
Proof. evaluate. Qed.

(** ** Whole evaluations *)

(** The gate on an application with all required fields, a numeric
    credit score and a numeric loan amount. *)
Lemma check_compliance_numbers (rules : Rules) (application : dict) (score amount : num) :
  first_missing (required_fields rules) application = None ->
  as_num (default (VNum (Int 0)) (application !! "credit_score")) = Some score ->
  as_num (default (VNum (Int 0)) (application !! "loan_amount")) = Some amount ->
  _check_compliance rules application
  = Ok (if ltb score (minimum_credit_score rules)
        then {| valid := false; reason := Some "Credit score below minimum" |}
        else if gtb amount (maximum_loan_amount rules)
        then {| valid := false; reason := Some "Loan amount exceeds maximum" |}
        else {| valid := true; reason := None |}).
Proof.
  intros Hm Hs Ha. unfold _check_compliance, py_lt, py_gt, number.
  rewrite Hm, Hs, Ha. unfold_bind.
  destruct (ltb score _); [reflexivity|]. destruct (gtb amount _); reflexivity.
Qed.

(** X1. On a well-typed application whose amounts are floats (any
    floats: zero, negative, infinite or NaN) and with a [denied] entry in
    the messages table, [evaluate_application] raises no exception: it
    returns a decision and its message data. *)
Theorem evaluate_application_no_exception
    (rules : Rules) (messages : Messages) (application : dict)
    (credit_score : Z) (loan_amount annual_income : float) (has_bankruptcy : bool)
    (fallback : Template) :
  well_typed application credit_score (Float loan_amount) (Float annual_income)
    has_bankruptcy ->
  decisions messages !! "denied" = Some fallback ->
  exists (decision : string) (message_data : dict),
    evaluate_application rules messages application = Ok (decision, message_data).
Proof. apply evaluate_application_returns. Qed.

Lemma evaluate_application_no_exception_witness :
  exists (decision : string) (message_data : dict),
    evaluate_application sample_rules sample_messages
      (sample_application (VNum (Float nan)) 700 0 true)
    = Ok (decision, message_data).
Proof.
  apply (evaluate_application_no_exception sample_rules sample_messages
           (sample_application (VNum (Float nan)) 700 0 true) 700 nan 0 true
           (sample_template "Denied" "We cannot offer a loan of ${loan_amount}.")).
  - split; reflexivity.
  - reflexivity.
Defined.

(** X2. Whatever [evaluate_application] returns, the decision is one of
    the four values of the enumeration, the message data carries the same
    decision under the key [decision], and the decision is
    [denied_compliance] exactly when the gate found the application
    invalid. *)
Theorem evaluate_application_decision
    (rules : Rules) (messages : Messages) (application : dict)
    (decision : string) (message_data : dict) :
  evaluate_application rules messages application = Ok (decision, message_data) ->
  (decision = "pre_approved" \/ decision = "conditional" \/ decision = "denied"
   \/ decision = "denied_compliance")
  /\ message_data !! "decision" = Some (VStr decision)
  /\ (decision = "denied_compliance" <->
      exists c, _check_compliance rules application = Ok c /\ valid c = false).
Proof.
  unfold evaluate_application. intros H.
  destruct (bind_Ok _ _ _ H) as (c & Hc & H1). clear H.
  destruct (valid c) eqn:Hv; cbn [negb] in H1.
  - destruct (bind_Ok _ _ _ H1) as (v1 & _ & H2).
    destruct (bind_Ok _ _ _ H2) as (v2 & _ & H3).
    destruct (bind_Ok _ _ _ H3) as (v3 & _ & H4).
    destruct (bind_Ok _ _ _ H4) as (v4 & _ & H5).
    destruct (bind_Ok _ _ _ H5) as (pos & _ & H6).
    destruct (bind_Ok _ _ _ H6) as (ratio & _ & H7).
    destruct (bind_Ok _ _ _ H7) as (score & _ & H8).
    destruct (bind_Ok _ _ _ H8) as (md & Hmd & H9).
    injection H9 as <- <-.
    apply format_message_Ok in Hmd as (fallback & amount & _ & _ & ->).
    pose proof (make_decision_cases rules score ratio (truthy v4)) as Hcases.
    pose proof (make_decision_not_compliance rules score ratio (truthy v4)) as Hne.
    cbv zeta in Hcases. split; [tauto|]. split.
    + rewrite lookup_insert_ne by discriminate. apply lookup_insert_eq.
    + split; [contradiction|]. intros (c' & Hc' & Hv'). congruence.
  - destruct (bind_Ok _ _ _ H1) as (md & Hmd & H2).
    injection H2 as <- <-.
    apply format_message_Ok in Hmd as (fallback & amount & _ & _ & ->).
    split; [auto|]. split; [apply lookup_insert_eq|].
    split; [eauto|reflexivity].
Qed.

Lemma evaluate_application_decision_witness :
  message_dict "denied_compliance"
    (sample_template "Not eligible"
       "Your request for ${loan_amount} does not meet our requirements.")
    "10,000.00" !! "decision" = Some (VStr "denied_compliance").
Proof.
  apply (evaluate_application_decision sample_rules sample_messages
           (sample_application (VNum (Int 10000)) 250 50000 false)).
  evaluate.
Defined.

(** X3. On an application whose credit score and loan amount are numbers
    (a missing one counts as 0), [_check_compliance] raises no exception
    and finds the application invalid exactly when a required field is
    absent or [None], the credit score is below the minimum or the loan
    amount is above the maximum; a valid outcome carries no reason, an
    invalid one does. *)
Theorem compliance_gate
    (rules : Rules) (application : dict) (score amount : num) :
  as_num (default (VNum (Int 0)) (application !! "credit_score")) = Some score ->
  as_num (default (VNum (Int 0)) (application !! "loan_amount")) = Some amount ->
  exists c : Compliance,
    _check_compliance rules application = Ok c
    /\ (valid c = false <->
        Exists (fun field => application !! field = None
                             \/ application !! field = Some VNone) (required_fields rules)
        \/ ltb score (minimum_credit_score rules) = true
        \/ gtb amount (maximum_loan_amount rules) = true)
    /\ (valid c = true <-> reason c = None).
Proof.
  intros Hs Ha.
  destruct (check_compliance_spec rules application score amount Hs Ha) as (c & Hc & Hiff).
  exists c. split; [exact Hc|]. split; [exact Hiff|].
  revert Hc. unfold _check_compliance, py_lt, py_gt, number. rewrite Hs, Ha. unfold_bind.
  destruct (first_missing _ _); [intros [= <-]; cbn; split; discriminate|].
  destruct (ltb score _); [intros [= <-]; cbn; split; discriminate|].
  destruct (gtb amount _); intros [= <-]; cbn; split; (discriminate || reflexivity).
Qed.

Lemma compliance_gate_witness :
  exists c : Compliance,
    _check_compliance sample_rules (sample_application (VNum (Int 1000000)) 300 50000 false)
    = Ok c
    /\ valid c = true.
Proof.
  destruct (compliance_gate sample_rules
              (sample_application (VNum (Int 1000000)) 300 50000 false)
              (Int 300) (Int 1000000) eq_refl eq_refl) as (c & Hc & _ & Hreason).
  exists c. split; [exact Hc|]. apply Hreason.
  assert (He : _check_compliance sample_rules
                 (sample_application (VNum (Int 1000000)) 300 50000 false)
               = Ok {| valid := true; reason := None |}) by evaluate.
  rewrite He in Hc. injection Hc as <-. reflexivity.
Defined.

(** X4. When every required field is present and the credit score is not
    a number (a text such as ["700"], a list), [evaluate_application]
    raises [TypeError]: the gate's comparison with the minimum fails
    before any decision is made. *)
Theorem credit_score_not_a_number
    (rules : Rules) (messages : Messages) (application : dict) (v : value) :
  first_missing (required_fields rules) application = None ->
  application !! "credit_score" = Some v ->
  as_num v = None ->
  evaluate_application rules messages application = Raise TypeError.
Proof.
  intros Hm Hv Hn. unfold evaluate_application, _check_compliance, py_lt, number.
  rewrite Hm, Hv. cbn [default from_option id]. rewrite Hn. reflexivity.
Qed.

Lemma credit_score_not_a_number_witness :
  evaluate_application sample_rules sample_messages
    (<["credit_score" := VStr "700"]>
       (sample_application (VNum (Int 10000)) 700 50000 false))
  = Raise TypeError.
Proof.
  apply (credit_score_not_a_number sample_rules sample_messages _ (VStr "700")).
  - evaluate.
  - reflexivity.
  - reflexivity.
Defined.

(** X7. A loan amount that is a NaN (the form accepts the text [nan]) is
    not stopped by the gate: with the required fields present, a credit
    score not below the minimum and a positive income, the application is
    evaluated with a NaN ratio, is never pre-approved, and its message
    shows the amount as [$nan]. *)
Theorem nan_loan_amount_evaluation
    (rules : Rules) (messages : Messages) (application : dict)
    (credit_score : Z) (annual_income : float) (has_bankruptcy : bool)
    (fallback : Template) :
  well_typed application credit_score (Float nan) (Float annual_income) has_bankruptcy ->
  decisions messages !! "denied" = Some fallback ->
  first_missing (required_fields rules) application = None ->
  ltb (Int credit_score) (minimum_credit_score rules) = false ->
  gtb (Float annual_income) (Int 0) = true ->
  let decision :=
    if geb (Int credit_score) (pre_approved_min rules) && has_bankruptcy
    then "conditional" else "denied" in
  evaluate_application rules messages application
  = Ok (decision,
        <["loan_to_income_ratio" := VNum (Float nan)]>
          (message_dict decision (default fallback (decisions messages !! decision)) "nan")).
Proof.
  intros Hwt Hf Hm Hmin Hpos decision.
  assert (Hc : _check_compliance rules application
               = Ok {| valid := true; reason := None |}).
  { rewrite (check_compliance_numbers rules application (Int credit_score) (Float nan) Hm).
    - now rewrite Hmin, gtb_nan_l.
    - now rewrite (wt_credit_score _ _ _ _ _ Hwt).
    - now rewrite (wt_loan_amount _ _ _ _ _ Hwt). }
  assert (Hr : loan_to_income (Float nan) (Float annual_income) = Ok nan).
  { rewrite loan_to_income_float, Hpos. now rewrite nan_div. }
  pose proof (evaluate_application_compliant rules messages _ _ _ _ _ _ _ _ _
                Hwt eq_refl Hr Hf Hc eq_refl) as He.
  cbv zeta in He. rewrite round2_nan, format_float_nan in He.
  assert (Hd : _make_decision rules (Int credit_score) nan has_bankruptcy = decision).
  { unfold _make_decision. rewrite leb_nan_l, gtb_nan_l, !andb_false_r.
    subst decision.
    destruct (geb (Int credit_score) (pre_approved_min rules) && has_bankruptcy);
      reflexivity. }
  rewrite Hd in He. exact He.
Qed.

Lemma nan_loan_amount_evaluation_witness :
  evaluate_application sample_rules sample_messages
    (sample_application (VNum (Float nan)) 780 50000 false)
  = Ok ("denied",
        <["loan_to_income_ratio" := VNum (Float nan)]>
          (message_dict "denied"
             (sample_template "Denied" "We cannot offer a loan of ${loan_amount}.") "nan")).
Proof.
  apply (nan_loan_amount_evaluation sample_rules sample_messages
           (sample_application (VNum (Float nan)) 780 50000 false) 780 50000 false
           (sample_template "Denied" "We cannot offer a loan of ${loan_amount}.")).
  - split; reflexivity.
  - reflexivity.
  - evaluate.
  - reflexivity.
  - evaluate.
Defined.

(** * Further properties of the handlers *)

(** ** The email pattern *)

Lemma split_at_Some (p : ascii -> bool) (l before after : list ascii) :
  App.split_at p l = Some (before, after) ->
  exists x, l = (before ++ x :: after)%list /\ p x = true
            /\ forallb (fun c => negb (p c)) before = true.
Proof.
  revert before after. induction l as [|c l IH]; intros before after; cbn [App.split_at].
  - discriminate.
  - destruct (p c) eqn:Hc.
    + intros [= <- <-]. exists c. auto.
    + destruct (App.split_at p l) as [[b a]|]; [|discriminate].
      intros [= <- <-]. destruct (IH b a eq_refl) as (x & -> & Hx & Hb).
      exists x. cbn [forallb app]. rewrite Hc, Hb. auto.
Qed.

Lemma split_at_app (p : ascii -> bool) (before after : list ascii) (x : ascii) :
  forallb (fun c => negb (p c)) before = true -> p x = true ->
  App.split_at p (before ++ x :: after) = Some (before, after).
Proof.
  intros Hb Hx. induction before as [|c before IH]; cbn [app App.split_at].
  - now rewrite Hx.
  - cbn [forallb] in Hb. apply andb_prop in Hb as [Hc Hb].
    apply negb_true_iff in Hc. now rewrite Hc, (IH Hb).
Qed.

Lemma forallb_rev' {A} (f : A -> bool) (l : list A) : forallb f (rev l) = forallb f l.
Proof.
  induction l as [|x l IH]; [reflexivity|].
  cbn [rev forallb]. rewrite forallb_app, IH. cbn [forallb].
  rewrite andb_true_r. apply andb_comm.
Qed.

Lemma forallb_weaken {A} (f g : A -> bool) (l : list A) :
  (forall x, f x = true -> g x = true) -> forallb f l = true -> forallb g l = true.
Proof.
  intros Hfg. induction l as [|x l IH]; [reflexivity|]. cbn [forallb].
  intros H. apply andb_prop in H as [Hx Hl]. now rewrite (Hfg x Hx), (IH Hl).
Qed.

Lemma eqb_char_true (a c : ascii) : Ascii.eqb a c = true -> c = a.
Proof. intros H. now apply Ascii.eqb_eq in H. Qed.

Lemma local_char_not_at (c : ascii) : App.local_char c = true -> negb (Ascii.eqb "@" c) = true.
Proof.
  intros H. destruct (Ascii.eqb_spec "@" c) as [<-|_]; [discriminate H|reflexivity].
Qed.

Lemma letter_not_dot (c : ascii) : App.is_letter c = true -> negb (Ascii.eqb "." c) = true.
Proof.
  intros H. destruct (Ascii.eqb_spec "." c) as [<-|_]; [discriminate H|reflexivity].
Qed.

Lemma letter_not_newline (c : ascii) : App.is_letter c = true -> Ascii.eqb c "010" = false.
Proof.
  intros H. destruct (Ascii.eqb_spec c "010") as [->|_]; [discriminate H|reflexivity].
Qed.

Lemma length_nonzero {A} (l : list A) : negb (Nat.eqb (length l) 0) = true <-> l <> [].
Proof. destruct l; cbn; split; congruence. Qed.

(** X8. [validate_email] accepts exactly the strings of the pattern:
    [local@domain.tld] with a non-empty local part and domain over their
    character classes and a top-level domain of at least two letters,
    possibly followed by one final newline. *)
Theorem validate_email_pattern (email : string) :
  App.validate_email email = true <-> email_pattern email.
Proof.
  unfold App.validate_email, email_pattern. split.
  - destruct (App.split_at (Ascii.eqb "@") (list_ascii_of_string email))
      as [[local rest0]|] eqn:Hat; [|discriminate].
    apply split_at_Some in Hat as (x & Hl & Hx & _). apply eqb_char_true in Hx. subst x.
    set (rest := match rev rest0 with
                 | c :: r => if Ascii.eqb c "010" then rev r else rest0
                 | [] => rest0
                 end).
    assert (Hrest : exists newline : bool,
               rest0 = (rest ++ (if newline then ["010"%char] else []))%list).
    { subst rest. destruct (rev rest0) as [|c r] eqn:Hrev.
      - exists false. now rewrite app_nil_r.
      - destruct (Ascii.eqb_spec c "010") as [->|_].
        + exists true. rewrite <- (rev_involutive rest0), Hrev. reflexivity.
        + exists false. now rewrite app_nil_r. }
    destruct Hrest as (newline & Hrest0).
    destruct (App.split_at (Ascii.eqb ".") (rev rest)) as [[tld domain]|] eqn:Hdot;
      [|discriminate].
    apply split_at_Some in Hdot as (y & Hr & Hy & _). apply eqb_char_true in Hy. subst y.
    intros H. repeat (apply andb_prop in H as [H ?]).
    exists local, (rev domain), (rev tld), newline. repeat split.
    + rewrite Hl, Hrest0. f_equal. f_equal.
      rewrite <- (rev_involutive rest), Hr, rev_app_distr. cbn [rev].
      now rewrite <- !app_assoc.
    + now apply length_nonzero.
    + assumption.
    + intros Hnil. apply (f_equal (@rev ascii)) in Hnil. rewrite rev_involutive in Hnil.
      subst domain. discriminate.
    + now rewrite forallb_rev'.
    + rewrite length_rev. now apply Nat.leb_le.
    + now rewrite forallb_rev'.
  - intros (local & domain & tld & newline & Hl & Hlocal & Hlc & Hdomain & Hdc & Htld & Htc).
    rewrite Hl.
    rewrite (split_at_app (Ascii.eqb "@") local) by
      (solve [apply (forallb_weaken App.local_char); [apply local_char_not_at|exact Hlc]
             |reflexivity]).
    assert (Hstrip : match rev (domain ++ "."%char :: tld
                                  ++ (if newline then ["010"%char] else [])) with
                     | c :: r => if Ascii.eqb c "010" then rev r
                                 else (domain ++ "."%char :: tld
                                       ++ (if newline then ["010"%char] else []))%list
                     | [] => (domain ++ "."%char :: tld
                              ++ (if newline then ["010"%char] else []))%list
                     end = (domain ++ "."%char :: tld)%list).
    { destruct newline.
      - change (domain ++ "."%char :: tld ++ ["010"%char])%list
          with (domain ++ ("."%char :: tld) ++ ["010"%char])%list.
        rewrite app_assoc, rev_app_distr. cbn [rev app]. now rewrite rev_involutive.
      - rewrite app_nil_r. rewrite rev_app_distr. cbn [rev].
        destruct (rev tld) as [|c r] eqn:Hrev.
        + apply (f_equal (@length ascii)) in Hrev. rewrite length_rev in Hrev.
          cbn in Hrev. lia.
        + cbn [app]. rewrite letter_not_newline; [reflexivity|].
          assert (Hc : forallb App.is_letter (rev tld) = true) by now rewrite forallb_rev'.
          rewrite Hrev in Hc. cbn [forallb] in Hc. now apply andb_prop in Hc as [Hc _]. }
    rewrite Hstrip. rewrite rev_app_distr. cbn [rev]. rewrite <- app_assoc. cbn [app].
    rewrite (split_at_app (Ascii.eqb ".") (rev tld)) by
      (solve [apply (forallb_weaken App.is_letter); [apply letter_not_dot|
                now rewrite forallb_rev']
             |reflexivity]).
    rewrite !forallb_rev', !length_rev, Hlc, Hdc, Htc.
    apply length_nonzero in Hlocal. apply length_nonzero in Hdomain.
    rewrite Hlocal, Hdomain. apply Nat.leb_le in Htld. now rewrite Htld.
Qed.

(** ** The eligibility check over time *)

Lemma days_between_lt (now earlier n : Z) :
  App.days_between now earlier < n <-> now < earlier + n * day.
Proof.
  unfold App.days_between, day.
  assert (Hd : 0 < App.microseconds_per_day) by reflexivity.
  split; intros H.
  - apply Z.nle_gt. intros Hle. apply Z.nle_gt in H. apply H.
    apply Z.div_le_lower_bound; [exact Hd|]. lia.
  - apply Z.div_lt_upper_bound; [exact Hd|]. lia.
Qed.

Lemma most_recent_Some {L : StrLower} (email : string) (submissions : list dict) (sub : dict) :
  most_recent email submissions = Some sub ->
  sub ∈ submissions /\ same_email email sub = true.
Proof.
  unfold most_recent. intros Hlast. apply last_Some in Hlast as (l' & Hl').
  assert (Hin : In sub (List.filter (same_email email) submissions)).
  { rewrite Hl'. apply in_or_app. right. now left. }
  apply List.filter_In in Hin as [Hin Hsame]. split; [now apply list_elem_of_In|exact Hsame].
Qed.

Lemma most_recent_None {L : StrLower} (email : string) (submissions : list dict) :
  most_recent email submissions = None <->
  forall sub, sub ∈ submissions -> same_email email sub = false.
Proof.
  unfold most_recent. rewrite last_None. split.
  - intros Hnil sub Hin. destruct (same_email email sub) eqn:Hs; [|reflexivity].
    assert (Hin' : In sub (List.filter (same_email email) submissions)).
    { apply List.filter_In. split; [now apply list_elem_of_In|exact Hs]. }
    rewrite Hnil in Hin'. destruct Hin'.
  - intros Hall. destruct (List.filter (same_email email) submissions) as [|x l] eqn:Hf;
      [reflexivity|].
    assert (Hin : In x (List.filter (same_email email) submissions))
      by (rewrite Hf; now left).
    apply List.filter_In in Hin as [Hin Hs].
    rewrite (Hall x) in Hs; [discriminate|now apply list_elem_of_In].
Qed.

(** X9. The answer of [check_existing_submission] on a well-formed
    ledger: a record is returned exactly when some record has the email;
    with a record, the check blocks exactly while less than seven times 24
    hours have passed since its timestamp, and then the days remaining are
    at least 1 (and at most 7 unless the timestamp lies in the future);
    when it does not block, the days remaining are 0. *)
Theorem check_existing_submission_window {L : StrLower}
    (now : Z) (file : App.store) (email : string)
    (blocked : bool) (days_remaining : Z) (old : option dict) :
  Forall (fun s => well_formed s = true) (default [] file) ->
  App.check_existing_submission now file (VStr email) = Ok (blocked, days_remaining, old) ->
  (old = None <-> forall sub, sub ∈ default [] file -> same_email email sub = false)
  /\ (forall sub, old = Some sub ->
        sub ∈ default [] file /\ same_email email sub = true
        /\ (blocked = true <-> now < timestamp sub + 7 * day)
        /\ (timestamp sub <= now -> days_remaining <= 7))
  /\ (blocked = true -> 1 <= days_remaining /\ old <> None)
  /\ (blocked = false -> days_remaining = 0).
Proof.
  intros Hwf Hcheck. rewrite (check_existing_submission_eq _ _ _ Hwf) in Hcheck.
  destruct (most_recent email (default [] file)) as [sub|] eqn:Hm.
  - destruct (most_recent_Some _ _ _ Hm) as [Hin Hsame].
    pose proof (days_between_lt now (timestamp sub) 7) as Hlt.
    fold (elapsed_days now sub) in Hlt. change App.RESUBMISSION_DAYS with 7 in Hcheck.
    assert (Hpos : timestamp sub <= now -> 0 <= elapsed_days now sub).
    { intros Hle. unfold elapsed_days, App.days_between.
      apply Z.div_pos; [lia|reflexivity]. }
    assert (Hnone : Some sub = None <->
                      forall s, s ∈ default [] file -> same_email email s = false).
    { split; [discriminate|]. intros H. rewrite (H sub Hin) in Hsame. discriminate. }
    destruct (elapsed_days now sub <? 7) eqn:Hd; injection Hcheck as <- <- <-.
    + apply Z.ltb_lt in Hd. split; [exact Hnone|]. split; [|split].
      * intros s [= <-]. split; [exact Hin|]. split; [exact Hsame|]. split.
        -- split; [intros _; now apply Hlt|reflexivity].
        -- intros Hle. specialize (Hpos Hle). lia.
      * intros _. split; [lia|discriminate].
      * discriminate.
    + apply Z.ltb_ge in Hd. split; [exact Hnone|]. split; [|split].
      * intros s [= <-]. split; [exact Hin|]. split; [exact Hsame|]. split.
        -- split; [discriminate|]. intros H. apply Hlt in H. lia.
        -- intros _. lia.
      * discriminate.
      * reflexivity.
  - injection Hcheck as <- <- <-.
    pose proof (proj1 (most_recent_None _ _) Hm) as Hm'.
    split; [split; [intros _; exact Hm'|reflexivity]|].
    split; [discriminate|]. split; [discriminate|reflexivity].
Qed.

Lemma check_existing_submission_window_witness :
  (Some (sample_record "ada@example.com" (2 * day)) = None <->
   forall sub, sub ∈ sample_ledger -> same_email "ADA@example.COM" sub = false)
  /\ (forall sub, Some (sample_record "ada@example.com" (2 * day)) = Some sub ->
        sub ∈ sample_ledger /\ same_email "ADA@example.COM" sub = true
        /\ (true = true <-> 8 * day + 23 * hour < timestamp sub + 7 * day)
        /\ (timestamp sub <= 8 * day + 23 * hour -> 1 <= 7))
  /\ (true = true -> 1 <= 1 /\ Some (sample_record "ada@example.com" (2 * day)) <> None)
  /\ (true = false -> 1 = 0).
Proof.
  apply (check_existing_submission_window (8 * day + 23 * hour) (Some sample_ledger)
           "ADA@example.COM" true 1 (Some (sample_record "ada@example.com" (2 * day)))
           sample_ledger_well_formed).
  evaluate.
Defined.

(** X10. The check is monotone in time on a well-formed ledger: at a
    later instant it answers from the same record, the days remaining
    have not grown, and an email that was not blocked is still not
    blocked. *)
Theorem check_existing_submission_monotone {L : StrLower}
    (t1 t2 : Z) (file : App.store) (email : string)
    (blocked : bool) (days_remaining : Z) (old : option dict) :
  Forall (fun s => well_formed s = true) (default [] file) ->
  t1 <= t2 ->
  App.check_existing_submission t1 file (VStr email) = Ok (blocked, days_remaining, old) ->
  exists (blocked' : bool) (days_remaining' : Z),
    App.check_existing_submission t2 file (VStr email) = Ok (blocked', days_remaining', old)
    /\ days_remaining' <= days_remaining
    /\ (blocked = false -> blocked' = false).
Proof.
  intros Hwf Ht Hcheck. rewrite (check_existing_submission_eq _ _ _ Hwf) in Hcheck.
  rewrite (check_existing_submission_eq _ _ _ Hwf).
  destruct (most_recent email (default [] file)) as [sub|].
  - pose proof (days_between_mono t1 t2 (timestamp sub) Ht) as Hmono.
    fold (elapsed_days t1 sub) (elapsed_days t2 sub) in Hmono.
    change App.RESUBMISSION_DAYS with 7 in *.
    destruct (elapsed_days t1 sub <? 7) eqn:H1; injection Hcheck as <- <- <-;
      destruct (elapsed_days t2 sub <? 7) eqn:H2;
      eexists _, _; (split; [reflexivity|]);
      try apply Z.ltb_lt in H1; try apply Z.ltb_ge in H1;
      try apply Z.ltb_lt in H2; try apply Z.ltb_ge in H2;
      split; try lia; try discriminate; auto.
  - injection Hcheck as <- <- <-. eexists _, _. split; [reflexivity|]. split; [lia|auto].
Qed.

Lemma check_existing_submission_monotone_witness :
  exists (blocked' : bool) (days_remaining' : Z),
    App.check_existing_submission (9 * day) (Some sample_ledger) (VStr "ADA@example.COM")
    = Ok (blocked', days_remaining', Some (sample_record "ada@example.com" (2 * day)))
    /\ days_remaining' <= 1
    /\ (true = false -> blocked' = false).
Proof.
  apply (check_existing_submission_monotone (8 * day + 23 * hour) (9 * day)
           (Some sample_ledger) "ADA@example.COM" true 1
           (Some (sample_record "ada@example.com" (2 * day))) sample_ledger_well_formed).
  - unfold day, hour, App.microseconds_per_day. lia.
  - evaluate.
Defined.

(** ** Saving, then checking *)

Lemma filter_none {A} (f : A -> bool) (l : list A) :
  (forall x, x ∈ l -> f x = false) -> List.filter f l = [].
Proof.
  induction l as [|x l IH]; intros H; [reflexivity|]. cbn [List.filter].
  rewrite (H x) by apply list_elem_of_here. apply IH. intros y Hy. apply H.
  now apply list_elem_of_further.
Qed.

Lemma same_email_normalized {L : StrLower} (email : string) (sub : dict) :
  same_email email sub = true <-> normalized_email sub = lower email.
Proof. unfold same_email. apply String.eqb_eq. Qed.

(** With no email twice, overwriting the record of an email by another
    record of that email leaves it the only one of that email. *)
Lemma filter_overwritten {L : StrLower} (email : string) (submissions : list dict) (i : nat)
    (old data : dict) :
  NoDup (emails submissions) ->
  submissions !! i = Some old ->
  normalized_email old = lower email -> normalized_email data = lower email ->
  List.filter (same_email email) (<[i := data]> submissions) = [data].
Proof.
  intros Hnodup Hi Hold Hdata.
  pose proof (lookup_lt_Some _ _ _ Hi) as Hlt.
  rewrite insert_take_drop by exact Hlt.
  rewrite <- (take_drop_middle _ _ _ Hi) in Hnodup.
  unfold emails in Hnodup. rewrite fmap_app, fmap_cons in Hnodup.
  apply NoDup_app in Hnodup as (_ & Hleft & Hright).
  apply NoDup_cons in Hright as [Hright _].
  rewrite List.filter_app. cbn [List.filter].
  rewrite (proj2 (same_email_normalized email data) Hdata).
  rewrite !filter_none; [reflexivity| |].
  - intros x Hx. destruct (same_email email x) eqn:Hs; [|reflexivity].
    apply same_email_normalized in Hs. exfalso. apply Hright.
    apply list_elem_of_fmap. exists x. split; [congruence|exact Hx].
  - intros x Hx. destruct (same_email email x) eqn:Hs; [|reflexivity].
    apply same_email_normalized in Hs. exfalso.
    apply (Hleft (normalized_email x)).
    + apply list_elem_of_fmap. exists x. split; [reflexivity|exact Hx].
    + rewrite Hs, <- Hold. apply list_elem_of_here.
Qed.

(** After a save on a ledger that satisfies the invariant, the saved
    record is the most recent one of its email. *)
Lemma most_recent_after_save {L : StrLower} (now : Z) (data : dict) (file file' : App.store)
    (address query : string) (t : Z) :
  ledger_invariant file ->
  data !! "email" = Some (VStr address) ->
  data !! "timestamp" = Some (VTime t) ->
  App.save_submission now data file = Ok file' ->
  lower query = lower address ->
  most_recent query (default [] file') = Some data
  /\ Forall (fun s => well_formed s = true) (default [] file').
Proof.
  intros [Hwf Hnodup] Hemail Hstamp Hsave Hq.
  assert (Hdata : well_formed data = true).
  { unfold well_formed. now rewrite Hemail, Hstamp. }
  assert (Hne : normalized_email data = lower query).
  { unfold normalized_email. now rewrite Hemail, Hq. }
  destruct (save_submission_cases now data file address Hemail Hwf)
    as [(i & sub & Hi & Hstale & _ & Hsave')|[_ Hsave']];
    rewrite Hsave' in Hsave; injection Hsave as <-; cbn [default from_option id].
  - split; [|now apply Forall_insert]. unfold most_recent.
    rewrite (filter_overwritten query _ i sub data Hnodup Hi); [reflexivity| |exact Hne].
    rewrite Hq. now apply stale_same_email in Hstale.
  - split; [|apply Forall_app; split; [exact Hwf|now constructor]].
    unfold most_recent. rewrite List.filter_app. cbn [List.filter].
    rewrite (proj2 (same_email_normalized query data) Hne). apply last_snoc.
Qed.

Lemma check_after_save {L : StrLower} (now t_save : Z) (data : dict) (file file' : App.store)
    (address query : string) (t : Z) :
  ledger_invariant file ->
  data !! "email" = Some (VStr address) ->
  data !! "timestamp" = Some (VTime t) ->
  App.save_submission t_save data file = Ok file' ->
  lower query = lower address ->
  App.check_existing_submission now file' (VStr query)
  = Ok (if App.days_between now t <? 7
        then (true, 7 - App.days_between now t, Some data)
        else (false, 0, Some data)).
Proof.
  intros Hinv Hemail Hstamp Hsave Hq.
  destruct (most_recent_after_save _ _ _ _ _ _ _ Hinv Hemail Hstamp Hsave Hq) as [Hm Hwf].
  rewrite (check_existing_submission_eq _ _ _ Hwf), Hm.
  unfold elapsed_days, timestamp. now rewrite Hstamp.
Qed.

(** X11. Saving and checking compose: on a ledger with no email twice,
    after [save_submission] has saved a record, [check_existing_submission]
    for the same email in any letter case answers from that very record,
    blocked with [7 - d] days remaining while less than seven days have
    elapsed since its timestamp, not blocked afterwards. *)
Theorem saved_submission_is_checked {L : StrLower}
    (now t_save : Z) (data : dict) (file file' : App.store)
    (address query : string) (t : Z) :
  ledger_invariant file ->
  data !! "email" = Some (VStr address) ->
  data !! "timestamp" = Some (VTime t) ->
  App.save_submission t_save data file = Ok file' ->
  lower query = lower address ->
  App.check_existing_submission now file' (VStr query)
  = Ok (if App.days_between now t <? 7
        then (true, 7 - App.days_between now t, Some data)
        else (false, 0, Some data)).
Proof. apply check_after_save. Qed.

Lemma saved_submission_is_checked_witness :
  App.check_existing_submission (5 * day)
    (Some [sample_record "bob@example.org" 0; sample_record "Ada@example.com" (3 * day)])
    (VStr "ADA@EXAMPLE.COM")
  = Ok (true, 5, Some (sample_record "Ada@example.com" (3 * day))).
Proof.
  apply (saved_submission_is_checked (5 * day) (3 * day)
           (sample_record "Ada@example.com" (3 * day))
           (Some [sample_record "bob@example.org" 0])
           (Some [sample_record "bob@example.org" 0;
                  sample_record "Ada@example.com" (3 * day)])
           "Ada@example.com" "ADA@EXAMPLE.COM" (3 * day)).
  - split; [repeat constructor|].
    change (emails (default [] (Some [sample_record "bob@example.org" 0])))
      with ["bob@example.org"].
    apply NoDup_singleton.
  - reflexivity.
  - reflexivity.
  - evaluate.
  - reflexivity.
Defined.

(** ** The form handler *)

Section SubmitFacts.

Context (rules : Rules) (messages : Messages) {L : StrLower}.

Lemma validate_email_nonempty (email : string) :
  App.validate_email email = true -> String.eqb email "" = false.
Proof.
  intros H. destruct (String.eqb_spec email "") as [->|_]; [discriminate H|reflexivity].
Qed.

(** The handler on a form that passes its checks. *)
Lemma submit_application_valid (t_check t_stamp t_save : Z) (form : App.Form)
    (file : App.store) (loan_amount : float) (credit_score : Z) (annual_income : float) :
  form_valid form loan_amount credit_score annual_income ->
  App.submit_application rules messages t_check t_stamp t_save form file
  = ('(blocked, days_remaining, old) ←
       App.check_existing_submission t_check file (VStr (App.email form));
     if blocked : bool then Ok (file, App.AlreadySubmitted days_remaining)
     else
       '(decision, message_data) ←
         evaluate_application rules messages
           (form_application form loan_amount credit_score annual_income t_stamp);
       file' ← App.save_submission t_save
                 (form_record
                    (form_application form loan_amount credit_score annual_income t_stamp)
                    decision) file;
       Ok (file', App.ResultPage decision message_data)).
Proof.
  intros (Hname & Hmail & Hla & Hcs & Hinc & Hrange & Hlpos & Hipos).
  unfold App.submit_application.
  destruct (String.eqb_spec (App.name form) "") as [?|_]; [contradiction|].
  rewrite (validate_email_nonempty _ Hmail), Hmail. cbn [orb negb].
  destruct (App.check_existing_submission t_check file (VStr (App.email form)))
    as [[[blocked days] old]|e]; [|reflexivity].
  unfold_bind. destruct blocked; [reflexivity|].
  rewrite Hla, Hcs, Hinc, Hlpos, Hipos.
  assert (Hr : (300 <=? credit_score) && (credit_score <=? 850) = true).
  { apply andb_true_intro. split; apply Z.leb_le; lia. }
  rewrite Hr. reflexivity.
Qed.

(** What the handler answered, read backwards. *)
Lemma submit_application_inv (t_check t_stamp t_save : Z) (form : App.Form)
    (file file' : App.store) (r : App.response) :
  App.submit_application rules messages t_check t_stamp t_save form file = Ok (file', r) ->
  (file' = file
   /\ ((exists error, r = App.FormError error)
       \/ exists days_remaining old,
            r = App.AlreadySubmitted days_remaining
            /\ App.check_existing_submission t_check file (VStr (App.email form))
               = Ok (true, days_remaining, old)))
  \/ exists loan_amount credit_score annual_income decision message_data days old,
       form_valid form loan_amount credit_score annual_income
       /\ App.check_existing_submission t_check file (VStr (App.email form))
          = Ok (false, days, old)
       /\ evaluate_application rules messages
            (form_application form loan_amount credit_score annual_income t_stamp)
          = Ok (decision, message_data)
       /\ App.save_submission t_save
            (form_record
               (form_application form loan_amount credit_score annual_income t_stamp)
               decision) file = Ok file'
       /\ r = App.ResultPage decision message_data.
Proof.
  assert (Herr : forall key, App.form_error messages file key = Ok (file', r) ->
                 file' = file /\ exists error, r = App.FormError error).
  { intros key H. unfold App.form_error in H.
    destruct (bind_Ok _ _ _ H) as (e & _ & H'). injection H' as <- <-. eauto. }
  unfold App.submit_application.
  destruct (String.eqb_spec (App.name form) "") as [Hn|Hn]; cbn [orb].
  { intros H. left. destruct (Herr _ H). auto. }
  destruct (String.eqb (App.email form) ""); cbn [orb].
  { intros H. left. destruct (Herr _ H). auto. }
  destruct (App.validate_email (App.email form)) eqn:Hmail; cbn [negb].
  2:{ intros H. left. destruct (Herr _ H). auto. }
  intros H. destruct (bind_Ok _ _ _ H) as ([[blocked days] old] & Hcheck & H1). clear H.
  destruct blocked.
  { injection H1 as <- <-. left. split; [reflexivity|]. right. eauto. }
  destruct (App.loan_amount form) as [loan_amount|] eqn:Hla;
    [|left; destruct (Herr _ H1); auto].
  destruct (App.credit_score form) as [credit_score|] eqn:Hcs;
    [|left; destruct (Herr _ H1); auto].
  destruct (App.annual_income form) as [annual_income|] eqn:Hinc;
    [|left; destruct (Herr _ H1); auto].
  destruct ((300 <=? credit_score) && (credit_score <=? 850)) eqn:Hr; cbn [negb] in H1;
    [|left; destruct (Herr _ H1); auto].
  destruct (leb (Float loan_amount) (Int 0)) eqn:Hlpos; [left; destruct (Herr _ H1); auto|].
  destruct (leb (Float annual_income) (Int 0)) eqn:Hipos;
    [left; destruct (Herr _ H1); auto|].
  destruct (bind_Ok _ _ _ H1) as ([decision message_data] & Heval & H2). clear H1.
  destruct (bind_Ok _ _ _ H2) as (saved & Hsave & H3). clear H2.
  injection H3 as <- <-. right.
  exists loan_amount, credit_score, annual_income, decision, message_data, days, old.
  apply andb_prop in Hr as [Hlo Hhi]. apply Z.leb_le in Hlo, Hhi.
  repeat split; auto.
Qed.

Lemma form_application_well_typed (form : App.Form) (loan_amount : float)
    (credit_score : Z) (annual_income : float) (t_stamp : Z) :
  well_typed (form_application form loan_amount credit_score annual_income t_stamp)
    credit_score (Float loan_amount) (Float annual_income)
    (String.eqb (App.has_bankruptcy form) "yes").
Proof.
  unfold form_application.
  split; rewrite !lookup_insert_ne by discriminate; apply lookup_insert_eq.
Qed.

Lemma form_record_email (form : App.Form) (loan_amount : float) (credit_score : Z)
    (annual_income : float) (t_stamp : Z) (decision : string) :
  form_record (form_application form loan_amount credit_score annual_income t_stamp) decision
    !! "email" = Some (VStr (App.email form)).
Proof.
  unfold form_record, form_application.
  rewrite !lookup_insert_ne by discriminate. apply lookup_insert_eq.
Qed.

Lemma form_record_timestamp (form : App.Form) (loan_amount : float) (credit_score : Z)
    (annual_income : float) (t_stamp : Z) (decision : string) :
  form_record (form_application form loan_amount credit_score annual_income t_stamp) decision
    !! "timestamp" = Some (VTime t_stamp).
Proof.
  unfold form_record, form_application.
  rewrite !lookup_insert_ne by discriminate. apply lookup_insert_eq.
Qed.

Lemma save_submission_Ok (now : Z) (data : dict) (file : App.store) (address : string) :
  data !! "email" = Some (VStr address) ->
  Forall (fun s => well_formed s = true) (default [] file) ->
  exists file', App.save_submission now data file = Ok file'.
Proof.
  intros He Hwf.
  destruct (save_submission_cases now data file address He Hwf)
    as [(i & old & _ & _ & _ & H)|[_ H]]; eauto.
Qed.

End SubmitFacts.

(** X12. With a [denied] template and a [system_error] message in the
    configuration and a ledger of well-formed records, the form handler
    raises no exception, whatever the form holds: it answers with an
    error, a refusal or a result. *)
Theorem submit_application_no_exception {L : StrLower}
    (rules : Rules) (messages : Messages) (t_check t_stamp t_save : Z)
    (form : App.Form) (file : App.store) (fallback : Template) (error : value) :
  decisions messages !! "denied" = Some fallback ->
  errors messages !! "system_error" = Some error ->
  Forall (fun s => well_formed s = true) (default [] file) ->
  exists (file' : App.store) (r : App.response),
    App.submit_application rules messages t_check t_stamp t_save form file = Ok (file', r).
Proof.
  intros Hf He Hwf.
  assert (Herr : forall key, exists r, App.form_error messages file key = Ok (file, r)).
  { intros key. unfold App.form_error, get_error_message. rewrite He. eexists. reflexivity. }
  unfold App.submit_application.
  destruct (_ || _); [destruct (Herr "missing_fields"); eauto|].
  destruct (negb _); [destruct (Herr "invalid_email"); eauto|].
  rewrite (check_existing_submission_eq _ _ _ Hwf). unfold_bind.
  match goal with |- context [match ?m with Some _ => _ | None => _ end] =>
    destruct m as [sub|] end.
  - destruct (elapsed_days t_check sub <? App.RESUBMISSION_DAYS); [eauto|].
    destruct (App.loan_amount form) as [la|]; [|destruct (Herr "system_error"); eauto].
    destruct (App.credit_score form) as [cs|]; [|destruct (Herr "system_error"); eauto].
    destruct (App.annual_income form) as [inc|]; [|destruct (Herr "system_error"); eauto].
    destruct (negb _); [destruct (Herr "invalid_credit_score"); eauto|].
    destruct (leb (Float la) _); [destruct (Herr "invalid_loan_amount"); eauto|].
    destruct (leb (Float inc) _); [destruct (Herr "invalid_income"); eauto|].
    destruct (evaluate_application_returns rules messages _ _ _ _ _ _
                (form_application_well_typed form la cs inc t_stamp) Hf) as (d & md & Hev).
    unfold form_application in Hev. rewrite Hev.
    destruct (save_submission_Ok t_save _ file _ (form_record_email form la cs inc t_stamp d) Hwf)
      as (file' & Hsave).
    unfold form_record, form_application in Hsave. rewrite Hsave. eauto.
  - destruct (App.loan_amount form) as [la|]; [|destruct (Herr "system_error"); eauto].
    destruct (App.credit_score form) as [cs|]; [|destruct (Herr "system_error"); eauto].
    destruct (App.annual_income form) as [inc|]; [|destruct (Herr "system_error"); eauto].
    destruct (negb _); [destruct (Herr "invalid_credit_score"); eauto|].
    destruct (leb (Float la) _); [destruct (Herr "invalid_loan_amount"); eauto|].
    destruct (leb (Float inc) _); [destruct (Herr "invalid_income"); eauto|].
    destruct (evaluate_application_returns rules messages _ _ _ _ _ _
                (form_application_well_typed form la cs inc t_stamp) Hf) as (d & md & Hev).
    unfold form_application in Hev. rewrite Hev.
    destruct (save_submission_Ok t_save _ file _ (form_record_email form la cs inc t_stamp d) Hwf)
      as (file' & Hsave).
    unfold form_record, form_application in Hsave. rewrite Hsave. eauto.
Qed.

Lemma submit_application_no_exception_witness :
  exists (file' : App.store) (r : App.response),
    App.submit_application sample_rules sample_messages (3 * day) (3 * day) (3 * day)
      {| App.name := "Ada"; App.email := "carol@example.net";
         App.loan_amount := None; App.credit_score := Some 700;
         App.annual_income := Some 50000%float; App.has_bankruptcy := "no" |}
      (Some sample_ledger)
    = Ok (file', r).
Proof.
  apply (submit_application_no_exception sample_rules sample_messages
           (3 * day) (3 * day) (3 * day)
           {| App.name := "Ada"; App.email := "carol@example.net";
              App.loan_amount := None; App.credit_score := Some 700;
              App.annual_income := Some 50000%float; App.has_bankruptcy := "no" |}
           (Some sample_ledger)
           (sample_template "Denied" "We cannot offer a loan of ${loan_amount}.")
           (VStr "Something went wrong.")).
  - reflexivity.
  - reflexivity.
  - exact sample_ledger_well_formed.
Defined.

Section SubmitOutcome.

Context (rules : Rules) (messages : Messages) {L : StrLower}.

(** On a ledger of well-formed records, the eligibility check does not
    block exactly when the email has no record or its most recent record
    is at least seven days old. *)
Lemma check_not_blocked (now : Z) (file : App.store) (email : string) :
  Forall (fun s => well_formed s = true) (default [] file) ->
  match most_recent email (default [] file) with
  | None => True
  | Some sub => App.RESUBMISSION_DAYS <= elapsed_days now sub
  end ->
  exists days old, App.check_existing_submission now file (VStr email) = Ok (false, days, old).
Proof.
  intros Hwf H. rewrite (check_existing_submission_eq _ _ _ Hwf).
  destruct (most_recent email (default [] file)) as [sub|]; [|eauto].
  destruct (Z.ltb_spec (elapsed_days now sub) App.RESUBMISSION_DAYS); [lia|eauto].
Qed.

Lemma check_blocked (now : Z) (file : App.store) (email : string) (sub : dict) :
  Forall (fun s => well_formed s = true) (default [] file) ->
  most_recent email (default [] file) = Some sub ->
  elapsed_days now sub < App.RESUBMISSION_DAYS ->
  App.check_existing_submission now file (VStr email)
  = Ok (true, App.RESUBMISSION_DAYS - elapsed_days now sub, Some sub).
Proof.
  intros Hwf Hm H. rewrite (check_existing_submission_eq _ _ _ Hwf), Hm.
  destruct (Z.ltb_spec (elapsed_days now sub) App.RESUBMISSION_DAYS); [reflexivity|lia].
Qed.

(** With no email twice, the record of an email sits at one index. *)
Lemma same_email_unique (email : string) (submissions : list dict) (i j : nat)
    (a b : dict) :
  NoDup (emails submissions) ->
  submissions !! i = Some a -> submissions !! j = Some b ->
  same_email email a = true -> same_email email b = true -> i = j.
Proof.
  intros Hnodup Hi Hj Ha Hb.
  apply same_email_normalized in Ha, Hb.
  eapply NoDup_lookup; [exact Hnodup| |]; unfold emails; rewrite list_lookup_fmap.
  - rewrite Hi. reflexivity.
  - rewrite Hj. cbn. congruence.
Qed.

(** A save for an email whose most recent record is stale overwrites that
    record, wherever it sits; a save for an email with no record appends. *)
Lemma save_submission_replaces (now : Z) (data : dict) (file : App.store)
    (address : string) (old : dict) :
  ledger_invariant file ->
  data !! "email" = Some (VStr address) ->
  most_recent address (default [] file) = Some old ->
  App.RESUBMISSION_DAYS <= elapsed_days now old ->
  exists i, default [] file !! i = Some old
    /\ App.save_submission now data file = Ok (Some (<[i := data]> (default [] file))).
Proof.
  intros [Hwf Hnodup] Hemail Hm Hold.
  destruct (most_recent_Some _ _ _ Hm) as [Hin Hsame].
  assert (Hstale : stale now address old = true).
  { unfold stale. rewrite Hsame. cbn [andb]. now apply Z.leb_le. }
  destruct (save_submission_cases now data file address Hemail Hwf)
    as [(i & sub & Hi & Hs & _ & Hsave)|[Hall _]].
  - apply list_elem_of_lookup in Hin as [j Hj].
    assert (Hsub : same_email address sub = true).
    { apply same_email_normalized. now apply stale_same_email in Hs. }
    assert (i = j) by (eapply same_email_unique; eauto). subst j.
    assert (sub = old) by congruence. subst sub. eauto.
  - rewrite Forall_forall in Hall. rewrite (Hall old) in Hstale; [discriminate|].
    exact Hin.
Qed.

Lemma save_submission_appends (now : Z) (data : dict) (file : App.store)
    (address : string) :
  Forall (fun s => well_formed s = true) (default [] file) ->
  data !! "email" = Some (VStr address) ->
  most_recent address (default [] file) = None ->
  App.save_submission now data file = Ok (Some (default [] file ++ [data])%list).
Proof.
  intros Hwf Hemail Hm.
  pose proof (proj1 (most_recent_None _ _) Hm) as Hnone.
  destruct (save_submission_cases now data file address Hemail Hwf)
    as [(i & sub & Hi & Hs & _ & _)|[_ Hsave]]; [|exact Hsave].
  apply stale_same_email, same_email_normalized in Hs.
  rewrite (Hnone sub) in Hs; [discriminate|]. eapply list_elem_of_lookup_2, Hi.
Qed.

End SubmitOutcome.

(** X13. What the form handler's answer tells about the ledger. Any
    answer other than a result page leaves the file as it was. A result
    page is answered only for a form that passed every check; its decision
    and message are those of [evaluate_application] on the application
    built from the form, and afterwards the most recent record of the
    form's email is that application with the decision and a null
    [contact_requested]. *)
Theorem submit_application_outcome {L : StrLower}
    (rules : Rules) (messages : Messages) (t_check t_stamp t_save : Z)
    (form : App.Form) (file file' : App.store) (r : App.response) :
  ledger_invariant file ->
  App.submit_application rules messages t_check t_stamp t_save form file = Ok (file', r) ->
  match r with
  | App.ResultPage decision message_data =>
      exists loan_amount credit_score annual_income,
        let application :=
          form_application form loan_amount credit_score annual_income t_stamp in
        form_valid form loan_amount credit_score annual_income
        /\ evaluate_application rules messages application = Ok (decision, message_data)
        /\ most_recent (App.email form) (default [] file')
           = Some (form_record application decision)
  | _ => file' = file
  end.
Proof.
  intros Hinv H.
  destruct (submit_application_inv rules messages _ _ _ _ _ _ _ H)
    as [[-> [[error ->]|(days & old & -> & _)]]
       |(la & cs & inc & decision & md & days & old & Hvalid & _ & Heval & Hsave & ->)];
    [reflexivity|reflexivity|].
  exists la, cs, inc. cbv zeta. repeat split; try apply Hvalid; [exact Heval|].
  eapply most_recent_after_save; eauto using form_record_email, form_record_timestamp.
Qed.

Lemma submit_application_outcome_witness :
  exists loan_amount credit_score annual_income,
    let application :=
      form_application (sample_form "Ada@example.com")
        loan_amount credit_score annual_income (3 * day) in
    form_valid (sample_form "Ada@example.com") loan_amount credit_score annual_income
    /\ evaluate_application sample_rules sample_messages application
       = Ok ("pre_approved",
             <["loan_to_income_ratio" := VNum (Float 0.2)]>
               (message_dict "pre_approved"
                  (sample_template "Pre-approved"
                     "Your loan of ${loan_amount} is pre-approved.")
                  "10,000.00"))
    /\ most_recent "Ada@example.com"
         [sample_record "bob@example.org" 0;
          form_record
            (form_application (sample_form "Ada@example.com") 10000 780 50000 (3 * day))
            "pre_approved"]
       = Some (form_record application "pre_approved").
Proof.
  refine (submit_application_outcome sample_rules sample_messages
            (3 * day) (3 * day) (3 * day) (sample_form "Ada@example.com")
            (Some [sample_record "bob@example.org" 0])
            (Some [sample_record "bob@example.org" 0;
                   form_record
                     (form_application (sample_form "Ada@example.com")
                        10000 780 50000 (3 * day))
                     "pre_approved"])
            (App.ResultPage "pre_approved"
               (<["loan_to_income_ratio" := VNum (Float 0.2)]>
                  (message_dict "pre_approved"
                     (sample_template "Pre-approved"
                        "Your loan of ${loan_amount} is pre-approved.")
                     "10,000.00"))) _ _).
  - split; [repeat constructor|].
    change (emails (default [] (Some [sample_record "bob@example.org" 0])))
      with ["bob@example.org"].
    apply NoDup_singleton.
  - evaluate.
Defined.

(** ** The cooldown at the handlers *)

Section Cooldown.

Context (rules : Rules) (messages : Messages) {L : StrLower}.

(** The form handler's answer while the eligibility check blocks. *)
Lemma submit_application_blocked (t_check t_stamp t_save : Z) (form : App.Form)
    (file : App.store) (days_remaining : Z) (old : option dict) :
  App.name form <> "" ->
  App.validate_email (App.email form) = true ->
  App.check_existing_submission t_check file (VStr (App.email form))
  = Ok (true, days_remaining, old) ->
  App.submit_application rules messages t_check t_stamp t_save form file
  = Ok (file, App.AlreadySubmitted days_remaining).
Proof.
  intros Hname Hmail Hcheck. unfold App.submit_application.
  destruct (String.eqb_spec (App.name form) "") as [?|_]; [contradiction|].
  rewrite (validate_email_nonempty _ Hmail), Hmail. cbn [orb negb].
  rewrite Hcheck. reflexivity.
Qed.

Lemma find_required_None (application : dict) (fields : list string) :
  Forall (fun field => is_Some (application !! field)) fields ->
  List.find (fun field => bool_decide (application !! field = None)) fields = None.
Proof.
  induction 1 as [|field fields [v Hv] _ IH]; [reflexivity|].
  cbn [List.find]. rewrite bool_decide_eq_false_2 by (rewrite Hv; discriminate). exact IH.
Qed.

End Cooldown.

(** X14. While the most recent record of an email is less than seven days
    old, the form handler refuses a form with that email (in any letter
    case) that has a name and passes the email pattern, whatever its other
    fields hold: it answers that the email was already submitted, with the
    days remaining, and leaves the file as it was. *)
Theorem submit_application_cooldown {L : StrLower}
    (rules : Rules) (messages : Messages) (t_check t_stamp t_save : Z)
    (form : App.Form) (file : App.store) (sub : dict) :
  Forall (fun s => well_formed s = true) (default [] file) ->
  most_recent (App.email form) (default [] file) = Some sub ->
  elapsed_days t_check sub < 7 ->
  App.name form <> "" ->
  App.validate_email (App.email form) = true ->
  App.submit_application rules messages t_check t_stamp t_save form file
  = Ok (file, App.AlreadySubmitted (7 - elapsed_days t_check sub)).
Proof.
  intros Hwf Hm Hd Hname Hmail.
  eapply submit_application_blocked; [exact Hname|exact Hmail|].
  apply (check_blocked _ _ _ _ Hwf Hm Hd).
Qed.

Lemma submit_application_cooldown_witness :
  App.submit_application sample_rules sample_messages (5 * day) (5 * day) (5 * day)
    (sample_form "ADA@example.com") (Some sample_ledger)
  = Ok (Some sample_ledger,
        App.AlreadySubmitted
          (7 - elapsed_days (5 * day) (sample_record "ada@example.com" (2 * day)))).
Proof.
  apply (submit_application_cooldown sample_rules sample_messages
           (5 * day) (5 * day) (5 * day) (sample_form "ADA@example.com")
           (Some sample_ledger) (sample_record "ada@example.com" (2 * day))).
  - exact sample_ledger_well_formed.
  - evaluate.
  - vm_compute. reflexivity.
  - discriminate.
  - evaluate.
Defined.

(** X15. While the most recent record of an email is less than seven days
    old, the API refuses a body that has the six required fields and that
    email (in any letter case): it answers with a conflict that carries
    the days remaining and the record found, and leaves the file as it
    was. Nothing else in the body is looked at. *)
Theorem api_evaluate_cooldown {L : StrLower}
    (rules : Rules) (messages : Messages) (t_check t_stamp t_save : Z)
    (application : dict) (email : string) (file : App.store) (sub : dict) :
  Forall (fun s => well_formed s = true) (default [] file) ->
  most_recent email (default [] file) = Some sub ->
  elapsed_days t_check sub < 7 ->
  Forall (fun field => is_Some (application !! field))
    ["name"; "email"; "loan_amount"; "credit_score"; "annual_income"; "has_bankruptcy"] ->
  application !! "email" = Some (VStr email) ->
  App.api_evaluate rules messages t_check t_stamp t_save application file
  = (file, App.ApiConflict (7 - elapsed_days t_check sub) (Some sub)).
Proof.
  intros Hwf Hm Hd Hreq Hemail. unfold App.api_evaluate.
  rewrite (find_required_None _ _ Hreq). unfold getitem. rewrite Hemail.
  unfold_bind. rewrite (check_blocked _ _ _ _ Hwf Hm Hd). reflexivity.
Qed.

Lemma api_evaluate_cooldown_witness :
  App.api_evaluate sample_rules sample_messages (5 * day) (5 * day) (5 * day)
    (sample_application VNone 0 0 false) (Some sample_ledger)
  = (Some sample_ledger,
     App.ApiConflict
       (7 - elapsed_days (5 * day) (sample_record "ada@example.com" (2 * day)))
       (Some (sample_record "ada@example.com" (2 * day)))).
Proof.
  apply (api_evaluate_cooldown sample_rules sample_messages
           (5 * day) (5 * day) (5 * day) (sample_application VNone 0 0 false)
           "ada@example.com" (Some sample_ledger)
           (sample_record "ada@example.com" (2 * day))).
  - exact sample_ledger_well_formed.
  - evaluate.
  - vm_compute. reflexivity.
  - repeat constructor; eexists; reflexivity.
  - reflexivity.
Defined.

(** X16. A resubmission after the cooldown replaces the old record. When
    the most recent record of the form's email is at least seven days old
    at the eligibility check, a form that passes the checks gets a result
    page, and the file afterwards is the file before with that old record
    overwritten, at its position, by the new one: the ledger does not
    grow. *)
Theorem resubmission_replaces_record {L : StrLower}
    (rules : Rules) (messages : Messages) (t_check t_stamp t_save : Z)
    (form : App.Form) (file : App.store)
    (loan_amount : float) (credit_score : Z) (annual_income : float)
    (old : dict) (fallback : Template) :
  ledger_invariant file ->
  decisions messages !! "denied" = Some fallback ->
  form_valid form loan_amount credit_score annual_income ->
  most_recent (App.email form) (default [] file) = Some old ->
  7 <= elapsed_days t_check old ->
  t_check <= t_save ->
  exists (i : nat) (decision : string) (message_data : dict),
    default [] file !! i = Some old
    /\ evaluate_application rules messages
         (form_application form loan_amount credit_score annual_income t_stamp)
       = Ok (decision, message_data)
    /\ App.submit_application rules messages t_check t_stamp t_save form file
       = Ok (Some (<[i := form_record
                           (form_application form loan_amount credit_score
                              annual_income t_stamp) decision]> (default [] file)),
             App.ResultPage decision message_data).
Proof.
  intros Hinv Hf Hvalid Hm Hold Ht.
  rewrite (submit_application_valid rules messages _ _ _ _ _ _ _ _ Hvalid).
  destruct (check_not_blocked t_check file (App.email form) (proj1 Hinv))
    as (days & o & Hcheck); [now rewrite Hm|].
  rewrite Hcheck. unfold_bind.
  destruct (evaluate_application_returns rules messages _ _ _ _ _ _
              (form_application_well_typed form loan_amount credit_score annual_income
                 t_stamp) Hf) as (decision & md & Heval).
  rewrite Heval.
  destruct (save_submission_replaces t_save
              (form_record (form_application form loan_amount credit_score annual_income
                              t_stamp) decision) file (App.email form) old Hinv
              (form_record_email _ _ _ _ _ _) Hm) as (i & Hi & Hsave).
  { unfold elapsed_days in *. pose proof (days_between_mono _ _ (timestamp old) Ht).
    change App.RESUBMISSION_DAYS with 7. lia. }
  rewrite Hsave. exists i, decision, md. auto.
Qed.

Lemma resubmission_replaces_record_witness :
  exists (i : nat) (decision : string) (message_data : dict),
    [sample_record "bob@example.org" day; sample_record "ada@example.com" (2 * day)] !! i
    = Some (sample_record "ada@example.com" (2 * day))
    /\ evaluate_application sample_rules sample_messages
         (form_application (sample_form "Ada@example.com") 10000 780 50000 (9 * day))
       = Ok (decision, message_data)
    /\ App.submit_application sample_rules sample_messages (9 * day) (9 * day) (9 * day)
         (sample_form "Ada@example.com")
         (Some [sample_record "bob@example.org" day;
                sample_record "ada@example.com" (2 * day)])
       = Ok (Some (<[i := form_record
                           (form_application (sample_form "Ada@example.com")
                              10000 780 50000 (9 * day)) decision]>
                     [sample_record "bob@example.org" day;
                      sample_record "ada@example.com" (2 * day)]),
             App.ResultPage decision message_data).
Proof.
  apply (resubmission_replaces_record sample_rules sample_messages
              (9 * day) (9 * day) (9 * day) (sample_form "Ada@example.com")
              (Some [sample_record "bob@example.org" day;
                     sample_record "ada@example.com" (2 * day)])
              10000 780 50000 (sample_record "ada@example.com" (2 * day))
              (sample_template "Denied" "We cannot offer a loan of ${loan_amount}.")).
  - split; [repeat constructor|].
    change (emails _) with ["bob@example.org"; "ada@example.com"].
    apply NoDup_cons_2; [|apply NoDup_singleton].
    intros Hin. apply list_elem_of_singleton in Hin. discriminate.
  - reflexivity.
  - repeat split; try discriminate; try reflexivity; lia.
  - evaluate.
  - vm_compute. discriminate.
  - lia.
Defined.

(** X17. A first submission is appended. When no record has the form's
    email, a form that passes the checks gets a result page with the
    decision of [evaluate_application], and the file afterwards is the
    file before (the empty list when there was no file) with the new
    record at its end. *)
Theorem first_submission_appends {L : StrLower}
    (rules : Rules) (messages : Messages) (t_check t_stamp t_save : Z)
    (form : App.Form) (file : App.store)
    (loan_amount : float) (credit_score : Z) (annual_income : float)
    (fallback : Template) :
  Forall (fun s => well_formed s = true) (default [] file) ->
  decisions messages !! "denied" = Some fallback ->
  form_valid form loan_amount credit_score annual_income ->
  most_recent (App.email form) (default [] file) = None ->
  exists (decision : string) (message_data : dict),
    evaluate_application rules messages
      (form_application form loan_amount credit_score annual_income t_stamp)
    = Ok (decision, message_data)
    /\ App.submit_application rules messages t_check t_stamp t_save form file
       = Ok (Some (default [] file ++
                   [form_record
                      (form_application form loan_amount credit_score annual_income
                         t_stamp) decision])%list,
             App.ResultPage decision message_data).
Proof.
  intros Hwf Hf Hvalid Hm.
  rewrite (submit_application_valid rules messages _ _ _ _ _ _ _ _ Hvalid).
  destruct (check_not_blocked t_check file (App.email form) Hwf)
    as (days & o & Hcheck); [now rewrite Hm|].
  rewrite Hcheck. unfold_bind.
  destruct (evaluate_application_returns rules messages _ _ _ _ _ _
              (form_application_well_typed form loan_amount credit_score annual_income
                 t_stamp) Hf) as (decision & md & Heval).
  rewrite Heval.
  rewrite (save_submission_appends t_save _ file (App.email form) Hwf
             (form_record_email _ _ _ _ _ _) Hm).
  eauto.
Qed.

Lemma first_submission_appends_witness :
  exists (decision : string) (message_data : dict),
    evaluate_application sample_rules sample_messages
      (form_application (sample_form "carol@example.net") 10000 780 50000 (3 * day))
    = Ok (decision, message_data)
    /\ App.submit_application sample_rules sample_messages (3 * day) (3 * day) (3 * day)
         (sample_form "carol@example.net") (Some sample_ledger)
       = Ok (Some (sample_ledger ++
                   [form_record
                      (form_application (sample_form "carol@example.net")
                         10000 780 50000 (3 * day)) decision])%list,
             App.ResultPage decision message_data).
Proof.
  apply (first_submission_appends sample_rules sample_messages
           (3 * day) (3 * day) (3 * day) (sample_form "carol@example.net")
           (Some sample_ledger) 10000 780 50000
           (sample_template "Denied" "We cannot offer a loan of ${loan_amount}.")).
  - exact sample_ledger_well_formed.
  - reflexivity.
  - repeat split; try discriminate; try reflexivity; lia.
  - evaluate.
Defined.

(** X18. Two submissions in a row. After a form got its result page, a
    later form with the same email in any letter case (with a name, and
    passing the email pattern) is refused for as long as less than seven
    times 24 hours have passed since the timestamp of the first: the
    answer carries seven minus the whole days elapsed, between 1 and 7,
    and the file stays as the first submission left it. *)
Theorem resubmission_refused_within_cooldown {L : StrLower}
    (rules : Rules) (messages : Messages)
    (t_check t_stamp t_save t_check' t_stamp' t_save' : Z)
    (form form' : App.Form) (file file' : App.store)
    (decision : string) (message_data : dict) :
  ledger_invariant file ->
  App.submit_application rules messages t_check t_stamp t_save form file
  = Ok (file', App.ResultPage decision message_data) ->
  App.name form' <> "" ->
  App.validate_email (App.email form') = true ->
  lower (App.email form') = lower (App.email form) ->
  t_stamp <= t_check' < t_stamp + 7 * day ->
  App.submit_application rules messages t_check' t_stamp' t_save' form' file'
  = Ok (file', App.AlreadySubmitted (7 - App.days_between t_check' t_stamp))
  /\ 1 <= 7 - App.days_between t_check' t_stamp <= 7.
Proof.
  intros Hinv H Hname Hmail Hlower [Hge Hlt].
  pose proof (proj2 (days_between_lt t_check' t_stamp 7) Hlt) as Hd.
  assert (Hpos : 0 <= App.days_between t_check' t_stamp).
  { unfold App.days_between. apply Z.div_pos; [lia|reflexivity]. }
  split; [|lia].
  destruct (submit_application_inv rules messages _ _ _ _ _ _ _ H)
    as [[_ [[error Hr]|(days & old & Hr & _)]]
       |(la & cs & inc & d & md & days & old & _ & _ & _ & Hsave & _)];
    [discriminate Hr|discriminate Hr|].
  eapply submit_application_blocked; [exact Hname|exact Hmail|].
  rewrite (check_after_save t_check' t_save _ file file' (App.email form)
             (App.email form') t_stamp Hinv (form_record_email _ _ _ _ _ _)
             (form_record_timestamp _ _ _ _ _ _) Hsave Hlower).
  destruct (Z.ltb_spec (App.days_between t_check' t_stamp) 7); [reflexivity|lia].
Qed.

Lemma resubmission_refused_within_cooldown_witness :
  App.submit_application sample_rules sample_messages (6 * day) (6 * day) (6 * day)
    (sample_form "ADA@EXAMPLE.COM")
    (Some [form_record
             (form_application (sample_form "Ada@example.com") 10000 780 50000 (3 * day))
             "pre_approved"])
  = Ok (Some [form_record
                (form_application (sample_form "Ada@example.com") 10000 780 50000
                   (3 * day))
                "pre_approved"],
        App.AlreadySubmitted (7 - App.days_between (6 * day) (3 * day)))
  /\ 1 <= 7 - App.days_between (6 * day) (3 * day) <= 7.
Proof.
  refine (resubmission_refused_within_cooldown sample_rules sample_messages
            (3 * day) (3 * day) (3 * day) (6 * day) (6 * day) (6 * day)
            (sample_form "Ada@example.com") (sample_form "ADA@EXAMPLE.COM")
            None
            (Some [form_record
                     (form_application (sample_form "Ada@example.com")
                        10000 780 50000 (3 * day))
                     "pre_approved"])
            "pre_approved"
            (<["loan_to_income_ratio" := VNum (Float 0.2)]>
               (message_dict "pre_approved"
                  (sample_template "Pre-approved"
                     "Your loan of ${loan_amount} is pre-approved.")
                  "10,000.00")) _ _ _ _ _ _).
  - split; [constructor|apply NoDup_nil_2].
  - evaluate.
  - discriminate.
  - evaluate.
  - reflexivity.
  - vm_compute. split; [discriminate|reflexivity].
Defined.

(** ** The API handler *)

Section ApiFacts.

Context (rules : Rules) (messages : Messages) {L : StrLower}.

(** What the API handler answered, read backwards. *)
Lemma api_evaluate_inv (t_check t_stamp t_save : Z) (application : dict)
    (file file' : App.store) (r : App.response) :
  App.api_evaluate rules messages t_check t_stamp t_save application file = (file', r) ->
  (file' = file /\ forall decision message_data, r <> App.ApiSuccess decision message_data)
  \/ exists address decision message_data days old,
       application !! "email" = Some (VStr address)
       /\ App.check_existing_submission t_check file (VStr address) = Ok (false, days, old)
       /\ evaluate_application rules messages (<["timestamp" := VTime t_stamp]> application)
          = Ok (decision, message_data)
       /\ App.save_submission t_save (api_record application t_stamp decision) file
          = Ok file'
       /\ r = App.ApiSuccess decision message_data.
Proof.
  unfold App.api_evaluate.
  destruct (List.find _ _); [intros [= <- <-]; left; split; [reflexivity|discriminate]|].
  match goal with |- context [match ?o with Ok _ => _ | Raise _ => _ end] =>
    destruct o as [[saved r']|e] eqn:Hout end;
    [|intros [= <- <-]; left; split; [reflexivity|discriminate]].
  intros [= -> ->].
  destruct (bind_Ok _ _ _ Hout) as (address & Haddr & H1). clear Hout.
  destruct (bind_Ok _ _ _ H1) as ([[blocked days] old] & Hcheck & H2). clear H1.
  destruct blocked; [injection H2 as <- <-; left; split; [reflexivity|discriminate]|].
  destruct (bind_Ok _ _ _ H2) as ([decision message_data] & Heval & H3). clear H2.
  destruct (bind_Ok _ _ _ H3) as (saved' & Hsave & H4). clear H3.
  injection H4 as <- <-. right.
  destruct (save_submission_email _ _ _ _ Hsave) as (s & Hs).
  rewrite !lookup_insert_ne in Hs by discriminate.
  unfold getitem in Haddr. rewrite Hs in Haddr. injection Haddr as <-.
  exists s, decision, message_data, days, old. auto.
Qed.

Lemma api_record_email (application : dict) (t_stamp : Z) (decision : string) :
  api_record application t_stamp decision !! "email" = application !! "email".
Proof. unfold api_record. now rewrite !lookup_insert_ne by discriminate. Qed.

Lemma api_record_timestamp (application : dict) (t_stamp : Z) (decision : string) :
  api_record application t_stamp decision !! "timestamp" = Some (VTime t_stamp).
Proof.
  unfold api_record. rewrite !lookup_insert_ne by discriminate. apply lookup_insert_eq.
Qed.

End ApiFacts.

(** X19. What the API's answer tells about the ledger. Any answer other
    than a success leaves the file as it was. A success is answered only
    for a body whose [email] is a text; its decision and message are those
    of [evaluate_application] on the body with the server's timestamp, and
    afterwards the most recent record of that email is the body with the
    server's timestamp, the decision of the engine and the source [api]:
    a [timestamp], [decision] or [source] sent by the client is
    overwritten. *)
Theorem api_evaluate_outcome {L : StrLower}
    (rules : Rules) (messages : Messages) (t_check t_stamp t_save : Z)
    (application : dict) (file file' : App.store) (r : App.response) :
  ledger_invariant file ->
  App.api_evaluate rules messages t_check t_stamp t_save application file = (file', r) ->
  match r with
  | App.ApiSuccess decision message_data =>
      exists address : string,
        application !! "email" = Some (VStr address)
        /\ evaluate_application rules messages (<["timestamp" := VTime t_stamp]> application)
           = Ok (decision, message_data)
        /\ most_recent address (default [] file')
           = Some (api_record application t_stamp decision)
        /\ api_record application t_stamp decision !! "decision" = Some (VStr decision)
        /\ api_record application t_stamp decision !! "source" = Some (VStr "api")
        /\ api_record application t_stamp decision !! "timestamp" = Some (VTime t_stamp)
  | _ => file' = file
  end.
Proof.
  intros Hinv H.
  destruct (api_evaluate_inv rules messages _ _ _ _ _ _ _ H)
    as [[-> Hr]|(address & decision & md & days & old & Hemail & _ & Heval & Hsave & ->)].
  - destruct r; try reflexivity. now destruct (Hr decision message_data).
  - exists address. split; [exact Hemail|]. split; [exact Heval|]. split.
    + eapply most_recent_after_save;
        [exact Hinv| |apply api_record_timestamp|exact Hsave|reflexivity].
      now rewrite api_record_email.
    + unfold api_record. repeat split.
      * rewrite lookup_insert_ne by discriminate. apply lookup_insert_eq.
      * apply lookup_insert_eq.
      * rewrite !lookup_insert_ne by discriminate. apply lookup_insert_eq.
Qed.

Lemma api_evaluate_outcome_witness :
  let application :=
    <["decision" := VStr "pre_approved"]>
      (sample_application (VNum (Int 2000000)) 780 50000 false) in
  exists address : string,
    application !! "email" = Some (VStr address)
    /\ evaluate_application sample_rules sample_messages
         (<["timestamp" := VTime day]> application)
       = Ok ("denied_compliance",
             message_dict "denied_compliance"
               (sample_template "Not eligible"
                  "Your request for ${loan_amount} does not meet our requirements.")
               "2,000,000.00")
    /\ most_recent address [api_record application day "denied_compliance"]
       = Some (api_record application day "denied_compliance")
    /\ api_record application day "denied_compliance" !! "decision"
       = Some (VStr "denied_compliance")
    /\ api_record application day "denied_compliance" !! "source" = Some (VStr "api")
    /\ api_record application day "denied_compliance" !! "timestamp" = Some (VTime day).
Proof.
  refine (api_evaluate_outcome sample_rules sample_messages day day day
            (<["decision" := VStr "pre_approved"]>
               (sample_application (VNum (Int 2000000)) 780 50000 false))
            None
            (Some [api_record
                     (<["decision" := VStr "pre_approved"]>
                        (sample_application (VNum (Int 2000000)) 780 50000 false))
                     day "denied_compliance"])
            (App.ApiSuccess "denied_compliance"
               (message_dict "denied_compliance"
                  (sample_template "Not eligible"
                     "Your request for ${loan_amount} does not meet our requirements.")
                  "2,000,000.00")) _ _).
  - split; [constructor|apply NoDup_nil_2].
  - evaluate.
Defined.

(** ** The contact handler *)

Lemma contact_marked_email {L : StrLower} (now : Z) (preference : string) (sub : dict) :
  normalized_email (contact_marked now preference sub) = normalized_email sub.
Proof.
  unfold normalized_email, contact_marked. now rewrite !lookup_insert_ne by discriminate.
Qed.

Lemma contact_marked_timestamp (now : Z) (preference : string) (sub : dict) :
  timestamp (contact_marked now preference sub) = timestamp sub.
Proof.
  unfold timestamp, contact_marked. now rewrite !lookup_insert_ne by discriminate.
Qed.

(** The loop of [contact_preference] marks the first record of the email
    that it meets, and nothing when it meets none. *)
Lemma mark_contact_spec {L : StrLower} (now : Z) (preference email : string) (submissions : list dict) :
  Forall (fun s => well_formed s = true) submissions ->
  (Forall (fun s => same_email email s = false) submissions
   /\ App.mark_contact now preference email submissions = Ok submissions)
  \/ exists pre sub post,
       submissions = (pre ++ sub :: post)%list
       /\ Forall (fun s => same_email email s = false) pre
       /\ same_email email sub = true
       /\ App.mark_contact now preference email submissions
          = Ok (pre ++ contact_marked now preference sub :: post)%list.
Proof.
  induction 1 as [|sub rest Hsub Hrest IH].
  - left. split; [constructor|reflexivity].
  - cbn [App.mark_contact]. rewrite (email_lower_wf _ Hsub). unfold_bind.
    fold (same_email email sub). destruct (same_email email sub) eqn:Hs.
    + right. exists [], sub, rest. repeat split; [constructor|exact Hs].
    + destruct IH as [[Hall ->]|(pre & x & post & -> & Hpre & Hx & ->)].
      * left. split; [now constructor|reflexivity].
      * right. exists (sub :: pre), x, post. repeat split; [now constructor|exact Hx].
Qed.

Lemma filter_same_email_none {L : StrLower} (email : string) (submissions : list dict) :
  Forall (fun s => same_email email s = false) submissions ->
  List.filter (same_email email) submissions = [].
Proof. intros H. apply filter_none. now apply Forall_forall. Qed.

(** What [contact_preference] does to the file. *)
Lemma contact_preference_marks {L : StrLower}
    (messages : Messages) (now : Z) (preference email : string) (file : App.store) :
  Forall (fun s => well_formed s = true) (default [] file) ->
  match most_recent email (default [] file) with
  | None => fst (App.contact_preference messages now preference email file) = file
  | Some sub =>
      exists before after : list dict,
        default [] file = (before ++ sub :: after)%list
        /\ Forall (fun s => same_email email s = false) after
        /\ fst (App.contact_preference messages now preference email file)
           = Some (before ++ contact_marked now preference sub :: after)%list
  end.
Proof.
  intros Hwf. unfold App.contact_preference. cbn [fst].
  destruct file as [submissions|]; [|reflexivity]. cbn [default from_option id] in *.
  destruct (mark_contact_spec now preference email (rev submissions))
    as [[Hall ->]|(pre & sub & post & Hrev & Hpre & Hsub & ->)];
    [now apply List.Forall_rev| |].
  - apply List.Forall_rev in Hall. rewrite rev_involutive in Hall.
    unfold most_recent. rewrite (filter_same_email_none _ _ Hall), rev_involutive.
    reflexivity.
  - assert (Hl : submissions = (rev post ++ sub :: rev pre)%list).
    { rewrite <- (rev_involutive submissions), Hrev, rev_app_distr. cbn [rev].
      now rewrite <- app_assoc. }
    apply List.Forall_rev in Hpre.
    assert (Hm : most_recent email submissions = Some sub).
    { rewrite Hl. unfold most_recent. rewrite List.filter_app. cbn [List.filter].
      rewrite Hsub, (filter_same_email_none _ _ Hpre). apply last_snoc. }
    rewrite Hm. exists (rev post), (rev pre). split; [exact Hl|]. split; [exact Hpre|].
    rewrite rev_app_distr. cbn [rev]. now rewrite <- app_assoc.
Qed.

(** X20. Recording a contact preference changes one record at most. On a
    ledger of well-formed records, [contact_preference] gives the two
    contact fields to the most recent record of the email (compared
    without regard to letter case) and leaves every other record, the
    order and the length of the ledger as they were; with no record of
    that email, or no file, nothing changes. *)
Theorem contact_preference_frame {L : StrLower}
    (messages : Messages) (now : Z) (preference email : string) (file : App.store) :
  Forall (fun s => well_formed s = true) (default [] file) ->
  match most_recent email (default [] file) with
  | None => fst (App.contact_preference messages now preference email file) = file
  | Some sub =>
      exists before after : list dict,
        default [] file = (before ++ sub :: after)%list
        /\ Forall (fun s => same_email email s = false) after
        /\ fst (App.contact_preference messages now preference email file)
           = Some (before ++ contact_marked now preference sub :: after)%list
  end.
Proof. apply contact_preference_marks. Qed.

Lemma contact_preference_frame_witness :
  exists before after : list dict,
    sample_ledger = (before ++ sample_record "ada@example.com" (2 * day) :: after)%list
    /\ Forall (fun s => same_email "ADA@example.com" s = false) after
    /\ fst (App.contact_preference sample_messages (3 * day) "yes" "ADA@example.com"
              (Some sample_ledger))
       = Some (before
               ++ contact_marked (3 * day) "yes" (sample_record "ada@example.com" (2 * day))
               :: after)%list.
Proof.
  exact (contact_preference_frame sample_messages (3 * day) "yes" "ADA@example.com"
           (Some sample_ledger) sample_ledger_well_formed).
Defined.

(** Replacing a record by one of the same email replaces it as the most
    recent record of an email, or leaves the most recent record alone. *)
Lemma most_recent_replace {L : StrLower} (query : string) (before after : list dict) (x y : dict) :
  normalized_email y = normalized_email x ->
  (most_recent query (before ++ x :: after) = Some x
   /\ most_recent query (before ++ y :: after) = Some y)
  \/ most_recent query (before ++ y :: after) = most_recent query (before ++ x :: after).
Proof.
  intros He. unfold most_recent. rewrite !List.filter_app. cbn [List.filter].
  assert (Hs : same_email query y = same_email query x).
  { unfold same_email. now rewrite He. }
  rewrite Hs. destruct (same_email query x); [|now right].
  destruct (List.filter (same_email query) after) as [|a rest].
  - left. split; apply last_snoc.
  - right. rewrite !last_app, !last_cons_cons. reflexivity.
Qed.

(** X21. Recording a contact preference does not touch the cooldown. On a
    ledger of well-formed records, [check_existing_submission] answers
    after [contact_preference] as it would have before, for every email
    and at every instant: the same verdict and the same days remaining;
    the record it returns is the same one, with the two contact fields
    when it is the record that was marked. *)
Theorem contact_preference_keeps_cooldown {L : StrLower}
    (messages : Messages) (now : Z) (preference email : string) (file : App.store)
    (t : Z) (query : string) (blocked : bool) (days_remaining : Z) (old : option dict) :
  Forall (fun s => well_formed s = true) (default [] file) ->
  App.check_existing_submission t file (VStr query) = Ok (blocked, days_remaining, old) ->
  exists old' : option dict,
    App.check_existing_submission t
      (fst (App.contact_preference messages now preference email file)) (VStr query)
    = Ok (blocked, days_remaining, old')
    /\ (old' = old \/ old' = contact_marked now preference <$> old).
Proof.
  intros Hwf Hcheck.
  pose proof (contact_preference_marks messages now preference email file Hwf) as H.
  destruct (most_recent email (default [] file)) as [sub|].
  2:{ rewrite H. exists old. auto. }
  destruct H as (before & after & Hl & _ & ->).
  rewrite (check_existing_submission_eq _ _ _ Hwf), Hl in Hcheck.
  rewrite Hl in Hwf. apply Forall_app in Hwf as [Hbefore Hafter].
  apply Forall_cons in Hafter as [Hsub Hafter].
  rewrite check_existing_submission_eq; cbn [default from_option id].
  2:{ apply Forall_app. split; [exact Hbefore|]. constructor; [|exact Hafter].
      revert Hsub. unfold well_formed, contact_marked.
      now rewrite !lookup_insert_ne by discriminate. }
  destruct (most_recent_replace query before after sub (contact_marked now preference sub)
              (contact_marked_email _ _ _)) as [[Hx Hy]|Heq].
  - rewrite Hx in Hcheck. rewrite Hy. unfold elapsed_days in *.
    rewrite contact_marked_timestamp.
    destruct (App.days_between t (timestamp sub) <? App.RESUBMISSION_DAYS);
      injection Hcheck as <- <- <-; eexists; split; try reflexivity; now right.
  - rewrite Heq. exists old. auto.
Qed.

Lemma contact_preference_keeps_cooldown_witness :
  exists old' : option dict,
    App.check_existing_submission (5 * day)
      (fst (App.contact_preference sample_messages (3 * day) "yes" "ADA@example.com"
              (Some sample_ledger))) (VStr "Ada@Example.com")
    = Ok (true, 4, old')
    /\ (old' = Some (sample_record "ada@example.com" (2 * day))
        \/ old' = contact_marked (3 * day) "yes"
                    <$> Some (sample_record "ada@example.com" (2 * day))).
Proof.
  apply (contact_preference_keeps_cooldown sample_messages (3 * day) "yes"
           "ADA@example.com" (Some sample_ledger) (5 * day) "Ada@Example.com").
  - exact sample_ledger_well_formed.
  - evaluate.
Defined.

(** ** What a request leaves alone *)

Section Frame.

Context (rules : Rules) (messages : Messages) {L : StrLower}.

Lemma save_submission_length (now : Z) (data : dict) (file file' : App.store) :
  App.save_submission now data file = Ok file' ->
  (length (default [] file) <= length (default [] file') <= S (length (default [] file)))%nat.
Proof.
  unfold App.save_submission. intros H.
  destruct (bind_Ok _ _ _ H) as (address & _ & H1). clear H.
  destruct (bind_Ok _ _ _ H1) as (email & _ & H2). clear H1.
  destruct (bind_Ok _ _ _ H2) as (updated & _ & H3). clear H2.
  destruct updated as [i|]; injection H3 as <-; cbn [default from_option id].
  - rewrite length_insert. lia.
  - rewrite length_app. cbn [length]. lia.
Qed.

Lemma mark_contact_length (now : Z) (preference email : string)
    (submissions marked : list dict) :
  App.mark_contact now preference email submissions = Ok marked ->
  length marked = length submissions.
Proof.
  revert marked. induction submissions as [|sub rest IH]; intros marked.
  - intros [= <-]. reflexivity.
  - cbn [App.mark_contact]. intros H.
    destruct (bind_Ok _ _ _ H) as (stored & _ & H1). clear H.
    destruct (String.eqb _ _); [injection H1 as <-; reflexivity|].
    destruct (bind_Ok _ _ _ H1) as (rest' & Hrest & H2). injection H2 as <-.
    cbn [length]. f_equal. now apply IH.
Qed.

Lemma handle_length (file : App.store) (r : request) :
  (length (default [] file) <= length (default [] (handle rules messages file r))
   <= S (length (default [] file)))%nat.
Proof.
  destruct r as [t1 t2 t3 form|t1 t2 t3 application|now p e]; cbn [handle].
  - destruct (App.submit_application rules messages t1 t2 t3 form file)
      as [[file' r]|] eqn:H; [|lia].
    destruct (submit_application_inv rules messages _ _ _ _ _ _ _ H)
      as [[-> _]|(la & cs & inc & d & md & days & old & _ & _ & _ & Hsave & _)]; [lia|].
    exact (save_submission_length _ _ _ _ Hsave).
  - destruct (App.api_evaluate rules messages t1 t2 t3 application file) as [file' r] eqn:H.
    cbn [fst].
    destruct (api_evaluate_inv rules messages _ _ _ _ _ _ _ H)
      as [[-> _]|(a & d & md & days & old & _ & _ & _ & Hsave & _)]; [lia|].
    exact (save_submission_length _ _ _ _ Hsave).
  - unfold App.contact_preference. cbn [fst].
    destruct file as [submissions|]; [|lia].
    destruct (App.mark_contact now p e (rev submissions)) as [marked|] eqn:Hm; [|lia].
    apply mark_contact_length in Hm. cbn [default from_option id].
    rewrite length_rev, Hm, length_rev. lia.
Qed.

Lemma lookup_middle_ne {A} (before after : list A) (x y : A) (j : nat) :
  j <> length before ->
  (before ++ y :: after)%list !! j = (before ++ x :: after)%list !! j.
Proof.
  intros Hj. destruct (Nat.lt_ge_cases j (length before)) as [Hlt|Hge].
  - now rewrite !lookup_app_l by exact Hlt.
  - rewrite !lookup_app_r by exact Hge.
    destruct (j - length before)%nat as [|k] eqn:Hk; [lia|reflexivity].
Qed.

(** A save leaves the records of other emails where they are. *)
Lemma save_submission_other (now : Z) (data : dict) (file file' : App.store)
    (address : string) (j : nat) (sub : dict) :
  Forall (fun s => well_formed s = true) (default [] file) ->
  data !! "email" = Some (VStr address) ->
  App.save_submission now data file = Ok file' ->
  default [] file !! j = Some sub ->
  same_email address sub = false ->
  default [] file' !! j = Some sub.
Proof.
  intros Hwf Hemail Hsave Hj Hsub.
  destruct (save_submission_cases now data file address Hemail Hwf)
    as [(i & old & Hi & Hstale & _ & H)|[_ H]];
    rewrite H in Hsave; injection Hsave as <-; cbn [default from_option id].
  - rewrite list_lookup_insert_ne; [exact Hj|]. intros ->.
    apply stale_same_email, same_email_normalized in Hstale. congruence.
  - rewrite lookup_app_l; [exact Hj|]. eapply lookup_lt_Some, Hj.
Qed.

Lemma handle_other (file : App.store) (r : request) (j : nat) (sub : dict) :
  Forall (fun s => well_formed s = true) (default [] file) ->
  default [] file !! j = Some sub ->
  same_email (request_email r) sub = false ->
  default [] (handle rules messages file r) !! j = Some sub.
Proof.
  intros Hwf Hj Hsub.
  destruct r as [t1 t2 t3 form|t1 t2 t3 application|now p e];
    cbn [handle request_email] in *.
  - destruct (App.submit_application rules messages t1 t2 t3 form file)
      as [[file' r]|] eqn:H; [|exact Hj].
    destruct (submit_application_inv rules messages _ _ _ _ _ _ _ H)
      as [[-> _]|(la & cs & inc & d & md & days & old & _ & _ & _ & Hsave & _)];
      [exact Hj|].
    exact (save_submission_other _ _ _ _ _ _ _ Hwf (form_record_email _ _ _ _ _ _)
             Hsave Hj Hsub).
  - destruct (App.api_evaluate rules messages t1 t2 t3 application file) as [file' r] eqn:H.
    cbn [fst].
    destruct (api_evaluate_inv rules messages _ _ _ _ _ _ _ H)
      as [[-> _]|(a & d & md & days & old & Hemail & _ & _ & Hsave & _)]; [exact Hj|].
    rewrite Hemail in Hsub.
    refine (save_submission_other _ _ _ _ a _ _ Hwf _ Hsave Hj Hsub).
    now rewrite api_record_email.
  - pose proof (contact_preference_marks messages now p e file Hwf) as H.
    destruct (most_recent e (default [] file)) as [x|] eqn:Hm; [|now rewrite H].
    destruct H as (before & after & Hl & _ & ->). cbn [default from_option id].
    rewrite (lookup_middle_ne before after x); [now rewrite <- Hl|].
    intros ->. rewrite Hl, list_lookup_middle in Hj by reflexivity.
    injection Hj as <-. apply most_recent_Some in Hm as [_ Hx]. congruence.
Qed.

End Frame.

(** X22. No request removes a record. Whatever the requests and the file
    hold, after a run of requests the ledger has at least the records it
    had, and at most one more for each request: a handler overwrites a
    record in place or appends one, and never deletes. *)
Theorem serve_never_shrinks {L : StrLower}
    (rules : Rules) (messages : Messages) (requests : list request) (file : App.store) :
  (length (default [] file)
   <= length (default [] (serve rules messages requests file))
   <= length (default [] file) + length requests)%nat.
Proof.
  revert file. induction requests as [|r requests IH]; intros file.
  - cbn. lia.
  - unfold serve in *. cbn [fold_left length].
    pose proof (handle_length rules messages file r).
    pose proof (IH (handle rules messages file r)). lia.
Qed.

(** X23. A request touches the records of its own email only. On a ledger
    of well-formed records, a record whose email differs (letter case
    apart) from the email of the request is found at the same position,
    unchanged, after the request, whichever of the three handlers serves
    it and whatever it answers. *)
Theorem handle_other_emails_untouched {L : StrLower}
    (rules : Rules) (messages : Messages) (file : App.store) (r : request)
    (j : nat) (sub : dict) :
  Forall (fun s => well_formed s = true) (default [] file) ->
  default [] file !! j = Some sub ->
  same_email (request_email r) sub = false ->
  default [] (handle rules messages file r) !! j = Some sub.
Proof. apply handle_other. Qed.

Lemma handle_other_emails_untouched_witness :
  default []
    (handle sample_rules sample_messages (Some sample_ledger)
       (SubmitForm (9 * day) (9 * day) (9 * day) (sample_form "ADA@example.com")))
  !! 1%nat = Some (sample_record "bob@example.org" day).
Proof.
  apply (handle_other_emails_untouched sample_rules sample_messages (Some sample_ledger)
           (SubmitForm (9 * day) (9 * day) (9 * day) (sample_form "ADA@example.com"))
           1%nat (sample_record "bob@example.org" day)).
  - exact sample_ledger_well_formed.
  - reflexivity.
  - evaluate.
Defined.
